(** * AoikRegistryEditor: a shallow embedding of its event, registry,
      listbox, text-entry, menu-tree and selection-memo code.

    Python objects become records, methods become functions in a small
    state-and-exception monad, and the calls a method makes to registered
    event handlers are recorded in a trace. *)

From stdpp Require Import base numbers list strings gmap sorting.

Local Open Scope Z_scope.

(** ** Python outcomes and the execution monad *)

Module Py.

  (** The exception classes the modelled code raises or catches.
      [CircularCallError] and [DisabledError] are the two classes nested in
      [ListboxVidget]; [pywintypes_error] is what the Win32 calls raise;
      [RecursionError] is raised when the interpreter's recursion limit is
      reached. Exception messages are not modelled. *)
Inductive exn : Set :=
  | ValueError
  | IndexError
  | TypeError
  | KeyError
  | CircularCallError
  | DisabledError
  | RecursionError
  | pywintypes_error.

#[global] Instance exn_eq_dec : EqDecision exn.
Proof. solve_decision. Defined.

  (** A call either returns a value or raises. *)
Inductive outcome (A : Type) : Type :=
  | Ret (a : A)
  | Raise (e : exn).
Arguments Ret {A} a.
Arguments Raise {A} e.

Definition raised {A} (o : outcome A) : bool :=
    match o with Ret _ => false | Raise _ => true end.

  (** A computation reads and writes a world [W] and emits observations
      [T]. A raised exception keeps the world reached so far, as in
      Python. *)
Definition M (W T A : Type) : Type := W -> outcome A * W * list T.

Section Ops.
Context {W T : Type}.

Definition ret {A} (a : A) : M W T A := fun w => (Ret a, w, []).

Definition raise {A} (e : exn) : M W T A := fun w => (Raise e, w, []).

Definition bind {A B} (m : M W T A) (f : A -> M W T B) : M W T B :=
      fun w =>
        match m w with
        | (Ret a, w1, t1) =>
            match f a w1 with
            | (o, w2, t2) => (o, w2, t1 ++ t2)
            end
        | (Raise e, w1, t1) => (Raise e, w1, t1)
        end.

Definition get : M W T W := fun w => (Ret w, w, []).

Definition gets {A} (f : W -> A) : M W T A := fun w => (Ret (f w), w, []).

Definition modify (f : W -> W) : M W T unit := fun w => (Ret tt, f w, []).

    (** [try: m except e: h]: every exception accepted by [catches] is
        handled by [h]. *)
Definition try_except {A} (m : M W T A) (catches : exn -> bool)
        (h : M W T A) : M W T A :=
      fun w =>
        match m w with
        | (Ret a, w1, t1) => (Ret a, w1, t1)
        | (Raise e, w1, t1) =>
            if catches e
            then match h w1 with (o, w2, t2) => (o, w2, t1 ++ t2) end
            else (Raise e, w1, t1)
        end.

    (** [if c: body] without an else branch. *)
Definition when (c : bool) (body : M W T unit) : M W T unit :=
      if c then body else ret tt.

    (** [for x in l: body x]. *)
Fixpoint for_each {A} (l : list A) (body : A -> M W T unit) : M W T unit :=
      match l with
      | [] => ret tt
      | x :: l' => bind (body x) (fun _ => for_each l' body)
      end.
End Ops.

Definition result {W T A} (r : outcome A * W * list T) : outcome A := r.1.1.
Definition world {W T A} (r : outcome A * W * list T) : W := r.1.2.
Definition trace {W T A} (r : outcome A * W * list T) : list T := r.2.

End Py.

Export Py.

Declare Scope py_scope.
Delimit Scope py_scope with py.
Notation "x <- m ;; k" := (bind m (fun x => k))
  (at level 100, m at next level, right associativity) : py_scope.
Notation "m ;; k" := (bind m (fun _ => k))
  (at level 100, right associativity) : py_scope.
Local Open Scope py_scope.


(** ** Values handed to event handlers *)

(** Event arguments are arbitrary Python objects; the modelled code passes
    [None], the notifying object itself, or plain data. *)
Inductive pyval : Set :=
| PNone
| PSelf
| PStr (s : string)
| PInt (z : Z).

#[global] Instance pyval_eq_dec : EqDecision pyval.
Proof. solve_decision. Defined.

(** ** eventor.py *)

Module Eventor.

  (** [class Event]: event name, event argument, event notifier. *)
Record Event : Set := {
    event : option string;
    arg : pyval;
    notifier : pyval;
  }.

  (** What a handler wrapper is called with: the raw argument, or the
      event info object when [need_info] is set. *)
Inductive payload : Set :=
  | Raw (v : pyval)
  | Info (e : Event).

  (** [class _EventHandlerWrapper]. *)
Record _EventHandlerWrapper (Handler : Type) : Type := {
    handler : Handler;
    _need_arg : bool;
  }.
Arguments handler {Handler} _.
Arguments _need_arg {Handler} _.

  (** One call of a registered handler: the event being notified, the
      wrapper called, what it was called with and the world it saw. *)
Record call (W Handler : Type) : Type := {
    call_event : option string;
    call_wrapper : _EventHandlerWrapper Handler;
    call_arg : payload;
    call_world : W;
  }.
Arguments call_event {W Handler} _.
Arguments call_wrapper {W Handler} _.
Arguments call_arg {W Handler} _.
Arguments call_world {W Handler} _.

Section Eventor.
Context {W Handler : Type} `{EqDecision Handler}.

    (** What calling a handler does: with the argument or without it, on
        the world, returning or raising. Handlers are arbitrary callbacks;
        they may re-enter the object that notifies them. The handlers dict
        itself is kept apart from [W]: a handler that registers or removes
        handlers in the middle of a notification is outside this model. *)
Variable run : Handler -> option payload -> W -> outcome unit * W.

    (** [self._event_handlers]: event name ([None] for every event) to the
        list of handler wrappers. *)
Definition handlers_dict : Type :=
      gmap (option string) (list (_EventHandlerWrapper Handler)).

    (** [_EventHandlerWrapper.__eq__]. *)
Definition wrapper_eq (a b : _EventHandlerWrapper Handler) : bool :=
      bool_decide (handler a = handler b).

    (** [_EventHandlerWrapper.__call__]. *)
Definition wrapper_call (hw : _EventHandlerWrapper Handler) (a : payload)
        : W -> outcome unit * W :=
      if _need_arg hw then run (handler hw) (Some a) else run (handler hw) None.

    (** [handler(arg)] inside the loops of [handler_notify], recorded. *)
Definition invoke (ev : option string) (a : payload)
        (hw : _EventHandlerWrapper Handler) : M W (call W Handler) unit :=
      fun w =>
        let '(o, w') := wrapper_call hw a w in
        (o, w', [ {| call_event := ev; call_wrapper := hw;
                     call_arg := a; call_world := w |} ]).

    (** [Eventor.__init__]. *)
Definition init : handlers_dict := ∅.

    (** [Eventor.handler_add]. *)
Definition handler_add (self : handlers_dict) (event : option string)
        (h : Handler) (need_arg : bool) : outcome handlers_dict :=
      let handler_wrapper := {| handler := h; _need_arg := need_arg |} in
      match self !! event with
      | None => Ret (<[event := [handler_wrapper]]> self)
      | Some l =>
          if existsb (wrapper_eq handler_wrapper) l
          then Raise ValueError
          else Ret (<[event := l ++ [handler_wrapper]]> self)
      end.

    (** [Eventor.handler_remove]. Every wrapper of the handler is taken out
        of every list. The source then tests [if not handler_wrapper] (the
        wrapper, which is always true as an object) before deleting the
        list, so a list that became empty stays in the dict. *)
Definition handler_remove (self : handlers_dict) (h : Handler)
        : handlers_dict :=
      (filter (fun hw => handler hw ≠ h)) <$> self.

    (** [Eventor.handler_remove_all]. *)
Definition handler_remove_all (self : handlers_dict) : handlers_dict := ∅.

    (** The argument handed to the handlers by [handler_notify]. *)
Definition notify_arg (event : option string) (arg : pyval)
        (notifier : option pyval) (need_info : bool) : payload :=
      if need_info
      then Info {| event := event; arg := arg;
                   notifier := match notifier with
                               | Some n => n
                               | None => PSelf
                               end |}
      else Raw arg.

Definition has_key (self : handlers_dict) (event : option string) : bool :=
      bool_decide (is_Some (self !! event)).

    (** [Eventor.handler_notify]. *)
Definition handler_notify (self : handlers_dict) (event : option string)
        (arg : pyval) (notifier : option pyval) (need_info : bool)
        : M W (call W Handler) unit :=
      if negb (has_key self event) && negb (has_key self None)
      then ret tt
      else
        let arg := notify_arg event arg notifier need_info in
        when (has_key self event)
          (for_each (default [] (self !! event)) (invoke event arg)) ;;
        when (has_key self None)
          (for_each (default [] (self !! None)) (invoke event arg)).

    (** The handlers registered for an event, in the order of the list. *)
Definition handlers_for (self : handlers_dict) (event : option string)
        : list (_EventHandlerWrapper Handler) :=
      default [] (self !! event).

    (** The notification contract in the words of its description: call
        each wrapper of [hs] in order, stopping at the first that raises. *)
Fixpoint call_in_order (ev : option string) (a : payload)
        (hs : list (_EventHandlerWrapper Handler)) (w : W)
        : outcome unit * W * list (call W Handler) :=
      match hs with
      | [] => (Ret tt, w, [])
      | hw :: hs' =>
          let c := {| call_event := ev; call_wrapper := hw;
                      call_arg := a; call_world := w |} in
          match wrapper_call hw a w with
          | (Ret _, w') =>
              let '(o, w'', t) := call_in_order ev a hs' w' in
              (o, w'', c :: t)
          | (Raise e, w') => (Raise e, w', [c])
          end
      end.


End Eventor.

End Eventor.

(** ** Python strings and lists *)

Module PyStr.

  (** First occurrence of [sep] in [s]: the text before it and after it. *)
Fixpoint find (sep s : string) : option (string * string) :=
    if String.prefix sep s
    then Some (""%string, String.substring (String.length sep)
                            (String.length s - String.length sep) s)
    else match s with
         | EmptyString => None
         | String c s' =>
             match find sep s' with
             | Some (b, a) => Some (String c b, a)
             | None => None
             end
         end.

  (** Last occurrence of [sep] in [s]. *)
Fixpoint rfind (sep s : string) : option (string * string) :=
    match s with
    | EmptyString => if String.prefix sep s then Some (""%string, ""%string) else None
    | String c s' =>
        match rfind sep s' with
        | Some (b, a) => Some (String c b, a)
        | None =>
            if String.prefix sep s
            then Some (""%string, String.substring (String.length sep)
                                    (String.length s - String.length sep) s)
            else None
        end
    end.

  (** [s.partition(sep)]. *)
Definition partition (s sep : string) : string * string * string :=
    match find sep s with
    | Some (b, a) => (b, sep, a)
    | None => (s, ""%string, ""%string)
    end.

  (** [s.rpartition(sep)]. *)
Definition rpartition (s sep : string) : string * string * string :=
    match rfind sep s with
    | Some (b, a) => (b, sep, a)
    | None => (""%string, ""%string, s)
    end.

Definition eqb (a b : string) : bool := bool_decide (a = b).

  (** [s.split(sep)] for a separator of one character: the pieces between
      the occurrences of [sep], at least one piece. *)
Fixpoint split (s : string) (sep : Ascii.ascii) : list string :=
    match s with
    | EmptyString => [EmptyString]
    | String c s' =>
        if Ascii.eqb c sep then EmptyString :: split s' sep
        else match split s' sep with
             | piece :: pieces => String c piece :: pieces
             | [] => [String c EmptyString]
             end
    end.

  (** [sep.join(l)]. *)
Fixpoint join (sep : string) (l : list string) : string :=
    match l with
    | [] => EmptyString
    | [x] => x
    | x :: l' => (x +:+ sep +:+ join sep l')%string
    end.

End PyStr.

Module PyList.
Section PyList.
Context {A : Type}.

Definition len (l : list A) : Z := Z.of_nat (length l).

    (** [l.insert(index, x)]: a negative index counts from the end, and an
        index outside the list is clipped to its ends. *)
Definition insert (l : list A) (index : Z) (x : A) : list A :=
      let n := len l in
      let i := if index <? 0 then Z.max 0 (index + n) else Z.min index n in
      take (Z.to_nat i) l ++ x :: drop (Z.to_nat i) l.

    (** [del l[index]]: a negative index counts from the end; an index
        outside the list raises [IndexError]. *)
Definition del (l : list A) (index : Z) : outcome (list A) :=
      let n := len l in
      let i := if index <? 0 then index + n else index in
      if (0 <=? i) && (i <? n)
      then Ret (take (Z.to_nat i) l ++ drop (S (Z.to_nat i)) l)
      else Raise IndexError.

    (** [l[index]]. *)
Definition getitem (l : list A) (index : Z) : outcome A :=
      let n := len l in
      let i := if index <? 0 then index + n else index in
      if (0 <=? i) && (i <? n)
      then match l !! Z.to_nat i with Some x => Ret x | None => Raise IndexError end
      else Raise IndexError.
End PyList.
End PyList.

(** ** registry.py *)

Module Registry.

  (** The constants of [win32con] and the calls of [win32api] that the
      module imports. They belong to the platform, not to the repository,
      and are taken as given: [X] is the state of the operating system
      (and of anything else outside the objects modelled), and a call
      either returns or raises [pywintypes.error]. *)
Record Win32 (X PyHKEY : Type) : Type := {
    HKEY_CLASSES_ROOT : Z;
    HKEY_CURRENT_CONFIG : Z;
    HKEY_CURRENT_USER : Z;
    HKEY_LOCAL_MACHINE : Z;
    HKEY_USERS : Z;
    KEY_ALL_ACCESS : Z;
    KEY_READ : Z;
    KEY_WOW64_64KEY : Z;
    RegOpenKeyEx : Z -> option string -> Z -> Z -> X -> outcome PyHKEY * X;
    RegCloseKey : PyHKEY -> X -> outcome unit * X;
  }.
Arguments HKEY_CLASSES_ROOT {X PyHKEY} _.
Arguments HKEY_CURRENT_CONFIG {X PyHKEY} _.
Arguments HKEY_CURRENT_USER {X PyHKEY} _.
Arguments HKEY_LOCAL_MACHINE {X PyHKEY} _.
Arguments HKEY_USERS {X PyHKEY} _.
Arguments KEY_ALL_ACCESS {X PyHKEY} _.
Arguments KEY_READ {X PyHKEY} _.
Arguments KEY_WOW64_64KEY {X PyHKEY} _.
Arguments RegOpenKeyEx {X PyHKEY} _ _ _ _ _ _.
Arguments RegCloseKey {X PyHKEY} _ _ _.

  (** [RegKey] and its subclass [RootRegKey], which overrides [close] and
      [closed]. *)
Inductive regkey_class : Set := RegKey_class | RootRegKey_class.

Record RegKey (PyHKEY : Type) : Type := {
    class : regkey_class;
    _handle : option PyHKEY;
    _path : string;
  }.
Arguments class {PyHKEY} _.
Arguments _handle {PyHKEY} _.
Arguments _path {PyHKEY} _.

  (** [RegKey.ROOT] and [RegKeyPathNavigator.ROOT]. *)
Definition ROOT : string := "".

Definition PATH_CHANGE_SOON : string := "PATH_CHANGE_SOON".
Definition PATH_CHANGE_DONE : string := "PATH_CHANGE_DONE".

Section Registry.
Context {X PyHKEY : Type}.
Variable api : Win32 X PyHKEY.

    (** A platform call inside a computation. *)
Definition os_call {T A} (f : X -> outcome A * X) : M X T A :=
      fun x => let '(o, x') := f x in (o, x', []).

    (** A computation on the outside world, run next to an object. *)
Definition on_rest {D T A} (m : M X T A) : M (D * X) T A :=
      fun '(d, x) => let '(o, x', t) := m x in (o, (d, x'), t).

    (** A method run on a local object that is dropped afterwards. *)
Definition with_local {O T A} (o : O) (m : M (O * X) T A) : M X T A :=
      fun x => let '(r, (_, x'), t) := m (o, x) in (r, x', t).

    (** [_HIVE_NAME_TO_INT]. *)
Definition _HIVE_NAME_TO_INT : list (string * Z) :=
      [ ("HKEY_CLASSES_ROOT"%string, HKEY_CLASSES_ROOT api);
        ("HKEY_CURRENT_CONFIG"%string, HKEY_CURRENT_CONFIG api);
        ("HKEY_CURRENT_USER"%string, HKEY_CURRENT_USER api);
        ("HKEY_LOCAL_MACHINE"%string, HKEY_LOCAL_MACHINE api);
        ("HKEY_USERS"%string, HKEY_USERS api) ].

    (** [_hive_name_to_int]. *)
Definition _hive_name_to_int (name : string) : option Z :=
      snd <$> List.find (fun kv => PyStr.eqb (fst kv) name) _HIVE_NAME_TO_INT.

    (** [RegKey.HKEYS]. *)
Definition HKEYS : list string := fst <$> _HIVE_NAME_TO_INT.

    (** [_regkey_handle_get]. *)
Definition _regkey_handle_get {T} (path : string) (mask : option Z)
        : M X T PyHKEY :=
      let '(hive_name, _, nohive_path) := PyStr.partition path "\" in
      let nohive_path :=
        if PyStr.eqb nohive_path "" then None else Some nohive_path in
      match _hive_name_to_int hive_name with
      | None => raise ValueError
      | Some hive_int =>
          let mask := match mask with
                      | None => Z.lor (KEY_ALL_ACCESS api) (KEY_WOW64_64KEY api)
                      | Some m => m
                      end in
          os_call (RegOpenKeyEx api hive_int nohive_path 0 mask)
      end.

    (** [RootRegKey.__init__]. *)
Definition RootRegKey : RegKey PyHKEY :=
      {| class := RootRegKey_class; _handle := None; _path := "" |}.

    (** [regkey_get]: [None] stands for the failure to open the key. *)
Definition regkey_get {T} (path : string) (mask : option Z)
        : M X T (option (RegKey PyHKEY)) :=
      if PyStr.eqb path ROOT then ret (Some RootRegKey)
      else
        regkey_handle <-
          try_except (h <- _regkey_handle_get path mask ;; ret (Some h))
                     (fun _ => true) (ret None) ;;
        match regkey_handle with
        | None => ret None
        | Some h =>
            ret (Some {| class := RegKey_class; _handle := Some h;
                         _path := path |})
        end.

    (** [RegKey.closed] and [RootRegKey.closed]. *)
Definition closed (self : RegKey PyHKEY) : bool :=
      match class self with
      | RootRegKey_class => false
      | RegKey_class =>
          match _handle self with None => true | Some _ => false end
      end.

    (** [RegKey.close] and [RootRegKey.close]. *)
Definition close {T} : M (RegKey PyHKEY * X) T unit :=
      self <- gets fst ;;
      match class self with
      | RootRegKey_class => ret tt
      | RegKey_class =>
          if closed self then raise ValueError
          else
            match _handle self with
            | Some h => on_rest (os_call (RegCloseKey api h))
            | None => ret tt
            end ;;
            modify (fun '(self, x) =>
                      ({| class := class self; _handle := None;
                          _path := _path self |}, x))
      end.

    (** [regkey_exists]. *)
Definition regkey_exists {T} (path : string) : M X T bool :=
      regkey <- regkey_get path (Some (KEY_READ api)) ;;
      match regkey with
      | Some k => with_local k close ;; ret true
      | None => ret false
      end.

    (** [regkey_parent_path]. *)
Definition regkey_parent_path (path : string) : string :=
      if PyStr.eqb path ROOT || bool_decide (path ∈ HKEYS) then ROOT
      else
        let '(parent_path, _, _) := PyStr.rpartition path "\" in
        parent_path.

    (** *** RegKeyPathNavigator

        The navigator's data is its active path [_path]; its handlers dict
        is passed to the methods as [self_handlers]. The world of its
        methods and of its handlers is the active path with the outside
        world. *)
Section Navigator.
Context {Handler : Type} `{EqDecision Handler}.
Variable run : Handler -> option Eventor.payload -> string * X
                     -> outcome unit * (string * X).

Local Abbreviation nav_call := (Eventor.call (string * X) Handler).

      (** [RegKeyPathNavigator.path]. *)
Definition path : M (string * X) nav_call string := gets fst.

      (** [RegKeyPathNavigator.parent_path]. *)
Definition parent_path : M (string * X) nav_call string :=
        p <- gets fst ;; ret (regkey_parent_path p).

      (** [RegKeyPathNavigator.child_path]. *)
Definition child_path (child_name : string)
          : M (string * X) nav_call string :=
        p <- gets fst ;;
        if PyStr.eqb p ROOT then ret child_name
        else ret (p +:+ "\" +:+ child_name)%string.

      (** [RegKeyPathNavigator.go_to_path]. *)
Definition go_to_path (self_handlers : Eventor.handlers_dict)
          (path : string) (check : bool) : M (string * X) nav_call string :=
        when check
          (e <- on_rest (regkey_exists path) ;;
           if negb e then raise ValueError else ret tt) ;;
        Eventor.handler_notify run self_handlers (Some PATH_CHANGE_SOON)
          PSelf None false ;;
        modify (fun '(_, x) => (path, x)) ;;
        Eventor.handler_notify run self_handlers (Some PATH_CHANGE_DONE)
          PSelf None false ;;
        gets fst.

      (** [RegKeyPathNavigator.go_to_root]. *)
Definition go_to_root (self_handlers : Eventor.handlers_dict)
          (check : bool) : M (string * X) nav_call string :=
        go_to_path self_handlers ROOT check.

      (** [RegKeyPathNavigator.go_to_parent]. *)
Definition go_to_parent (self_handlers : Eventor.handlers_dict)
          (check : bool) : M (string * X) nav_call string :=
        p <- parent_path ;; go_to_path self_handlers p check.

      (** [RegKeyPathNavigator.go_to_child]. *)
Definition go_to_child (self_handlers : Eventor.handlers_dict)
          (child_name : string) (check : bool)
          : M (string * X) nav_call string :=
        p <- child_path child_name ;; go_to_path self_handlers p check.

      (** Handlers that return and leave the active path as it is. *)
Definition keep_path : Prop :=
        ∀ h a p x, ∃ x', run h a (p, x) = (Ret tt, (p, x')).

      (** What a handler call shows of the navigator: the event, the
          wrapper, the argument and the active path at the call. *)
Definition seen (c : nav_call)
          : option string * Eventor._EventHandlerWrapper Handler
            * Eventor.payload * string :=
        (Eventor.call_event c, Eventor.call_wrapper c, Eventor.call_arg c,
         fst (Eventor.call_world c)).

      (** The calls one notification of [event] makes while [p] is the
          active path. *)
Definition fires (self_handlers : Eventor.handlers_dict)
          (event : string) (p : string)
          : list (option string * Eventor._EventHandlerWrapper Handler
                  * Eventor.payload * string) :=
        (fun hw => (Some event, hw, Eventor.Raw PSelf, p))
        <$> (Eventor.handlers_for self_handlers (Some event)
             ++ Eventor.handlers_for self_handlers None).
End Navigator.
End Registry.

End Registry.


(** ** tkinterutil/listbox.py *)

Module Listbox.

(** The Tk listbox widget inside the vidget. Tk is not part of the
    repository: the widget is kept as its [state] option, which
    [is_enabled] reads back, and the list of the calls made on it, last
    call last. *)
Inductive tk_index : Set :=
| TkInt (i : Z)
| TkEND.

Inductive tk_call : Set :=
| tk_delete (first last : tk_index)
| tk_insert (index : Z) (text : string)
| tk_itemconfig (index : Z) (option value : string)
| tk_selection_clear (first last : tk_index)
| tk_selection_set (index : Z)
| tk_activate (index : Z)
| tk_focus_set
| tk_see (index : Z).

Record Listbox_widget : Set := {
  state : string;
  calls : list tk_call;
}.

(** [tkinter.constants.DISABLED]. *)
Definition DISABLED : string := "disabled".

Definition ITEMS_CHANGE_SOON : string := "ITEMS_CHANGE_SOON".
Definition ITEMS_CHANGE_DONE : string := "ITEMS_CHANGE_DONE".
Definition ITEMCUR_CHANGE_SOON : string := "ITEMCUR_CHANGE_SOON".
Definition ITEMCUR_CHANGE_DONE : string := "ITEMCUR_CHANGE_DONE".

(** The attributes of a [ListboxVidget], without its handlers dict. *)
Record ListboxVidget (Item : Type) : Type := {
  _items : list Item;
  _item_to_text : Item -> string;
  _normal_fg : string;
  _normal_bg : string;
  _active_fg : string;
  _active_bg : string;
  _selected_fg : string;
  _selected_bg : string;
  _is_changing : bool;
  _indexcur : Z;
  _is_resetting : bool;
  _listbox : Listbox_widget;
}.
Arguments _items {Item} _.
Arguments _item_to_text {Item} _.
Arguments _normal_fg {Item} _.
Arguments _normal_bg {Item} _.
Arguments _active_fg {Item} _.
Arguments _active_bg {Item} _.
Arguments _selected_fg {Item} _.
Arguments _selected_bg {Item} _.
Arguments _is_changing {Item} _.
Arguments _indexcur {Item} _.
Arguments _is_resetting {Item} _.
Arguments _listbox {Item} _.

Section Listbox.
Context {Item X Handler : Type} `{EqDecision Handler}.

(** [Listbox.curselection] of Tk, as a function of the widget. *)
Variable curselection : Listbox_widget -> list Z.

(** What calling a handler does to the vidget and the outside world. *)
Variable run : Handler -> option Eventor.payload -> ListboxVidget Item * X
               -> outcome unit * (ListboxVidget Item * X).

Local Abbreviation lb_call := (Eventor.call (ListboxVidget Item * X) Handler).
Local Abbreviation LM := (M (ListboxVidget Item * X) lb_call).

(** Attribute assignments. *)
Definition set_items (v : list Item) (self : ListboxVidget Item)
    : ListboxVidget Item :=
  {| _items := v; _item_to_text := _item_to_text self;
     _normal_fg := _normal_fg self; _normal_bg := _normal_bg self;
     _active_fg := _active_fg self; _active_bg := _active_bg self;
     _selected_fg := _selected_fg self; _selected_bg := _selected_bg self;
     _is_changing := _is_changing self; _indexcur := _indexcur self;
     _is_resetting := _is_resetting self; _listbox := _listbox self |}.

Definition set_is_changing (v : bool) (self : ListboxVidget Item)
    : ListboxVidget Item :=
  {| _items := _items self; _item_to_text := _item_to_text self;
     _normal_fg := _normal_fg self; _normal_bg := _normal_bg self;
     _active_fg := _active_fg self; _active_bg := _active_bg self;
     _selected_fg := _selected_fg self; _selected_bg := _selected_bg self;
     _is_changing := v; _indexcur := _indexcur self;
     _is_resetting := _is_resetting self; _listbox := _listbox self |}.

Definition set_indexcur (v : Z) (self : ListboxVidget Item)
    : ListboxVidget Item :=
  {| _items := _items self; _item_to_text := _item_to_text self;
     _normal_fg := _normal_fg self; _normal_bg := _normal_bg self;
     _active_fg := _active_fg self; _active_bg := _active_bg self;
     _selected_fg := _selected_fg self; _selected_bg := _selected_bg self;
     _is_changing := _is_changing self; _indexcur := v;
     _is_resetting := _is_resetting self; _listbox := _listbox self |}.

Definition set_is_resetting (v : bool) (self : ListboxVidget Item)
    : ListboxVidget Item :=
  {| _items := _items self; _item_to_text := _item_to_text self;
     _normal_fg := _normal_fg self; _normal_bg := _normal_bg self;
     _active_fg := _active_fg self; _active_bg := _active_bg self;
     _selected_fg := _selected_fg self; _selected_bg := _selected_bg self;
     _is_changing := _is_changing self; _indexcur := _indexcur self;
     _is_resetting := v; _listbox := _listbox self |}.

(** A call on the Tk widget [self._listbox]. *)
Definition widget_call (c : tk_call) (self : ListboxVidget Item)
    : ListboxVidget Item :=
  {| _items := _items self; _item_to_text := _item_to_text self;
     _normal_fg := _normal_fg self; _normal_bg := _normal_bg self;
     _active_fg := _active_fg self; _active_bg := _active_bg self;
     _selected_fg := _selected_fg self; _selected_bg := _selected_bg self;
     _is_changing := _is_changing self; _indexcur := _indexcur self;
     _is_resetting := _is_resetting self;
     _listbox := {| state := state (_listbox self);
                    calls := calls (_listbox self) ++ [c] |} |}.

Definition assign (f : ListboxVidget Item -> ListboxVidget Item) : LM unit :=
  modify (fun w => (f w.1, w.2)).

Definition tk (c : tk_call) : LM unit := assign (widget_call c).

Definition self : LM (ListboxVidget Item) := gets fst.

(** [ListboxVidget.is_enabled]. *)
Definition is_enabled (self : ListboxVidget Item) : bool :=
  negb (PyStr.eqb (state (_listbox self)) DISABLED).

(** [ListboxVidget.is_changing]. *)
Definition is_changing (self : ListboxVidget Item) : bool := _is_changing self.

(** [ListboxVidget.is_resetting]. *)
Definition is_resetting (self : ListboxVidget Item) : bool :=
  _is_resetting self.

(** [ListboxVidget.size]. *)
Definition size (self : ListboxVidget Item) : Z := PyList.len (_items self).

(** [ListboxVidget.items]. *)
Definition items (self : ListboxVidget Item) : list Item := _items self.

(** [ListboxVidget.index_is_valid]. *)
Definition index_is_valid (self : ListboxVidget Item) (index : Z) : bool :=
  (0 <=? index) && (index <? size self).

(** [ListboxVidget.index_is_valid_or_void]. *)
Definition index_is_valid_or_void (self : ListboxVidget Item) (index : Z)
    : bool :=
  (index =? -1) || index_is_valid self index.

(** [ListboxVidget.index_first]. *)
Definition index_first (self : ListboxVidget Item) : Z :=
  if 0 <? size self then 0 else -1.

(** [ListboxVidget.index_last]. *)
Definition index_last (self : ListboxVidget Item) : Z := size self - 1.

(** [ListboxVidget._indexcurs]. *)
Definition _indexcurs (self : ListboxVidget Item) (internal : bool) : list Z :=
  if internal then curselection (_listbox self)
  else if index_is_valid self (_indexcur self) then [_indexcur self]
       else [].

(** [ListboxVidget.indexcur]. *)
Definition indexcur (self : ListboxVidget Item) (internal raise_error : bool)
    : outcome Z :=
  match _indexcurs self internal with
  | i :: _ => Ret i
  | [] => if raise_error then Raise IndexError else Ret (-1)
  end.

(** [self.indexcur()] with its default arguments, which cannot raise. *)
Definition indexcur_default (self : ListboxVidget Item) : Z :=
  match indexcur self false false with
  | Ret i => i
  | Raise _ => -1
  end.

Definition handler_notify (self_handlers : Eventor.handlers_dict) (event : string)
    (arg : pyval) : LM unit :=
  Eventor.handler_notify run self_handlers (Some event) arg None false.

(** The body of the loop of [_listbox_widget_update] over
    [enumerate(self.items())]. *)
Definition widget_insert_item (entry : Z * Item) : LM unit :=
  let '(index, item) := entry in
  s <- self ;;
  let item_text := _item_to_text s item in
  tk (tk_insert index item_text) ;;
  tk (tk_itemconfig index "background" (_normal_bg s)) ;;
  tk (tk_itemconfig index "foreground" (_normal_fg s)) ;;
  tk (tk_itemconfig index "selectbackground" (_selected_bg s)) ;;
  tk (tk_itemconfig index "selectforeground" (_selected_fg s)).

(** [ListboxVidget._listbox_widget_update]. *)
Definition _listbox_widget_update (keep_active : bool) : LM unit :=
  tk (tk_delete (TkInt 0) TkEND) ;;
  s <- self ;;
  for_each (imap (fun i x => (Z.of_nat i, x)) (items s)) widget_insert_item ;;
  indexcur <-
    (if keep_active then gets (fun w => _indexcur w.1)
     else assign (set_indexcur (-1)) ;; ret (-1)) ;;
  tk (tk_selection_clear (TkInt 0) TkEND) ;;
  tk (tk_selection_set indexcur) ;;
  tk (tk_activate indexcur) ;;
  when (negb (indexcur =? -1))
    (s <- self ;;
     tk (tk_itemconfig indexcur "background" (_active_bg s)) ;;
     tk (tk_itemconfig indexcur "foreground" (_active_fg s)) ;;
     tk (tk_see indexcur)).

(** [ListboxVidget.items_set]. The [isinstance(items, list)] test of the
    source is the type of [items] here. *)
Definition items_set (self_handlers : Eventor.handlers_dict)
    (items : list Item) (notify keep_active : bool) : LM unit :=
  s <- self ;;
  if negb (is_enabled s) then raise DisabledError
  else if _is_changing s then raise CircularCallError
  else
    assign (set_is_changing true) ;;
    when notify (handler_notify self_handlers ITEMS_CHANGE_SOON PNone) ;;
    assign (set_items items) ;;
    _listbox_widget_update keep_active ;;
    when notify (handler_notify self_handlers ITEMS_CHANGE_DONE PNone) ;;
    assign (set_is_changing false).

(** [ListboxVidget.indexcur_set]. *)
Definition indexcur_set (self_handlers : Eventor.handlers_dict)
    (index : Z) (focus notify : bool) (notify_arg : pyval) : LM unit :=
  s <- self ;;
  if negb (index_is_valid_or_void s index) then raise IndexError
  else if negb (is_enabled s) then raise DisabledError
  else if _is_changing s then raise CircularCallError
  else
    assign (set_is_changing true) ;;
    let old_indexcur := _indexcur s in
    assign (set_is_resetting (index =? old_indexcur)) ;;
    when notify (handler_notify self_handlers ITEMCUR_CHANGE_SOON notify_arg) ;;
    s <- self ;;
    when (index_is_valid s old_indexcur)
      (tk (tk_itemconfig old_indexcur "background" (_normal_bg s)) ;;
       tk (tk_itemconfig old_indexcur "foreground" (_normal_fg s))) ;;
    assign (set_indexcur index) ;;
    tk (tk_selection_clear (TkInt 0) TkEND) ;;
    tk (tk_selection_set index) ;;
    tk (tk_activate index) ;;
    s <- self ;;
    when (negb (index =? -1))
      (tk (tk_itemconfig index "background" (_active_bg s)) ;;
       tk (tk_itemconfig index "foreground" (_active_fg s))) ;;
    when focus (tk tk_focus_set) ;;
    when (negb (index =? -1)) (tk (tk_see index)) ;;
    when notify (handler_notify self_handlers ITEMCUR_CHANGE_DONE notify_arg) ;;
    assign (set_is_resetting false) ;;
    assign (set_is_changing false).

(** [ListboxVidget.indexcur_set_by_event]: [nearest] is what Tk's
    [Listbox.nearest(event.y)] gives for the event. *)
Definition indexcur_set_by_event (self_handlers : Eventor.handlers_dict)
    (nearest : Z) (focus notify : bool) (notify_arg : pyval) : LM unit :=
  s <- self ;;
  if negb (index_is_valid_or_void s nearest) then ret tt
  else indexcur_set self_handlers nearest focus notify notify_arg.

(** [ListboxVidget.item]. *)
Definition item (self : ListboxVidget Item) (index : Z) : outcome Item :=
  PyList.getitem (items self) index.

(** [ListboxVidget.itemcur]: [None] stands for Python's [None]. *)
Definition itemcur (self : ListboxVidget Item) (internal raise_error : bool)
    : outcome (option Item) :=
  match indexcur self internal raise_error with
  | Raise e => Raise e
  | Ret indexcur =>
      if indexcur =? -1 then Ret None
      else match PyList.getitem (items self) indexcur with
           | Ret x => Ret (Some x)
           | Raise e => Raise e
           end
  end.

(** [ListboxVidget.item_insert]: [index = None] is the default argument. *)
Definition item_insert (self_handlers : Eventor.handlers_dict)
    (item : Item) (index : option Z) (notify keep_active : bool) : LM unit :=
  when notify
    (handler_notify self_handlers ITEMCUR_CHANGE_SOON PNone ;;
     handler_notify self_handlers ITEMS_CHANGE_SOON PNone) ;;
  s <- self ;;
  let active_index := indexcur_default s in
  let index := match index with None => active_index | Some i => i end in
  assign (set_items (PyList.insert (_items s) index item)) ;;
  let active_index :=
    if negb (active_index =? -1)
    then if index <=? active_index then active_index + 1 else active_index
    else active_index in
  indexcur_set self_handlers active_index false false PNone ;;
  _listbox_widget_update keep_active ;;
  when notify
    (handler_notify self_handlers ITEMS_CHANGE_DONE PNone ;;
     handler_notify self_handlers ITEMCUR_CHANGE_DONE PNone).

(** [ListboxVidget.item_remove]. *)
Definition item_remove (self_handlers : Eventor.handlers_dict)
    (index : Z) (notify keep_active : bool) : LM unit :=
  s <- self ;;
  if negb (index_is_valid s index) then raise ValueError
  else
    when notify
      (handler_notify self_handlers ITEMCUR_CHANGE_SOON PNone ;;
       handler_notify self_handlers ITEMS_CHANGE_SOON PNone) ;;
    s <- self ;;
    let active_index := indexcur_default s in
    match PyList.del (_items s) index with
    | Raise e => raise e
    | Ret l =>
        assign (set_items l) ;;
        s <- self ;;
        let active_index :=
          if negb (active_index =? -1)
          then let index_last := index_last s in
               if index_last <? active_index then index_last else active_index
          else active_index in
        indexcur_set self_handlers active_index false false PNone ;;
        _listbox_widget_update keep_active ;;
        when notify
          (handler_notify self_handlers ITEMS_CHANGE_DONE PNone ;;
           handler_notify self_handlers ITEMCUR_CHANGE_DONE PNone)
    end.

(** Handlers that return and leave the vidget as it is: they only act on
    the outside world. *)
Definition keep_vidget : Prop :=
  ∀ h a s x, ∃ x', run h a (s, x) = (Ret tt, (s, x')).

(** Two vidgets that differ at most in the calls made on the Tk widget. *)
Definition same_vidget (s s' : ListboxVidget Item) : Prop :=
  _items s' = _items s
  ∧ _indexcur s' = _indexcur s
  ∧ _is_changing s' = _is_changing s
  ∧ _is_resetting s' = _is_resetting s
  ∧ state (_listbox s') = state (_listbox s).

(** The same, for handlers that also leave an observation [obs] of the
    outside world as it is. *)
Definition keep_vidget_and {O : Type} (obs : X -> O) : Prop :=
  ∀ h a s x, ∃ x', run h a (s, x) = (Ret tt, (s, x')) ∧ obs x' = obs x.

(** Handlers that leave the vidget as it is, whether they return or
    raise. *)
Definition leave_vidget : Prop :=
  ∀ h a s x, ∃ o x', run h a (s, x) = (o, (s, x')).

(** What a handler call shows of the vidget: its items, the cached active
    index and the two flags. *)
Definition view (s : ListboxVidget Item) : list Item * Z * bool * bool :=
  (_items s, _indexcur s, _is_changing s, _is_resetting s).

Definition seen (c : lb_call)
    : option string * Eventor._EventHandlerWrapper Handler * Eventor.payload
      * (list Item * Z * bool * bool) :=
  (Eventor.call_event c, Eventor.call_wrapper c, Eventor.call_arg c,
   view (fst (Eventor.call_world c))).

(** The calls one notification of [event] with argument [arg] makes while
    the vidget shows [v]. *)
Definition fires (self_handlers : Eventor.handlers_dict) (event : string)
    (arg : pyval) (v : list Item * Z * bool * bool)
    : list (option string * Eventor._EventHandlerWrapper Handler
            * Eventor.payload * (list Item * Z * bool * bool)) :=
  (fun hw => (Some event, hw, Eventor.Raw arg, v))
  <$> (Eventor.handlers_for self_handlers (Some event)
       ++ Eventor.handlers_for self_handlers None).

End Listbox.

End Listbox.


(** ** tkinterutil/text.py *)

Module Entry.

(** The Tk entry widget inside the vidget, as the vidget uses it: the text
    it holds, its [state] option and whether a validate command is
    mounted. Tk is not part of the repository; an edit made through
    [delete] or [insert] is taken to apply unless the widget is disabled,
    and no validate command runs while it is unmounted. *)
Record Entry_widget : Set := {
  value : string;
  state : string;
  validatecommand : bool;
}.

(** [tkinter.constants]. *)
Definition NORMAL : string := "normal".
Definition DISABLED : string := "disabled".
Definition ACTIVE : string := "active".

Definition TEXT_CHANGE_SOON : string := "TEXT_CHANGE_SOON".
Definition TEXT_CHANGE_DONE : string := "TEXT_CHANGE_DONE".

(** The attributes of an [EntryVidget], without its handlers dict. The
    validator is a function of the new text that returns a boolean or
    raises. *)
Record EntryVidget : Type := {
  _text_widget : Entry_widget;
  _is_changing : bool;
  _old_widget_state : string;
  _validator : option (string -> outcome bool);
  _text : string;
}.

(** [EntryVidget._DEFAULT_VALIDATOR]. *)
Definition _DEFAULT_VALIDATOR : string -> outcome bool := fun _ => Ret true.

Section Entry.
Context {X Handler : Type} `{EqDecision Handler}.

Variable run : Handler -> option Eventor.payload -> EntryVidget * X
               -> outcome unit * (EntryVidget * X).

Local Abbreviation EM := (M (EntryVidget * X) (Eventor.call (EntryVidget * X) Handler)).

(** Attribute assignments. *)
Definition set_text_widget (v : Entry_widget) (self : EntryVidget) : EntryVidget :=
  {| _text_widget := v; _is_changing := _is_changing self;
     _old_widget_state := _old_widget_state self;
     _validator := _validator self; _text := _text self |}.

Definition set_is_changing (v : bool) (self : EntryVidget) : EntryVidget :=
  {| _text_widget := _text_widget self; _is_changing := v;
     _old_widget_state := _old_widget_state self;
     _validator := _validator self; _text := _text self |}.

Definition set_old_widget_state (v : string) (self : EntryVidget) : EntryVidget :=
  {| _text_widget := _text_widget self; _is_changing := _is_changing self;
     _old_widget_state := v;
     _validator := _validator self; _text := _text self |}.

Definition set_text (v : string) (self : EntryVidget) : EntryVidget :=
  {| _text_widget := _text_widget self; _is_changing := _is_changing self;
     _old_widget_state := _old_widget_state self;
     _validator := _validator self; _text := v |}.

Definition assign (f : EntryVidget -> EntryVidget) : EM unit :=
  modify (fun w => (f w.1, w.2)).

Definition self : EM EntryVidget := gets fst.

(** Calls on the Tk widget. *)
Definition widget_delete_all (w : Entry_widget) : Entry_widget :=
  if PyStr.eqb (state w) DISABLED then w
  else {| value := ""; state := state w; validatecommand := validatecommand w |}.

Definition widget_insert_0 (text : string) (w : Entry_widget) : Entry_widget :=
  if PyStr.eqb (state w) DISABLED then w
  else {| value := text +:+ value w; state := state w;
          validatecommand := validatecommand w |}.

Definition widget_set (text : string) (w : Entry_widget) : Entry_widget :=
  {| value := text; state := state w; validatecommand := validatecommand w |}.

Definition widget_state_set (st : string) (w : Entry_widget) : Entry_widget :=
  {| value := value w; state := st; validatecommand := validatecommand w |}.

Definition widget_validatecommand_set (b : bool) (w : Entry_widget)
    : Entry_widget :=
  {| value := value w; state := state w; validatecommand := b |}.

Definition tk (f : Entry_widget -> Entry_widget) : EM unit :=
  assign (fun s => set_text_widget (f (_text_widget s)) s).

(** [EntryVidget.text]. *)
Definition text (self : EntryVidget) : string := _text self.

(** [EntryVidget.is_changing]. *)
Definition is_changing (self : EntryVidget) : bool := _is_changing self.

(** [EntryVidget.enabled] and [EntryVidget.disabled]. *)
Definition enabled (self : EntryVidget) : bool :=
  negb (PyStr.eqb (state (_text_widget self)) DISABLED).

Definition disabled (self : EntryVidget) : bool :=
  PyStr.eqb (state (_text_widget self)) DISABLED.

(** [EntryVidget.text_is_valid]: calling [None] is a [TypeError]. *)
Definition text_is_valid (self : EntryVidget) (text : string) : outcome bool :=
  match _validator self with
  | Some validator => validator text
  | None => Raise TypeError
  end.

Definition is_state (st : string) : bool :=
  bool_decide (st ∈ [NORMAL; DISABLED; ACTIVE]).

(** [EntryVidget.state_set]. *)
Definition state_set (st : string) : EM unit :=
  if negb (is_state st) then raise ValueError
  else
    s <- self ;;
    assign (set_old_widget_state (state (_text_widget s))) ;;
    tk (widget_state_set st).

(** [EntryVidget.state_set_back]. *)
Definition state_set_back : EM unit :=
  s <- self ;;
  if negb (is_state (_old_widget_state s)) then raise ValueError
  else tk (widget_state_set (_old_widget_state s)).

(** [EntryVidget._validator_wrapper_mount] and [_validator_wrapper_unmount]. *)
Definition _validator_wrapper_mount : EM unit :=
  tk (widget_validatecommand_set true).

Definition _validator_wrapper_unmount : EM unit :=
  tk (widget_validatecommand_set false).

Definition handler_notify (self_handlers : Eventor.handlers_dict) (event : string)
    (arg : pyval) : EM unit :=
  Eventor.handler_notify run self_handlers (Some event) arg None true.

(** [EntryVidget.text_set]. *)
Definition text_set (self_handlers : Eventor.handlers_dict) (text : string)
    (notify : bool) (notify_arg : pyval) (is_validator : bool) : EM unit :=
  s <- self ;;
  match text_is_valid s text with
  | Raise e => raise e
  | Ret valid =>
      if negb valid then raise ValueError
      else if _is_changing s then raise ValueError
      else
        assign (set_is_changing true) ;;
        when notify (handler_notify self_handlers TEXT_CHANGE_SOON notify_arg) ;;
        assign (set_text text) ;;
        when (negb is_validator)
          (_validator_wrapper_unmount ;;
           state_set NORMAL ;;
           tk widget_delete_all ;;
           tk (widget_insert_0 text) ;;
           state_set_back ;;
           _validator_wrapper_mount) ;;
        s <- self ;;
        when (negb (PyStr.eqb (_text s) (value (_text_widget s))))
          (when (negb is_validator)
             (assign (set_is_changing false) ;; raise ValueError)) ;;
        when notify (handler_notify self_handlers TEXT_CHANGE_DONE notify_arg) ;;
        assign (set_is_changing false)
  end.

(** The function made by [EntryVidget._validator_wrapper_create], which Tk
    calls with the new value at each key stroke. *)
Definition validator_wrapper (self_handlers : Eventor.handlers_dict)
    (new_value : string) : EM bool :=
  s <- self ;;
  if _is_changing s then raise ValueError
  else
    let is_valid :=
      match _validator s with
      | None => true
      | Some validator =>
          match validator new_value with
          | Ret b => b
          | Raise _ => false
          end
      end in
    when is_valid
      (s <- self ;;
       (if _is_changing s then raise ValueError else ret tt) ;;
       text_set self_handlers new_value true PNone true ;;
       s <- self ;;
       if _is_changing s then raise ValueError else ret tt) ;;
    ret is_valid.

(** [EntryVidget._on_combobox_selected]. *)
Definition _on_combobox_selected (self_handlers : Eventor.handlers_dict)
    : EM unit :=
  s <- self ;;
  let new_value := value (_text_widget s) in
  match text_is_valid s new_value with
  | Raise e => raise e
  | Ret valid =>
      if negb valid then tk (widget_set (_text s))
      else text_set self_handlers new_value true PNone false
  end.

(** A caller that makes one [text_set] call after another, going on after
    a call that raised. *)
Fixpoint text_set_attempts (self_handlers : Eventor.handlers_dict)
    (attempts : list (string * bool * pyval * bool)) (w : EntryVidget * X)
    : EntryVidget * X :=
  match attempts with
  | [] => w
  | (text, notify, notify_arg, is_validator) :: rest =>
      text_set_attempts self_handlers rest
        (world (text_set self_handlers text notify notify_arg is_validator w))
  end.

(** A validator that rejects every value. *)
Definition rejects_all (self : EntryVidget) : Prop :=
  ∃ validator, _validator self = Some validator
               ∧ ∀ text, validator text = Ret false.

(** Handlers that return and leave the vidget as it is. *)
Definition keep_vidget : Prop :=
  ∀ h a s x, ∃ x', run h a (s, x) = (Ret tt, (s, x')).

(** What a handler call shows of the vidget: the cached text, the text in
    the Tk widget and the changing flag. *)
Definition view (s : EntryVidget) : string * string * bool :=
  (_text s, value (_text_widget s), _is_changing s).

Definition seen (c : Eventor.call (EntryVidget * X) Handler)
    : option string * Eventor._EventHandlerWrapper Handler * Eventor.payload
      * (string * string * bool) :=
  (Eventor.call_event c, Eventor.call_wrapper c, Eventor.call_arg c,
   view (fst (Eventor.call_world c))).

(** The calls one notification of [event] with argument [arg] makes while
    the vidget shows [v]: the handlers are handed the event info object. *)
Definition fires (self_handlers : Eventor.handlers_dict) (event : string)
    (arg : pyval) (v : string * string * bool)
    : list (option string * Eventor._EventHandlerWrapper Handler
            * Eventor.payload * (string * string * bool)) :=
  (fun hw => (Some event, hw,
              Eventor.Info {| Eventor.event := Some event; Eventor.arg := arg;
                              Eventor.notifier := PSelf |}, v))
  <$> (Eventor.handlers_for self_handlers (Some event)
       ++ Eventor.handlers_for self_handlers None).

End Entry.

End Entry.


(** ** tkinterutil/menu.py *)

Module MenuTree.

(** The Tk menu widgets. Tk is not part of the repository: a menu widget
    is kept as the list of its entries, and the widgets created so far are
    numbered in the order of their creation. Inserting at an index puts
    the entry before the one at that index (at the end when there is
    none), deleting an index that has no entry does nothing, and
    [index(END)] is [None] for a menu without entries. *)
Inductive menu_entry : Set :=
| cascade (menu : nat) (label : string)
| command (label : string) (callback : nat)
| separator.

(** An item widget: a [Menu], or one of the names ['command'] and
    ['separator']. *)
Inductive item_widget : Set :=
| Menu (n : nat)
| Name (s : string).

(** An item info dict, with its four keys. *)
Record info : Set := {
  INFO_K_ID : string;
  INFO_K_PID : option string;
  INFO_K_ITEM_WIDGET : item_widget;
  INFO_K_ITEM_INDEX : option Z;
}.

(** [INFO_K_ID_V_TOP]. *)
Definition INFO_K_ID_V_TOP : string := "/".

(** The attributes of a [MenuTree], with the Tk menus it has created. The
    [OrderedDict] is a list of keys and values in insertion order. *)
Record MenuTree : Type := {
  _id_sep : string;
  _id_to_full : string -> string -> string -> string;
  _id_to_label : string -> string -> string;
  _id_to_info : list (string * info);
  _menu_top : nat;
  tk_menus : list (list menu_entry);
}.

(** [OrderedDict] operations. *)
Definition od_get (d : list (string * info)) (k : string) : option info :=
  snd <$> List.find (fun kv => PyStr.eqb (fst kv) k) d.

Definition od_contains (d : list (string * info)) (k : string) : bool :=
  bool_decide (is_Some (od_get d k)).

Fixpoint od_set (d : list (string * info)) (k : string) (v : info)
    : list (string * info) :=
  match d with
  | [] => [(k, v)]
  | (k', v') :: d' =>
      if PyStr.eqb k' k then (k, v) :: d' else (k', v') :: od_set d' k v
  end.

Definition od_del (d : list (string * info)) (k : string)
    : list (string * info) :=
  List.filter (fun kv => negb (PyStr.eqb (fst kv) k)) d.

Definition od_keys (d : list (string * info)) : list string := fst <$> d.

Definition od_values (d : list (string * info)) : list info := snd <$> d.

Section MenuTree.
Context {T : Type}.

Local Abbreviation MM := (M MenuTree T).

Definition set_id_to_info (v : list (string * info)) (self : MenuTree)
    : MenuTree :=
  {| _id_sep := _id_sep self; _id_to_full := _id_to_full self;
     _id_to_label := _id_to_label self; _id_to_info := v;
     _menu_top := _menu_top self; tk_menus := tk_menus self |}.

Definition set_tk_menus (v : list (list menu_entry)) (self : MenuTree)
    : MenuTree :=
  {| _id_sep := _id_sep self; _id_to_full := _id_to_full self;
     _id_to_label := _id_to_label self; _id_to_info := _id_to_info self;
     _menu_top := _menu_top self; tk_menus := v |}.

(** [MenuTree._id_to_full_default]. *)
Definition _id_to_full_default (id pid id_sep : string) : string :=
  if PyStr.eqb pid INFO_K_ID_V_TOP && PyStr.eqb id_sep INFO_K_ID_V_TOP
  then (pid +:+ id)%string
  else (pid +:+ id_sep +:+ id)%string.

(** [MenuTree._id_to_label_default]. *)
Definition _id_to_label_default (id id_sep : string) : string :=
  let '(_, _, label) := PyStr.rpartition id id_sep in label.

(** [MenuTree.__init__] with [id_to_full], [id_to_label] and [id_sep] left
    to their defaults: the top menu is the first Tk menu created. *)
Definition init : MenuTree :=
  {| _id_sep := "/";
     _id_to_full := _id_to_full_default;
     _id_to_label := _id_to_label_default;
     _id_to_info :=
       [ (INFO_K_ID_V_TOP,
          {| INFO_K_ID := INFO_K_ID_V_TOP; INFO_K_PID := None;
             INFO_K_ITEM_WIDGET := Menu 0; INFO_K_ITEM_INDEX := None |}) ];
     _menu_top := 0;
     tk_menus := [ [] ] |}.

(** Tk calls. *)
Definition tk_Menu : MM nat :=
  fun self =>
    (Ret (length (tk_menus self)),
     set_tk_menus (tk_menus self ++ [ [] ]) self, []).

Definition tk_insert (menu : nat) (index : Z) (e : menu_entry) : MM unit :=
  modify (fun self =>
    set_tk_menus
      (alter (fun es => take (Z.to_nat index) es ++ e :: drop (Z.to_nat index) es)
             menu (tk_menus self)) self).

Definition tk_delete (menu : nat) (index : Z) : MM unit :=
  modify (fun self =>
    set_tk_menus
      (alter (fun es => if (0 <=? index)
                        then take (Z.to_nat index) es
                             ++ drop (S (Z.to_nat index)) es
                        else es)
             menu (tk_menus self)) self).

Definition tk_index_END (menu : nat) : MM (option Z) :=
  gets (fun self =>
    match tk_menus self !! menu with
    | Some [] | None => None
    | Some es => Some (Z.of_nat (length es) - 1)
    end).

(** [MenuTree.item_ids]. *)
Definition item_ids : MM (list string) :=
  gets (fun self => od_keys (_id_to_info self)).

(** [MenuTree.item_exists]. *)
Definition item_exists (id : string) : MM bool :=
  gets (fun self => od_contains (_id_to_info self) id).

Definition is_Menu (w : item_widget) : bool :=
  match w with Menu _ => true | Name _ => false end.

(** [self._id_to_info.get(id, None)] followed by the error of a missing
    item. An id of [None] is never a key. *)
Definition info_of (id : option string) : MM info :=
  self <- get ;;
  match id with
  | None => raise ValueError
  | Some id =>
      match od_get (_id_to_info self) id with
      | None => raise ValueError
      | Some i => ret i
      end
  end.

(** [MenuTree.item_widget]. *)
Definition item_widget_of (id : string) : MM item_widget :=
  i <- info_of (Some id) ;; ret (INFO_K_ITEM_WIDGET i).

(** [MenuTree.item_index]. *)
Definition item_index (id : string) : MM (option Z) :=
  i <- info_of (Some id) ;; ret (INFO_K_ITEM_INDEX i).

(** [MenuTree.item_is_menu]. *)
Definition item_is_menu (id : option string) : MM bool :=
  i <- info_of id ;; ret (is_Menu (INFO_K_ITEM_WIDGET i)).

(** The indexes of the items whose parent is [id]; an index of [None]
    cannot be sorted among integers. *)
Fixpoint child_indexes_of (id : string) (values : list info)
    : outcome (list Z) :=
  match values with
  | [] => Ret []
  | i :: rest =>
      match child_indexes_of id rest with
      | Raise e => Raise e
      | Ret l =>
          if bool_decide (INFO_K_PID i = Some id)
          then match INFO_K_ITEM_INDEX i with
               | Some index => Ret (index :: l)
               | None => Raise TypeError
               end
          else Ret l
      end
  end.

(** [MenuTree.item_child_indexes]. *)
Definition item_child_indexes (id : string) : MM (list Z) :=
  m <- item_is_menu (Some id) ;;
  if negb m then raise ValueError
  else
    self <- get ;;
    match child_indexes_of id (od_values (_id_to_info self)) with
    | Raise e => raise e
    | Ret child_index_s => ret (merge_sort Z.le child_index_s)
    end.

(** [MenuTree.item_child_index_last]. *)
Definition item_child_index_last (id : string) : MM Z :=
  m <- item_is_menu (Some id) ;;
  if negb m then raise ValueError
  else
    index_s <- item_child_indexes id ;;
    ret (default (-1) (last index_s)).

(** [MenuTree._item_child_index_last_internal]. *)
Definition _item_child_index_last_internal (id : string) : MM Z :=
  i <- info_of (Some id) ;;
  match INFO_K_ITEM_WIDGET i with
  | Name _ => raise ValueError
  | Menu widget =>
      index_end <- tk_index_END widget ;;
      ret (default (-1) index_end)
  end.

(** [MenuTree.menu]. *)
Definition menu (id : option string) : MM nat :=
  i <- info_of id ;;
  match INFO_K_ITEM_WIDGET i with
  | Name _ => raise ValueError
  | Menu widget => ret widget
  end.

(** The loop of [_add_info_dict] that shifts the indexes of the other
    children of [pid]. *)
Fixpoint shift_up (pid : string) (index : Z) (d : list (string * info))
    : outcome (list (string * info)) :=
  match d with
  | [] => Ret []
  | (k, i) :: rest =>
      match
        (if bool_decide (INFO_K_PID i = Some pid)
         then match INFO_K_ITEM_INDEX i with
              | None => Raise TypeError
              | Some index_x =>
                  Ret (if index <=? index_x
                       then {| INFO_K_ID := INFO_K_ID i;
                               INFO_K_PID := INFO_K_PID i;
                               INFO_K_ITEM_WIDGET := INFO_K_ITEM_WIDGET i;
                               INFO_K_ITEM_INDEX := Some (index_x + 1) |}
                       else i)
              end
         else Ret i)
      with
      | Raise e => Raise e
      | Ret i' =>
          match shift_up pid index rest with
          | Raise e => Raise e
          | Ret rest' => Ret ((k, i') :: rest')
          end
      end
  end.


(** One step of the loop of [remove_item] over the siblings: the info dict
    of an item after the item at [index] below [pid] has been taken out. *)
Definition lowered (pid : option string) (index : Z) (i : info) : info :=
  if bool_decide (INFO_K_PID i = pid)
  then match INFO_K_ITEM_INDEX i with
       | Some x_index =>
           if index <? x_index
           then {| INFO_K_ID := INFO_K_ID i; INFO_K_PID := INFO_K_PID i;
                   INFO_K_ITEM_WIDGET := INFO_K_ITEM_WIDGET i;
                   INFO_K_ITEM_INDEX := Some (x_index - 1) |}
           else i
       | None => i
       end
  else i.
(** [MenuTree._add_info_dict]. *)
Definition _add_info_dict (pid id : string) (index : Z) (widget : item_widget)
    : MM unit :=
  e <- item_exists id ;;
  if e then raise ValueError
  else
    m <- item_is_menu (Some pid) ;;
    if negb m then raise ValueError
    else
      index_last <- item_child_index_last pid ;;
      index_last_internal <- _item_child_index_last_internal pid ;;
      if negb (index_last =? index_last_internal - 1) then raise ValueError
      else if negb ((0 <=? index) && (index <=? index_last + 1))
      then raise ValueError
      else
        self <- get ;;
        match shift_up pid index (_id_to_info self) with
        | Raise e => raise e
        | Ret d =>
            modify (set_id_to_info
                      (od_set d id
                         {| INFO_K_ID := id; INFO_K_PID := Some pid;
                            INFO_K_ITEM_INDEX := Some index;
                            INFO_K_ITEM_WIDGET := widget |}))
        end.

(** [MenuTree.add_item]: [widget_factory] is called with the parent menu,
    the index and the label. *)
Definition add_item (widget_factory : nat -> Z -> string -> MM item_widget)
    (pid id : string) (id_is_full : bool) (id_sep : option string)
    (index : option Z) (label : option string) : MM unit :=
  m <- item_is_menu (Some pid) ;;
  if negb m then raise ValueError
  else
    self <- get ;;
    let id_sep := default (_id_sep self) id_sep in
    let full_id := if id_is_full then id else _id_to_full self id pid id_sep in
    e <- item_exists full_id ;;
    if e then raise ValueError
    else
      let label := default (_id_to_label self full_id id_sep) label in
      last_index <- item_child_index_last pid ;;
      last_index_internal <- _item_child_index_last_internal pid ;;
      if negb (last_index =? last_index_internal) then raise ValueError
      else
        let index := default (last_index + 1) index in
        if negb ((0 <=? index) && (index <=? last_index + 1))
        then raise ValueError
        else
          parent_menu <- menu (Some pid) ;;
          widget <- widget_factory parent_menu index label ;;
          _add_info_dict pid full_id index widget.

(** [MenuTree.add_menu]. *)
Definition add_menu (pid id : string) (id_is_full : bool)
    (id_sep : option string) (index : option Z) (label : option string)
    : MM unit :=
  add_item
    (fun parent_menu index label =>
       menu <- tk_Menu ;;
       tk_insert parent_menu index (cascade menu label) ;;
       ret (Menu menu))
    pid id id_is_full id_sep index label.

(** [MenuTree.add_command]: [callback] names the command function. *)
Definition add_command (pid id : string) (callback : nat) (id_is_full : bool)
    (id_sep : option string) (index : option Z) (label : option string)
    : MM unit :=
  add_item
    (fun parent_menu index label =>
       tk_insert parent_menu index (command label callback) ;;
       ret (Name "command"))
    pid id id_is_full id_sep index label.


(** [MenuTree.remove_item]. The method calls itself for each child of the
    item; [depth] is the number of nested calls the interpreter still
    allows, and [RecursionError] is raised when none is left. *)
Fixpoint remove_item (depth : nat) (id : string) : MM unit :=
  match depth with
  | O => raise RecursionError
  | S depth' =>
      if PyStr.eqb id INFO_K_ID_V_TOP then raise ValueError
      else
        i <- info_of (Some id) ;;
        let item_pid := INFO_K_PID i in
        let item_index := INFO_K_ITEM_INDEX i in
        parent_menu <- menu item_pid ;;
        match item_index with
        | Some index => tk_delete parent_menu index
        | None => raise TypeError
        end ;;
        ids <- item_ids ;;
        for_each ids
          (fun x_item_id =>
             self <- get ;;
             match od_get (_id_to_info self) x_item_id with
             | None => ret tt
             | Some x_info =>
                 let x_pid := INFO_K_PID x_info in
                 if bool_decide (x_pid = Some id)
                 then remove_item depth' x_item_id
                 else if bool_decide (x_pid = item_pid)
                 then
                   match INFO_K_ITEM_INDEX x_info, item_index with
                   | Some x_index, Some index =>
                       when (index <? x_index)
                         (modify (fun self =>
                            set_id_to_info
                              (od_set (_id_to_info self) x_item_id
                                 {| INFO_K_ID := INFO_K_ID x_info;
                                    INFO_K_PID := INFO_K_PID x_info;
                                    INFO_K_ITEM_WIDGET :=
                                      INFO_K_ITEM_WIDGET x_info;
                                    INFO_K_ITEM_INDEX := Some (x_index - 1) |})
                              self))
                   | _, _ => raise TypeError
                   end
                 else ret tt
             end) ;;
        self <- get ;;
        if od_contains (_id_to_info self) id
        then modify (fun self =>
                       set_id_to_info (od_del (_id_to_info self) id) self)
        else raise KeyError
  end.

End MenuTree.

(** What the bookkeeping says of an item: its parent, its index among the
    children of the parent, and its widget. *)
Definition entry_of (self : MenuTree) (id : string)
    : option (option string * option Z * item_widget) :=
  (fun i => (INFO_K_PID i, INFO_K_ITEM_INDEX i, INFO_K_ITEM_WIDGET i))
  <$> od_get (_id_to_info self) id.

(** The bookkeeping of the last child index of the top menu agrees with
    the Tk menu. *)
Definition top_consistent (self : MenuTree) : Prop :=
  result (item_child_index_last (T:=unit) "/" self)
  = result (_item_child_index_last_internal (T:=unit) "/" self).

End MenuTree.


(** ** registry_editor.py: the selection memo of the child keys listbox *)

Module Editor.

(** The attributes of the [RegistryEditor] that the memo code reads and
    writes besides the child keys listbox: the active path of
    [self._path_nav] and [self._child_keys_listbox_indexcur_memo]. *)
Record Rest : Type := {
  nav_path : string;
  _child_keys_listbox_indexcur_memo : gmap string Z;
}.

Definition set_memo (v : gmap string Z) (r : Rest) : Rest :=
  {| nav_path := nav_path r; _child_keys_listbox_indexcur_memo := v |}.

Section Editor.
Context {X Handler : Type} `{EqDecision Handler}.

Variable curselection : Listbox.Listbox_widget -> list Z.

(** What calling a handler of the child keys listbox does to the listbox,
    the editor and the outside world. *)
Variable run : Handler -> option Eventor.payload
               -> Listbox.ListboxVidget string * (Rest * X)
               -> outcome unit * (Listbox.ListboxVidget string * (Rest * X)).

(** [sorted(names, key=(lambda x: x.lower()))], a Python built-in. *)
Variable sorted_by_lower : list string -> list string.

(** [messagebox.showwarning] and the editor's [_status_bar_set], which act
    on the outside world. *)
Variable showwarning : string -> string -> X -> X.
Variable status_bar_set : string -> X -> X.

Local Abbreviation EdM :=
  (M (Listbox.ListboxVidget string * (Rest * X))
     (Eventor.call (Listbox.ListboxVidget string * (Rest * X)) Handler)).

Definition outside (f : X -> X) : EdM unit :=
  modify (fun w => (w.1, (w.2.1, f w.2.2))).

Definition memo (w : Listbox.ListboxVidget string * (Rest * X))
    : gmap string Z :=
  _child_keys_listbox_indexcur_memo w.2.1.

(** [RegistryEditor._child_keys_listbox_indexcur_remember]. *)
Definition _child_keys_listbox_indexcur_remember : EdM unit :=
  w <- get ;;
  let key_path := nav_path w.2.1 in
  let indexcur := Listbox.indexcur_default curselection w.1 in
  if negb (PyStr.eqb key_path Registry.ROOT) && (indexcur =? 0)
  then ret tt
  else modify (fun w => (w.1, (set_memo (<[key_path := indexcur]> (memo w)) w.2.1,
                               w.2.2))).

(** [RegistryEditor._child_keys_listbox_indexcur_recover]. *)
Definition _child_keys_listbox_indexcur_recover
    (listbox_handlers : Eventor.handlers_dict) : EdM unit :=
  w <- get ;;
  let key_path := nav_path w.2.1 in
  match memo w !! key_path with
  | None => ret tt
  | Some memo_index =>
      let index_last := Listbox.index_last w.1 in
      if memo_index =? Listbox.indexcur_default curselection w.1
      then ret tt
      else if index_last <? memo_index
      then modify (fun w => (w.1, (set_memo (delete key_path (memo w)) w.2.1,
                                   w.2.2)))
      else Listbox.indexcur_set run listbox_handlers memo_index false true PNone
  end.

(** [RegistryEditor._child_keys_listbox_on_nav_path_change], the handler
    of the navigator's [PATH_CHANGE_DONE]: [child_names] is what
    [self._path_nav.child_names()] returned. *)
Definition _child_keys_listbox_on_nav_path_change
    (listbox_handlers : Eventor.handlers_dict)
    (child_names : option (list string)) : EdM unit :=
  w <- get ;;
  let key_path := nav_path w.2.1 in
  child_key_name_s <-
    match child_names with
    | None =>
        outside (showwarning "Error"
                   ("Cannot read child keys of key: `" +:+ key_path +:+ "`")) ;;
        ret []
    | Some l => ret l
    end ;;
  outside (status_bar_set ("Key: `" +:+ key_path +:+ "`")) ;;
  let child_key_name_s := sorted_by_lower child_key_name_s in
  let child_key_name_s :=
    if negb (PyStr.eqb key_path Registry.ROOT)
    then ".."%string :: child_key_name_s
    else child_key_name_s in
  Listbox.items_set run listbox_handlers child_key_name_s true false ;;
  _child_keys_listbox_indexcur_recover listbox_handlers.

(** Handlers that return and leave the listbox and the editor's path and
    memo as they are. *)
Definition keep_editor : Prop :=
  ∀ h a s r x, ∃ x', run h a (s, (r, x)) = (Ret tt, (s, (r, x'))).

End Editor.

End Editor.

(** ** registry_editor.py: going to a key path from the editor *)

Module EditorNav.

(** [except ValueError]: the class and the two subclasses of it that
    [ListboxVidget] declares. *)
Definition is_ValueError (e : exn) : bool :=
  match e with
  | ValueError | CircularCallError | DisabledError => true
  | _ => false
  end.

Section EditorNav.
Context {X PyHKEY Handler : Type} `{EqDecision Handler}.
Variable api : Registry.Win32 X PyHKEY.

(** What calling a handler of the path navigator does to the active path
    and to everything else, the rest of the editor included. *)
Variable run : Handler -> option Eventor.payload -> string * X
               -> outcome unit * (string * X).

(** [messagebox.showwarning], which acts on the outside world. *)
Variable showwarning : string -> string -> X -> X.

Local Abbreviation NavM :=
  (M (string * X) (Eventor.call (string * X) Handler)).

(** [RegistryEditor._path_nav_goto]. *)
Definition _path_nav_goto (nav_handlers : Eventor.handlers_dict)
    (path : string) : NavM bool :=
  try_except
    (Registry.go_to_path api run nav_handlers path true ;; ret true)
    is_ValueError
    (modify (fun w => (w.1, showwarning "Error"
                              ("Cannot open key: `" +:+ path +:+ "`.") w.2)) ;;
     ret false).

(** [RegistryEditor._child_keys_listbox_on_right_click]. *)
Definition _child_keys_listbox_on_right_click
    (nav_handlers : Eventor.handlers_dict) : NavM unit :=
  key_path <- Registry.path ;;
  if negb (PyStr.eqb key_path Registry.ROOT)
  then
    parent <- Registry.parent_path api ;;
    _path_nav_goto nav_handlers parent ;;
    ret tt
  else ret tt.

End EditorNav.

End EditorNav.

(** ** registry_editor.py: the path bar and the navigator *)

Module EditorPathBar.

(** The objects of the [RegistryEditor] that the path bar code reads and
    writes: the active path of [self._path_nav], the vidget
    [self._path_bar], the [state] option of the Tk label
    [self._path_bar_label], and everything else, the operating system
    included. *)
Record Editor (X : Type) : Type := {
  _path_nav : string;
  _path_bar : Entry.EntryVidget;
  _path_bar_label : string;
  rest : X;
}.
Arguments _path_nav {X} _.
Arguments _path_bar {X} _.
Arguments _path_bar_label {X} _.
Arguments rest {X} _.

Definition set_path_nav {X} (v : string) (w : Editor X) : Editor X :=
  {| _path_nav := v; _path_bar := _path_bar w;
     _path_bar_label := _path_bar_label w; rest := rest w |}.

Definition set_path_bar {X} (v : Entry.EntryVidget) (w : Editor X) : Editor X :=
  {| _path_nav := _path_nav w; _path_bar := v;
     _path_bar_label := _path_bar_label w; rest := rest w |}.

Definition set_path_bar_label {X} (v : string) (w : Editor X) : Editor X :=
  {| _path_nav := _path_nav w; _path_bar := _path_bar w;
     _path_bar_label := v; rest := rest w |}.

Definition set_rest {X} (v : X) (w : Editor X) : Editor X :=
  {| _path_nav := _path_nav w; _path_bar := _path_bar w;
     _path_bar_label := _path_bar_label w; rest := v |}.

(** The handlers that [_widget_bind] registers on the path bar and on the
    navigator: the two methods modelled here, and the other methods of
    the editor. *)
Inductive bound (H : Type) : Type :=
| path_bar_on_text_change
| path_bar_on_nav_path_change
| other (h : H).
Arguments path_bar_on_text_change {H}.
Arguments path_bar_on_nav_path_change {H}.
Arguments other {H} h.

#[global] Instance bound_eq_dec {H} `{EqDecision H} : EqDecision (bound H).
Proof. solve_decision. Defined.

Section EditorPathBar.
Context {X PyHKEY Handler : Type} `{EqDecision Handler}.
Variable api : Registry.Win32 X PyHKEY.

(** What calling a registered handler, of the navigator or of the path
    bar, does to the editor. *)
Variable run : Handler -> option Eventor.payload -> Editor X
               -> outcome unit * Editor X.

(** [messagebox.showwarning], which acts on the outside world. *)
Variable showwarning : string -> string -> X -> X.

Local Abbreviation EdM := (M (Editor X) (Eventor.call (Editor X) Handler)).

(** The platform calls and the warning dialog, as they act on the editor:
    on its outside, leaving the three objects alone. *)
Definition api_ed : Registry.Win32 (Editor X) PyHKEY :=
  {| Registry.HKEY_CLASSES_ROOT := Registry.HKEY_CLASSES_ROOT api;
     Registry.HKEY_CURRENT_CONFIG := Registry.HKEY_CURRENT_CONFIG api;
     Registry.HKEY_CURRENT_USER := Registry.HKEY_CURRENT_USER api;
     Registry.HKEY_LOCAL_MACHINE := Registry.HKEY_LOCAL_MACHINE api;
     Registry.HKEY_USERS := Registry.HKEY_USERS api;
     Registry.KEY_ALL_ACCESS := Registry.KEY_ALL_ACCESS api;
     Registry.KEY_READ := Registry.KEY_READ api;
     Registry.KEY_WOW64_64KEY := Registry.KEY_WOW64_64KEY api;
     Registry.RegOpenKeyEx := fun key sub_key reserved mask w =>
       let '(o, x) := Registry.RegOpenKeyEx api key sub_key reserved mask
                        (rest w) in
       (o, set_rest x w);
     Registry.RegCloseKey := fun h w =>
       let '(o, x) := Registry.RegCloseKey api h (rest w) in
       (o, set_rest x w) |}.

Definition showwarning_ed (title message : string) (w : Editor X) : Editor X :=
  set_rest (showwarning title message (rest w)) w.

(** A method of an object that the editor holds in an attribute runs on
    that object next to the editor; a handler it calls is a method of the
    editor, which finds the object in the attribute, as it is at the
    call, and may change it. *)
Definition run_attr {O : Type} (get : Editor X -> O)
    (set : O -> Editor X -> Editor X) (h : Handler)
    (a : option Eventor.payload) (ow : O * Editor X)
    : outcome unit * (O * Editor X) :=
  let '(r, w') := run h a (set ow.1 ow.2) in (r, (get w', w')).

Definition call_attr {O : Type} (set : O -> Editor X -> Editor X)
    (c : Eventor.call (O * Editor X) Handler)
    : Eventor.call (Editor X) Handler :=
  {| Eventor.call_event := Eventor.call_event c;
     Eventor.call_wrapper := Eventor.call_wrapper c;
     Eventor.call_arg := Eventor.call_arg c;
     Eventor.call_world :=
       set (Eventor.call_world c).1 (Eventor.call_world c).2 |}.

Definition on_attr {O A : Type} (get : Editor X -> O)
    (set : O -> Editor X -> Editor X)
    (m : M (O * Editor X) (Eventor.call (O * Editor X) Handler) A) : EdM A :=
  fun w =>
    let '(o, ow, t) := m (get w, w) in
    (o, set ow.1 ow.2, call_attr set <$> t).

(** [self._path_bar.text_set(text=..., notify=...)]. *)
Definition path_bar_text_set (bar_handlers : Eventor.handlers_dict)
    (text : string) (notify : bool) : EdM unit :=
  on_attr _path_bar set_path_bar
    (Entry.text_set (run_attr _path_bar set_path_bar) bar_handlers text
       notify PNone false).

(** The validator wrapper of [self._path_bar], which Tk calls with the
    new value at each key stroke in the path bar. *)
Definition path_bar_validator_wrapper (bar_handlers : Eventor.handlers_dict)
    (new_value : string) : EdM bool :=
  on_attr _path_bar set_path_bar
    (Entry.validator_wrapper (run_attr _path_bar set_path_bar) bar_handlers
       new_value).

(** [RegistryEditor._path_nav_goto], run from the editor. *)
Definition _path_nav_goto (nav_handlers : Eventor.handlers_dict)
    (path : string) : EdM bool :=
  on_attr _path_nav set_path_nav
    (EditorNav._path_nav_goto api_ed (run_attr _path_nav set_path_nav)
       showwarning_ed nav_handlers path).

(** [RegistryEditor._path_bar_update]. *)
Definition _path_bar_update : EdM unit :=
  key_path <- gets (fun w => Entry.text (_path_bar w)) ;;
  e <- Registry.regkey_exists api_ed key_path ;;
  if negb e then modify (set_path_bar_label Entry.DISABLED)
  else modify (set_path_bar_label Entry.NORMAL).

(** [RegistryEditor._path_bar_on_text_change]. *)
Definition _path_bar_on_text_change (nav_handlers : Eventor.handlers_dict)
    : EdM unit :=
  _path_bar_update ;;
  key_path <- gets (fun w => Entry.text (_path_bar w)) ;;
  e <- Registry.regkey_exists api_ed key_path ;;
  if e then _path_nav_goto nav_handlers key_path ;; ret tt
  else ret tt.

(** [RegistryEditor._path_bar_on_nav_path_change]. *)
Definition _path_bar_on_nav_path_change (bar_handlers : Eventor.handlers_dict)
    : EdM unit :=
  changing <- gets (fun w => Entry.is_changing (_path_bar w)) ;;
  if changing then ret tt
  else
    nav_key_path <- gets _path_nav ;;
    text <- gets (fun w => Entry.text (_path_bar w)) ;;
    if negb (PyStr.eqb nav_key_path text)
    then
      path_bar_text_set bar_handlers nav_key_path false ;;
      _path_bar_update
    else ret tt.

(** Handlers that return and leave the navigator, the path bar and the
    label as they are. *)
Definition keep_editor : Prop :=
  ∀ h a w, ∃ x', run h a w = (Ret tt, set_rest x' w).

(** [regkey_exists(path)] called with the outside world [x] answers [b]
    and leaves [x']. *)
Definition key_check (path : string) (x : X) (b : bool) (x' : X) : Prop :=
  ∀ T : Type, Registry.regkey_exists (T:=T) api path x = (Ret b, x', []).

End EditorPathBar.

(** The editor as [_widget_bind] wires it: the handler of the path bar's
    [TEXT_CHANGE_DONE] is [_path_bar_on_text_change], one handler of the
    navigator's [PATH_CHANGE_DONE] is [_path_bar_on_nav_path_change], and
    each of the two may call the other through the object it changes.
    [depth] is the number of nested handler calls the interpreter still
    allows. *)
Section Wiring.
Context {X PyHKEY H : Type} `{EqDecision H}.
Variable api : Registry.Win32 X PyHKEY.
Variable run_other : H -> option Eventor.payload -> Editor X
                     -> outcome unit * Editor X.
Variable showwarning : string -> string -> X -> X.
Variable bar_handlers nav_handlers : Eventor.handlers_dict (Handler:=bound H).

Fixpoint run_bound (depth : nat) (h : bound H) (a : option Eventor.payload)
    (w : Editor X) : outcome unit * Editor X :=
  match depth with
  | O => (Raise RecursionError, w)
  | S depth' =>
      match h with
      | path_bar_on_text_change =>
          let r := _path_bar_on_text_change api (run_bound depth') showwarning
                     nav_handlers w in
          (result r, world r)
      | path_bar_on_nav_path_change =>
          let r := _path_bar_on_nav_path_change api (run_bound depth')
                     bar_handlers w in
          (result r, world r)
      | other h' => run_other h' a w
      end
  end.

End Wiring.

(** The handlers dicts after [_widget_bind]: the path bar has the one
    handler; the navigator has [_path_bar_on_nav_path_change] first and
    then the handlers of the two listboxes, all for [PATH_CHANGE_DONE]. *)
Definition bar_handlers_bound {H} `{EqDecision H}
    : Eventor.handlers_dict (Handler:=bound H) :=
  {[ Some Entry.TEXT_CHANGE_DONE :=
       [ {| Eventor.handler := path_bar_on_text_change;
            Eventor._need_arg := false |} ] ]}.

Definition nav_handlers_bound {H} `{EqDecision H} (child_keys fields : H)
    : Eventor.handlers_dict (Handler:=bound H) :=
  {[ Some Registry.PATH_CHANGE_DONE :=
       [ {| Eventor.handler := path_bar_on_nav_path_change;
            Eventor._need_arg := false |};
         {| Eventor.handler := other child_keys; Eventor._need_arg := false |};
         {| Eventor.handler := other fields; Eventor._need_arg := false |} ] ]}.

End EditorPathBar.
(** ** field_editor_config.py *)

Module FieldEditorConfig.
Import Strings.Ascii.

(** The characters [';'] and ['\n']. *)
Definition semicolon : Ascii.ascii := ";"%char.
Definition newline : Ascii.ascii := "010"%char.

(** [semicolon_to_newline]. *)
Definition semicolon_to_newline (text : string) : string :=
  PyStr.join (String newline EmptyString) (PyStr.split text semicolon).

(** [newline_to_semicolon]. *)
Definition newline_to_semicolon (text : string) : string :=
  PyStr.join (String semicolon EmptyString) (PyStr.split text newline).

End FieldEditorConfig.

(** ** Concrete objects, used to run the definitions *)

Module Samples.

(** An eventor whose handlers are numbers and whose world is the list of
    the handlers that have run: two handlers listen to [E], one to every
    event. *)
Definition run_log (h : nat) (_ : option Eventor.payload) (w : list nat)
    : outcome unit * list nat :=
  (Ret tt, w ++ [h]).

Definition wrap (h : nat) : Eventor._EventHandlerWrapper nat :=
  {| Eventor.handler := h; Eventor._need_arg := false |}.

Definition two_and_one : Eventor.handlers_dict (Handler:=nat) :=
  <[Some "E"%string := [wrap 1; wrap 2]]> (<[None := [wrap 3]]> ∅).

(** A registry with one key below one hive. The platform hands out the
    handle 1 for it and refuses every other path; closing returns. *)
Definition one_key : Registry.Win32 unit nat :=
  {| Registry.HKEY_CLASSES_ROOT := 0;
     Registry.HKEY_CURRENT_CONFIG := 5;
     Registry.HKEY_CURRENT_USER := 1;
     Registry.HKEY_LOCAL_MACHINE := 2;
     Registry.HKEY_USERS := 3;
     Registry.KEY_ALL_ACCESS := 983103;
     Registry.KEY_READ := 131097;
     Registry.KEY_WOW64_64KEY := 256;
     Registry.RegOpenKeyEx := fun hive sub _ _ x =>
       if (hive =? 1) && bool_decide (sub = Some "Software"%string)
       then (Ret 1%nat, x) else (Raise pywintypes_error, x);
     Registry.RegCloseKey := fun _ x => (Ret tt, x) |}.

(** Navigator handlers that do nothing: 1 listens to [PATH_CHANGE_SOON],
    2 to [PATH_CHANGE_DONE], 3 to every event. *)
Definition run_idle {W : Type} (h : nat) (_ : option Eventor.payload) (w : W)
    : outcome unit * W :=
  (Ret tt, w).

Definition nav_handlers : Eventor.handlers_dict (Handler:=nat) :=
  <[Some Registry.PATH_CHANGE_SOON := [wrap 1]]>
    (<[Some Registry.PATH_CHANGE_DONE := [wrap 2]]> (<[None := [wrap 3]]> ∅)).

(** A listbox of numbers with a given active index, widget state and
    changing flag; Tk's [curselection] is not used by the calls below. *)
Definition listbox_of (l : list Z) (indexcur : Z) (state : string)
    (changing : bool) : Listbox.ListboxVidget Z :=
  {| Listbox._items := l;
     Listbox._item_to_text := fun _ => "item"%string;
     Listbox._normal_fg := ""; Listbox._normal_bg := "";
     Listbox._active_fg := "white"; Listbox._active_bg := "sky blue";
     Listbox._selected_fg := "white"; Listbox._selected_bg := "steel blue";
     Listbox._is_changing := changing;
     Listbox._indexcur := indexcur;
     Listbox._is_resetting := false;
     Listbox._listbox := {| Listbox.state := state; Listbox.calls := [] |} |}.

Definition no_curselection (_ : Listbox.Listbox_widget) : list Z := [].

Definition no_handlers : Eventor.handlers_dict (Handler:=nat) := ∅.

(** A handler of [ITEMS_CHANGE_SOON] that replaces the items of the
    listbox that is notifying it. *)
Definition run_reenter (h : nat) (_ : option Eventor.payload)
    (w : Listbox.ListboxVidget Z * unit)
    : outcome unit * (Listbox.ListboxVidget Z * unit) :=
  let r := Listbox.items_set (Handler:=nat) run_idle no_handlers [7] false false w in
  (result r, world r).

Definition soon_handlers : Eventor.handlers_dict (Handler:=nat) :=
  <[Some Listbox.ITEMS_CHANGE_SOON := [wrap 1]]> ∅.

(** A text entry that holds "old" and whose validator rejects every
    value. *)
Definition stubborn_entry : Entry.EntryVidget :=
  {| Entry._text_widget := {| Entry.value := "old"; Entry.state := "normal";
                              Entry.validatecommand := true |};
     Entry._is_changing := false;
     Entry._old_widget_state := "normal";
     Entry._validator := Some (fun _ => Ret false);
     Entry._text := "old" |}.

(** A listbox of key names, enabled and not changing, and an editor that
    is at a hive key and remembers index 2 for it. *)
Definition names_listbox (l : list string) (indexcur : Z)
    : Listbox.ListboxVidget string :=
  {| Listbox._items := l;
     Listbox._item_to_text := fun name => name;
     Listbox._normal_fg := ""; Listbox._normal_bg := "";
     Listbox._active_fg := "white"; Listbox._active_bg := "sky blue";
     Listbox._selected_fg := "white"; Listbox._selected_bg := "steel blue";
     Listbox._is_changing := false;
     Listbox._indexcur := indexcur;
     Listbox._is_resetting := false;
     Listbox._listbox := {| Listbox.state := "normal"; Listbox.calls := [] |} |}.

Definition at_hive : Editor.Rest :=
  {| Editor.nav_path := "HKEY_CURRENT_USER";
     Editor._child_keys_listbox_indexcur_memo :=
       <["HKEY_CURRENT_USER"%string := 2]> ∅ |}.

Definition keep_order (l : list string) : list string := l.

Definition no_dialog (_ _ : string) (x : unit) : unit := x.

Definition no_status (_ : string) (x : unit) : unit := x.


(** Handlers that raise [ValueError] and leave the world as it is. *)
Definition run_raise {W : Type} (h : nat) (_ : option Eventor.payload) (w : W)
    : outcome unit * W :=
  (Raise ValueError, w).

(** A text entry that holds "old" in a widget of the given state, with the
    default validator. *)
Definition plain_entry (state : string) : Entry.EntryVidget :=
  {| Entry._text_widget := {| Entry.value := "old"; Entry.state := state;
                              Entry.validatecommand := true |};
     Entry._is_changing := false;
     Entry._old_widget_state := "normal";
     Entry._validator := Some Entry._DEFAULT_VALIDATOR;
     Entry._text := "old" |}.

Definition text_handlers : Eventor.handlers_dict (Handler:=nat) :=
  <[Some Entry.TEXT_CHANGE_SOON := [wrap 1]]>
    (<[Some Entry.TEXT_CHANGE_DONE := [wrap 2]]> ∅).

(** The registry of [one_key] next to any outside world, which the
    platform calls leave as it is, and an outside world that is the list
    of the warnings shown. *)
Definition one_key_in (X : Type) : Registry.Win32 X nat :=
  {| Registry.HKEY_CLASSES_ROOT := 0;
     Registry.HKEY_CURRENT_CONFIG := 5;
     Registry.HKEY_CURRENT_USER := 1;
     Registry.HKEY_LOCAL_MACHINE := 2;
     Registry.HKEY_USERS := 3;
     Registry.KEY_ALL_ACCESS := 983103;
     Registry.KEY_READ := 131097;
     Registry.KEY_WOW64_64KEY := 256;
     Registry.RegOpenKeyEx := fun hive sub _ _ x =>
       if (hive =? 1) && bool_decide (sub = Some "Software"%string)
       then (Ret 1%nat, x) else (Raise pywintypes_error, x);
     Registry.RegCloseKey := fun _ x => (Ret tt, x) |}.

Definition log_warning (title message : string) (log : list string)
    : list string :=
  log ++ [message].

End Samples.

(** * Properties *)
(** Monad laws used to straighten the bodies of methods. *)
Section MonadLaws.
Context {W T : Type}.

Lemma bind_ret_l {A B} (a : A) (f : A -> M W T B) w :
    bind (ret a) f w = f a w.
Proof. unfold bind, ret. destruct (f a w) as [[o w2] t2]. reflexivity. Qed.

Lemma bind_raise_l {A B} e (f : A -> M W T B) w :
    bind (raise e) f w = (Raise e, w, []).
Proof. reflexivity. Qed.

Lemma for_each_app {A} (l1 l2 : list A) (body : A -> M W T unit) w :
    for_each (l1 ++ l2) body w
    = bind (for_each l1 body) (fun _ => for_each l2 body) w.
Proof.
    revert w. induction l1 as [|x l1 IH]; intros w; simpl.
    - now rewrite bind_ret_l.
    - unfold bind in *.
      destruct (body x w) as [[[[]|e] w1] t1]; [|reflexivity].
      rewrite IH.
      destruct (for_each l1 body w1) as [[[[]|e1] w2] t2]; [|reflexivity].
      destruct (for_each l2 body w2) as [[o3 w3] t3].
      now rewrite app_assoc.
Qed.
End MonadLaws.

(** Steps of a computation, for proofs by evaluation. *)
Ltac py_unfold :=
  unfold bind, ret, raise, get, gets, modify, when, result, world, trace in *.

(** ** eventor.py *)

Module EventorFacts.
Import Eventor.

Section Facts.
Context {W Handler : Type} `{EqDecision Handler}.
Variable run : Handler -> option payload -> W -> outcome unit * W.

Lemma has_key_false (self : handlers_dict (Handler:=Handler)) ev :
  has_key self ev = false -> handlers_for self ev = [].
Proof.
  unfold has_key, handlers_for. intros Hk.
  apply bool_decide_eq_false in Hk.
  destruct (self !! ev) as [l|] eqn:E; [|reflexivity].
  exfalso. apply Hk. eauto.
Qed.

Lemma has_key_true (self : handlers_dict (Handler:=Handler)) ev :
  has_key self ev = true -> default [] (self !! ev) = handlers_for self ev.
Proof. reflexivity. Qed.

(** The loop of the source is the call of the wrappers one after another. *)
Lemma for_each_invoke ev a (hs : list (_EventHandlerWrapper Handler)) w :
  for_each hs (invoke run ev a) w = call_in_order run ev a hs w.
Proof.
  revert w. induction hs as [|hw hs IH]; intros w; simpl; [reflexivity|].
  unfold bind, invoke.
  destruct (wrapper_call run hw a w) as [[[]|e] w1]; [|reflexivity].
  rewrite IH. destruct (call_in_order run ev a hs w1) as [[o w2] t].
  reflexivity.
Qed.

Lemma call_in_order_app ev a (l1 l2 : list (_EventHandlerWrapper Handler)) w :
  call_in_order run ev a (l1 ++ l2) w
  = bind (call_in_order run ev a l1) (fun _ => call_in_order run ev a l2) w.
Proof.
  rewrite <- for_each_invoke, for_each_app. unfold bind.
  rewrite !for_each_invoke.
  destruct (call_in_order run ev a l1 w) as [[[[]|e] w1] t1]; [|reflexivity].
  rewrite for_each_invoke. reflexivity.
Qed.

(** [handler_notify] calls the wrappers of the event, then those of
    [None], each list in its order. *)
Lemma handler_notify_in_order (self : handlers_dict) ev arg notifier need_info w :
  handler_notify run self ev arg notifier need_info w
  = call_in_order run ev (notify_arg ev arg notifier need_info)
      (handlers_for self ev ++ handlers_for self None) w.
Proof.
  unfold handler_notify, handlers_for.
  destruct (has_key self ev) eqn:Hev; destruct (has_key self None) eqn:Hn;
    simpl.
  - rewrite call_in_order_app. unfold bind. rewrite for_each_invoke.
    destruct (call_in_order run ev _ (default [] (self !! ev)) w)
      as [[[[]|e] w1] t1]; [|reflexivity].
    rewrite for_each_invoke. reflexivity.
  - apply has_key_false in Hn. unfold handlers_for in Hn. rewrite Hn, app_nil_r.
    unfold bind. rewrite for_each_invoke.
    destruct (call_in_order run ev _ (default [] (self !! ev)) w)
      as [[[[]|e] w1] t1]; simpl; [|reflexivity].
    now rewrite app_nil_r.
  - apply has_key_false in Hev. unfold handlers_for in Hev. rewrite Hev. simpl.
    now rewrite bind_ret_l, for_each_invoke.
  - apply has_key_false in Hev. apply has_key_false in Hn.
    unfold handlers_for in *. rewrite Hev, Hn. reflexivity.
Qed.


(** Handlers that return and leave an observation [obs] of the world as
    it is are each shown the same observation. *)
Lemma call_in_order_keeps {D} (obs : W -> D) ev a
    (hs : list (_EventHandlerWrapper Handler)) w :
  (∀ h p w0, ∃ w1, run h p w0 = (Ret tt, w1) ∧ obs w1 = obs w0) ->
  ∃ w', (call_in_order run ev a hs w).1 = (Ret tt, w')
        ∧ obs w' = obs w
        ∧ (fun c => (call_event c, call_wrapper c, call_arg c,
                     obs (call_world c)))
          <$> (call_in_order run ev a hs w).2
          = (fun hw => (ev, hw, a, obs w)) <$> hs.
Proof.
  intros Hkeep. revert w. induction hs as [|hw hs IH]; intros w; simpl.
  - exists w. auto.
  - assert (Hw : ∃ w1, wrapper_call run hw a w = (Ret tt, w1) ∧ obs w1 = obs w).
    { unfold wrapper_call. destruct (_need_arg hw); apply Hkeep. }
    destruct Hw as (w1 & -> & Hobs).
    destruct (IH w1) as (w' & Hres & Hobs' & Htr).
    destruct (call_in_order run ev a hs w1) as [[o w2] t]. simpl in *.
    inversion Hres; subst. exists w'. repeat split.
    + congruence.
    + f_equal. etrans; [exact Htr|]. now rewrite Hobs.
Qed.

(** A handler added to an event comes last in the list of that event, and
    the lists of the other events stay as they are. *)
Lemma handler_add_appends (self self' : handlers_dict) ev (h : Handler) need_arg :
  handler_add self ev h need_arg = Ret self' ->
  handlers_for self' ev
  = handlers_for self ev ++ [ {| handler := h; _need_arg := need_arg |} ]
  ∧ ∀ ev', ev' ≠ ev -> handlers_for self' ev' = handlers_for self ev'.
Proof.
  unfold handler_add, handlers_for, handlers_dict in *. intros Hadd.
  destruct (self !! ev) as [l|] eqn:E.
  - destruct (existsb _ l); [discriminate|].
    inversion Hadd; subst. split.
    + now rewrite lookup_insert_eq.
    + intros ev' Hne. now rewrite lookup_insert_ne.
  - inversion Hadd; subst. split.
    + now rewrite lookup_insert_eq.
    + intros ev' Hne. now rewrite lookup_insert_ne.
Qed.

End Facts.


Import Samples.


End EventorFacts.

(** ** registry.py *)

Module RegistryFacts.
Import Registry.

Section Facts.
Context {X PyHKEY : Type}.
Variable api : Win32 X PyHKEY.

(** Opening and closing keys calls no handler. *)
Lemma regkey_get_silent {T} path mask x :
  trace (regkey_get (T:=T) api path mask x) = [].
Proof.
  unfold regkey_get. destruct (PyStr.eqb path ROOT); [reflexivity|].
  unfold bind, try_except, _regkey_handle_get, os_call, trace.
  destruct (PyStr.partition path "\") as [[hive_name sep] nohive_path].
  destruct (_hive_name_to_int api hive_name) as [hive_int|]; simpl;
    [|reflexivity].
  destruct (RegOpenKeyEx _ _ _ _ _ _) as [[h|e] x']; reflexivity.
Qed.

Lemma close_silent {T} k x : trace (close (T:=T) api (k, x)) = [].
Proof.
  unfold close, bind, gets, trace; simpl.
  destruct (class k); [|reflexivity].
  destruct (closed k); [reflexivity|].
  destruct (_handle k) as [h|]; simpl; [|reflexivity].
  unfold os_call. destruct (RegCloseKey api h x) as [[[]|e] x']; reflexivity.
Qed.

Lemma regkey_exists_silent {T} path x :
  trace (regkey_exists (T:=T) api path x) = [].
Proof.
  unfold regkey_exists, bind, trace.
  pose proof (regkey_get_silent (T:=T) path (Some (KEY_READ api)) x) as Hg.
  destruct (regkey_get api path (Some (KEY_READ api)) x) as [[[[k|]|e] x1] t1];
    unfold trace in Hg; simpl in Hg; subst t1; try reflexivity.
  unfold with_local.
  pose proof (close_silent (T:=T) k x1) as Hc.
  destruct (close api (k, x1)) as [[[[]|e] [k' x2]] t2];
    unfold trace in Hc; simpl in Hc; subst t2; reflexivity.
Qed.

(** [regkey_get] of the root path gives the root key, whatever the mask. *)
Lemma regkey_get_root {T} mask x :
  regkey_get (T:=T) api ROOT mask x = (Ret (Some RootRegKey), x, []).
Proof. reflexivity. Qed.

(** Closing the root key does nothing. *)
Lemma root_close {T} x :
  close (T:=T) api (RootRegKey, x) = (Ret tt, (RootRegKey, x), []).
Proof. reflexivity. Qed.

(** A closed ordinary key refuses to be closed again. *)
Lemma close_closed {T} (k : RegKey PyHKEY) x :
  class k = RegKey_class -> _handle k = None ->
  close (T:=T) api (k, x) = (Raise ValueError, (k, x), []).
Proof.
  intros Hc Hh. unfold close, bind, gets, closed; simpl. now rewrite Hc, Hh.
Qed.

Section Navigator.
Context {Handler : Type} `{EqDecision Handler}.
Variable run : Handler -> option Eventor.payload -> string * X
               -> outcome unit * (string * X).

(** One notification under handlers that keep the active path. *)
Lemma notify_keeps_path (self_handlers : Eventor.handlers_dict) ev p x :
  keep_path run ->
  ∃ x' t,
    Eventor.handler_notify run self_handlers (Some ev) PSelf None false (p, x)
    = (Ret tt, (p, x'), t)
    ∧ seen <$> t = fires self_handlers ev p.
Proof.
  intros Hkeep. rewrite EventorFacts.handler_notify_in_order.
  destruct (EventorFacts.call_in_order_keeps run fst (Some ev)
              (Eventor.notify_arg (Some ev) PSelf None false)
              (Eventor.handlers_for self_handlers (Some ev)
               ++ Eventor.handlers_for self_handlers None) (p, x))
    as ([p' x'] & Hres & Hobs & Htr).
  { intros h a [p0 x0]. destruct (Hkeep h a p0 x0) as [x1 ->].
    exists (p0, x1). auto. }
  simpl in Hobs. subst p'.
  destruct (Eventor.call_in_order _ _ _ _ _) as [[o w'] t]. simpl in *.
  inversion Hres; subst. exists x', t. split; [reflexivity|].
  exact Htr.
Qed.

End Navigator.
End Facts.

(** C1. [go_to_path(P, check=True)] on a path that [regkey_exists] does
    not find raises before the active path is touched and before any
    handler is called. Otherwise, with handlers that return and leave the
    active path alone, the call returns [P], [path()] is [P] afterwards,
    and the handlers of [PATH_CHANGE_SOON] (and those of every event) are
    each called once while the old path is active, followed by the
    handlers of [PATH_CHANGE_DONE] (and those of every event), each called
    once while [P] is active. *)
Theorem go_to_path_transition :
  ∀ (X PyHKEY Handler : Type) (Heq : EqDecision Handler)
    (api : Win32 X PyHKEY)
    (run : Handler -> option Eventor.payload -> string * X
           -> outcome unit * (string * X))
    (self_handlers : Eventor.handlers_dict) (P : string) (check : bool)
    (p : string) (x : X),
    (check = true ->
     result (regkey_exists (T:=Eventor.call (string * X) Handler) api P x)
     = Ret false ->
     ∃ x', go_to_path api run self_handlers P check (p, x)
           = (Raise ValueError, (p, x'), []))
    ∧ (keep_path run ->
       check = false
       ∨ result (regkey_exists (T:=Eventor.call (string * X) Handler) api P x)
         = Ret true ->
       let r := go_to_path api run self_handlers P check (p, x) in
       result r = Ret P
       ∧ fst (world r) = P
       ∧ seen <$> trace r
         = fires self_handlers PATH_CHANGE_SOON p
           ++ fires self_handlers PATH_CHANGE_DONE P).
Proof.
  intros X PyHKEY Handler Heq api run self_handlers P check p x. split.
  - intros -> Hex. unfold go_to_path, when, bind, on_rest.
    pose proof (regkey_exists_silent
                  (T:=Eventor.call (string * X) Handler) api P x) as Hs.
    destruct (regkey_exists api P x) as [[o x1] t1].
    unfold result, trace in *; simpl in *. subst o t1. simpl.
    exists x1. reflexivity.
  - intros Hkeep Hok r.
    assert (Hpre : ∃ x0,
      (when check
         (e <- on_rest (regkey_exists api P) ;;
          if negb e then raise ValueError else ret tt))
        (p, x)
      = (Ret tt, (p, x0), [] : list (Eventor.call (string * X) Handler))).
    { destruct check.
      - destruct Hok as [Hf|Hex]; [discriminate|].
        unfold when, bind, on_rest.
        pose proof (regkey_exists_silent
                      (T:=Eventor.call (string * X) Handler) api P x) as Hs.
        destruct (regkey_exists api P x) as [[o x1] t1].
        unfold result, trace in *; simpl in *. subst o t1. simpl.
        exists x1. reflexivity.
      - exists x. reflexivity. }
    destruct Hpre as [x0 Hpre].
    destruct (notify_keeps_path run self_handlers PATH_CHANGE_SOON p x0 Hkeep)
      as (x1 & t1 & Hn1 & Ht1).
    destruct (notify_keeps_path run self_handlers PATH_CHANGE_DONE P x1 Hkeep)
      as (x2 & t2 & Hn2 & Ht2).
    assert (Hgo : go_to_path api run self_handlers P check (p, x)
                  = (Ret P, (P, x2), t1 ++ t2)).
    { unfold go_to_path.
      unfold bind at 1. rewrite Hpre.
      unfold bind at 1. rewrite Hn1.
      unfold bind at 1. unfold modify at 1.
      unfold bind at 1. rewrite Hn2.
      unfold gets. simpl. now rewrite app_nil_r. }
    subst r. rewrite Hgo. unfold result, world, trace. simpl.
    repeat split. now rewrite fmap_app, Ht1, Ht2.
Qed.

(** C10. [regkey_get] of the empty root path gives the root key, and
    however many times [close] has been called on it, the key is as it
    was, the next [close] returns without raising, and [closed] is
    [False]. *)
Theorem root_key_close_is_a_noop :
  ∀ (X PyHKEY T : Type) (api : Win32 X PyHKEY) (mask : option Z) (x : X)
    (n : nat),
    regkey_get (T:=T) api "" mask x = (Ret (Some RootRegKey), x, [])
    ∧ let w := Nat.iter n (fun w => world (close (T:=T) api w))
                 (RootRegKey, x) in
      w = (RootRegKey, x)
      ∧ result (close (T:=T) api w) = Ret tt
      ∧ closed (fst w) = false.
Proof.
  intros X PyHKEY T api mask x n. split; [reflexivity|].
  assert (Hn : Nat.iter n (fun w => world (close (T:=T) api w))
                 (RootRegKey, x) = (RootRegKey, x)).
  { induction n as [|n IH]; [reflexivity|]. simpl. now rewrite IH. }
  simpl. rewrite Hn. repeat split.
Qed.

(** C9, as amended. For a key object of class [RegKey] (any key but the
    root key) whose handle is set and whose platform handle closes, the
    first [close] returns and marks the key closed, and from then on every
    further [close] raises [ValueError] and leaves the key closed, without
    calling the platform again. *)
Theorem close_twice_is_an_error :
  ∀ (X PyHKEY T : Type) (api : Win32 X PyHKEY) (k : RegKey PyHKEY)
    (h : PyHKEY) (x x' : X) (n : nat),
    class k = RegKey_class ->
    _handle k = Some h ->
    RegCloseKey api h x = (Ret tt, x') ->
    let k' := {| class := RegKey_class; _handle := None; _path := _path k |} in
    closed k = false
    ∧ close (T:=T) api (k, x) = (Ret tt, (k', x'), [])
    ∧ closed k' = true
    ∧ let w := Nat.iter n (fun w => world (close (T:=T) api w)) (k', x') in
      w = (k', x')
      ∧ close (T:=T) api w = (Raise ValueError, (k', x'), []).
Proof.
  intros X PyHKEY T api k h x x' n Hc Hh Hclose k'.
  assert (H1 : close (T:=T) api (k', x') = (Raise ValueError, (k', x'), []))
    by now apply close_closed.
  split; [|split; [|split; [reflexivity|]]].
  - unfold closed. now rewrite Hc, Hh.
  - unfold close, bind, gets, closed, on_rest, os_call, modify; simpl.
    rewrite Hc, Hh, Hclose. simpl. subst k'. now rewrite Hc.
  - assert (Hn : Nat.iter n (fun w => world (close (T:=T) api w)) (k', x')
                 = (k', x')).
    { induction n as [|n IH]; [reflexivity|]. simpl. rewrite IH.
      now rewrite H1. }
    simpl. rewrite Hn. split; [reflexivity | exact H1].
Qed.

Import Samples.

Lemma close_twice_is_an_error_witness :
  let k := {| class := RegKey_class; _handle := Some 1%nat;
              _path := "HKEY_CURRENT_USER\Software" |} in
  let k' := {| class := RegKey_class; _handle := None;
               _path := "HKEY_CURRENT_USER\Software" |} in
  closed k = false
  ∧ close (T:=unit) one_key (k, tt) = (Ret tt, (k', tt), [])
  ∧ closed k' = true
  ∧ let w := Nat.iter 2 (fun w => world (close (T:=unit) one_key w)) (k', tt) in
    w = (k', tt)
    ∧ close (T:=unit) one_key w = (Raise ValueError, (k', tt), []).
Proof.
  intros k k'.
  apply (close_twice_is_an_error unit nat unit one_key k 1%nat tt tt 2);
    reflexivity.
Defined.

(** C9 as stated fails on the root key: the key that [regkey_get] gives for
    the root path reports itself as not closed, stays so after [close], and
    its second [close] returns instead of raising. *)
Lemma close_twice_root_counterexample :
  ¬ (∀ (k : RegKey nat) (x : unit),
       closed k = false ->
       let r1 := close (T:=unit) one_key (k, x) in
       result r1 = Ret tt
       ∧ closed (fst (world r1)) = true
       ∧ raised (result (close (T:=unit) one_key (world r1))) = true).
Proof.
  intros Hclaim.
  destruct (Hclaim RootRegKey tt eq_refl) as (_ & _ & Hraised).
  discriminate Hraised.
Qed.

Lemma go_to_path_transition_witness :
  (∃ x', go_to_path one_key run_idle nav_handlers "HKEY_CURRENT_USER\Nope"
           true (""%string, tt)
         = (Raise ValueError, (""%string, x'), []))
  ∧ (let r := go_to_path one_key run_idle nav_handlers
                "HKEY_CURRENT_USER\Software" true (""%string, tt) in
     result r = Ret "HKEY_CURRENT_USER\Software"%string
     ∧ fst (world r) = "HKEY_CURRENT_USER\Software"%string
     ∧ seen <$> trace r
       = fires nav_handlers PATH_CHANGE_SOON ""
         ++ fires nav_handlers PATH_CHANGE_DONE "HKEY_CURRENT_USER\Software").
Proof.
  split.
  - apply (go_to_path_transition unit nat nat _ one_key run_idle nav_handlers
             "HKEY_CURRENT_USER\Nope" true "" tt); reflexivity.
  - apply (go_to_path_transition unit nat nat _ one_key run_idle nav_handlers
             "HKEY_CURRENT_USER\Software" true "" tt).
    + intros h a p x. exists x. reflexivity.
    + right. reflexivity.
Defined.

End RegistryFacts.

(** ** Python lists *)

Module PyListFacts.
Section Facts.
Context {A : Type}.



Lemma del_in_range (l : list A) (i : Z) :
  0 <= i < PyList.len l ->
  PyList.del l i
  = Ret (take (Z.to_nat i) l ++ drop (S (Z.to_nat i)) l).
Proof.
  intros Hi. unfold PyList.del.
  destruct (i <? 0) eqn:E; [lia|].
  destruct (0 <=? i) eqn:E1; [|lia].
  destruct (i <? PyList.len l) eqn:E2; [|lia].
  reflexivity.
Qed.

Lemma len_del (l l' : list A) (i : Z) :
  0 <= i < PyList.len l ->
  PyList.del l i = Ret l' ->
  PyList.len l' = PyList.len l - 1.
Proof.
  intros Hi. rewrite del_in_range by assumption. intros [= <-].
  unfold PyList.len in *.
  rewrite length_app, length_take, length_drop. lia.
Qed.


End Facts.
End PyListFacts.

(** ** tkinterutil/listbox.py *)

Module ListboxFacts.
Import Listbox.

Section Facts.
Context {Item X Handler : Type} `{EqDecision Handler}.
Variable curselection : Listbox_widget -> list Z.
Variable run : Handler -> option Eventor.payload -> ListboxVidget Item * X
               -> outcome unit * (ListboxVidget Item * X).

(** An observation of the outside world that handlers may be known to
    leave as it is. *)
Context {O : Type}.
Variable obs : X -> O.

Lemma keep_vidget_obs : keep_vidget run -> keep_vidget_and run (fun _ => tt).
Proof. intros Hkeep h a s x. destruct (Hkeep h a s x) as [x' E]. eauto. Qed.

Lemma same_vidget_refl (s : ListboxVidget Item) : same_vidget s s.
Proof. repeat split. Qed.

Lemma same_vidget_trans (s1 s2 s3 : ListboxVidget Item) :
  same_vidget s1 s2 -> same_vidget s2 s3 -> same_vidget s1 s3.
Proof.
  unfold same_vidget. intros (?&?&?&?&?) (?&?&?&?&?).
  repeat split; congruence.
Qed.

Lemma same_vidget_call c (s : ListboxVidget Item) :
  same_vidget s (widget_call c s).
Proof. repeat split. Qed.

(** One notification under handlers that keep the vidget. *)
Lemma notify_keeps (self_handlers : Eventor.handlers_dict) ev arg s x :
  keep_vidget_and run obs ->
  ∃ x' t, handler_notify run self_handlers ev arg (s, x) = (Ret tt, (s, x'), t)
          ∧ obs x' = obs x.
Proof.
  intros Hkeep. unfold handler_notify.
  rewrite EventorFacts.handler_notify_in_order.
  destruct (EventorFacts.call_in_order_keeps run (fun w => (w.1, obs w.2))
              (Some ev)
              (Eventor.notify_arg (Some ev) arg None false)
              (Eventor.handlers_for self_handlers (Some ev)
               ++ Eventor.handlers_for self_handlers None) (s, x))
    as ([s' x'] & Hres & Hobs & _).
  { intros h a [s0 x0]. destruct (Hkeep h a s0 x0) as (x1 & -> & Ho).
    exists (s0, x1). simpl. now rewrite Ho. }
  simpl in Hobs. inversion Hobs; subst s'.
  destruct (Eventor.call_in_order _ _ _ _ _) as [[o w'] t]. simpl in *.
  inversion Hres; subst. eauto.
Qed.

(** The loop of [_listbox_widget_update] only calls the Tk widget. *)
Lemma widget_insert_item_ok (e : Z * Item) (s : ListboxVidget Item) (x : X) :
  ∃ s',
    widget_insert_item (Handler:=Handler) e (s, x) = (Ret tt, (s', x), [])
    ∧ same_vidget s s'.
Proof.
  destruct e as [index item]. eexists. split; [reflexivity|]. repeat split.
Qed.

Lemma widget_update_loop (l : list (Z * Item)) (s : ListboxVidget Item) (x : X) :
  ∃ s',
    for_each l (widget_insert_item (Handler:=Handler)) (s, x)
    = (Ret tt, (s', x), [])
    ∧ same_vidget s s'.
Proof.
  revert s. induction l as [|e l IH]; intros s.
  - exists s. split; [reflexivity | apply same_vidget_refl].
  - cbn [for_each]. unfold bind.
    destruct (widget_insert_item_ok e s x) as (s1 & -> & Hs1).
    destruct (IH s1) as (s' & -> & Hs').
    exists s'. split; [reflexivity|].
    eapply same_vidget_trans; eassumption.
Qed.

Lemma widget_update_ok keep_active (s : ListboxVidget Item) (x : X) :
  ∃ s',
    _listbox_widget_update (Handler:=Handler) keep_active (s, x)
    = (Ret tt, (s', x), [])
    ∧ _items s' = _items s
    ∧ _indexcur s' = (if keep_active then _indexcur s else -1)
    ∧ _is_changing s' = _is_changing s
    ∧ _is_resetting s' = _is_resetting s
    ∧ state (_listbox s') = state (_listbox s).
Proof.
  unfold _listbox_widget_update.
  unfold bind at 1. cbn [tk assign modify fst snd].
  unfold bind at 1. cbn [self gets fst snd].
  unfold bind at 1.
  match goal with
  | |- context [for_each ?l _ (?s1, x)] =>
      destruct (widget_update_loop l s1 x) as (s' & -> & (Hi&Hc&Hg&Hr&Hst))
  end.
  destruct keep_active; cbn in *.
  - destruct (_indexcur s' =? -1) eqn:E; cbn;
      eexists; (split; [reflexivity|]); cbn; repeat split; congruence.
  - eexists; (split; [reflexivity|]); cbn; repeat split; congruence.
Qed.

(** Running the next notification of a method under handlers that keep
    the vidget. *)
Ltac run_notify Hkeep :=
  match goal with
  | |- context [handler_notify ?r ?hd ?ev ?a (?s, ?x)] =>
      let x' := fresh "x" in
      let t := fresh "t" in
      let E := fresh "E" in
      let Ho := fresh "Hobs" in
      destruct (notify_keeps hd ev a s x Hkeep) as (x' & t & E & Ho);
      rewrite E; clear E
  end.

Ltac run_update :=
  match goal with
  | |- context [_listbox_widget_update ?ka (?s, ?x)] =>
      let s' := fresh "s" in
      let E := fresh "E" in
      let Hi := fresh "Hitems" in
      let Hc := fresh "Hcur" in
      let Hg := fresh "Hchg" in
      let Hr := fresh "Hres" in
      let Hst := fresh "Hstate" in
      destruct (widget_update_ok ka s x) as (s' & E & Hi & Hc & Hg & Hr & Hst);
      rewrite E; clear E
  end.

(** [indexcur_set] on an enabled vidget that is not changing. *)
Lemma indexcur_set_ok (self_handlers : Eventor.handlers_dict) index focus
    notify arg (s : ListboxVidget Item) (x : X) :
  keep_vidget_and run obs ->
  index_is_valid_or_void s index = true ->
  is_enabled s = true ->
  _is_changing s = false ->
  ∃ s' x' t,
    indexcur_set run self_handlers index focus notify arg (s, x)
    = (Ret tt, (s', x'), t)
    ∧ _items s' = _items s
    ∧ _indexcur s' = index
    ∧ _is_changing s' = false
    ∧ _is_resetting s' = false
    ∧ state (_listbox s') = state (_listbox s)
    ∧ obs x' = obs x.
Proof.
  intros Hkeep Hvalid Hen Hch. unfold indexcur_set.
  unfold bind at 1. cbn [self gets fst snd].
  rewrite Hvalid, Hen, Hch. cbn [negb].
  destruct notify; unfold when.
  - unfold bind. cbn [assign modify fst snd].
    run_notify Hkeep.
    cbn [self gets fst snd assign modify tk].
    destruct (index_is_valid _ _); destruct (index =? -1); destruct focus;
      cbn -[handler_notify]; run_notify Hkeep; cbn;
      eexists _, _, _; (split; [reflexivity|]); repeat split; congruence.
  - unfold bind. cbn [assign modify fst snd self gets tk ret].
    destruct (index_is_valid _ _); destruct (index =? -1); destruct focus;
      cbn; eexists _, _, _; (split; [reflexivity|]); repeat split.
Qed.

Ltac run_indexcur_set Hkeep Hvalid Hen Hch :=
  match goal with
  | |- context [indexcur_set ?r ?hd ?i ?f ?n ?a (?s, ?x)] =>
      let s' := fresh "s" in
      let x' := fresh "x" in
      let t := fresh "t" in
      let E := fresh "E" in
      let Hi := fresh "Hitems" in
      let Hc := fresh "Hcur" in
      let Hg := fresh "Hchg" in
      let Hr := fresh "Hres" in
      let Hst := fresh "Hstate" in
      let Ho := fresh "Hobs" in
      destruct (indexcur_set_ok hd i f n a s x Hkeep Hvalid Hen Hch)
        as (s' & x' & t & E & Hi & Hc & Hg & Hr & Hst & Ho);
      rewrite E; clear E
  end.


Lemma items_set_changing (self_handlers : Eventor.handlers_dict) l notify
    keep_active (s : ListboxVidget Item) (x : X) :
  is_enabled s = true ->
  _is_changing s = true ->
  items_set run self_handlers l notify keep_active (s, x)
  = (Raise CircularCallError, (s, x), []).
Proof.
  intros Hen Hch. unfold items_set, bind. cbn [self gets fst snd].
  now rewrite Hen, Hch.
Qed.



Lemma indexcur_set_changing (self_handlers : Eventor.handlers_dict) index focus
    notify arg (s : ListboxVidget Item) (x : X) :
  index_is_valid_or_void s index = true ->
  is_enabled s = true ->
  _is_changing s = true ->
  indexcur_set run self_handlers index focus notify arg (s, x)
  = (Raise CircularCallError, (s, x), []).
Proof.
  intros Hv Hen Hch. unfold indexcur_set, bind. cbn [self gets fst snd].
  now rewrite Hv, Hen, Hch.
Qed.

(** [items_set] on an enabled vidget that is not changing. *)
Lemma items_set_ok (self_handlers : Eventor.handlers_dict) l notify
    keep_active (s : ListboxVidget Item) (x : X) :
  keep_vidget_and run obs ->
  is_enabled s = true ->
  _is_changing s = false ->
  ∃ s' x' t,
    items_set run self_handlers l notify keep_active (s, x)
    = (Ret tt, (s', x'), t)
    ∧ _items s' = l
    ∧ _indexcur s' = (if keep_active then _indexcur s else -1)
    ∧ _is_changing s' = false
    ∧ state (_listbox s') = state (_listbox s)
    ∧ obs x' = obs x.
Proof.
  intros Hkeep Hen Hch. unfold items_set.
  unfold bind at 1. cbn [self gets fst snd].
  rewrite Hen, Hch. cbn [negb].
  destruct notify; unfold when, bind; cbn [assign modify fst snd ret].
  - run_notify Hkeep. cbn [assign modify fst snd ret].
    run_update. run_notify Hkeep. cbn.
    eexists _, _, _. (split; [reflexivity|]). cbn in *.
    repeat split; auto; congruence.
  - run_update. cbn.
    eexists _, _, _. (split; [reflexivity|]). cbn in *. repeat split; auto.
Qed.

(** The active index that [indexcur()] gives is the cached one if it is
    valid, and -1 otherwise. *)
Lemma indexcur_default_eq (s : ListboxVidget Item) :
  indexcur_default curselection s
  = if index_is_valid s (_indexcur s) then _indexcur s else -1.
Proof.
  unfold indexcur_default, indexcur, _indexcurs.
  now destruct (index_is_valid s (_indexcur s)).
Qed.

Lemma indexcur_default_range (s : ListboxVidget Item) :
  indexcur_default curselection s = -1
  ∨ 0 <= indexcur_default curselection s < size s.
Proof.
  rewrite indexcur_default_eq. unfold index_is_valid.
  destruct (0 <=? _indexcur s) eqn:E1; destruct (_indexcur s <? size s) eqn:E2;
    simpl; auto. right. lia.
Qed.



(** The active index after a removal, clamped to the last index, is valid
    in the shorter list. *)
Lemma clamped_index_valid (s : ListboxVidget Item) (l : list Item) :
  PyList.len l = size s - 1 ->
  let a := indexcur_default curselection s in
  index_is_valid_or_void (set_items l s)
    (if negb (a =? -1)
     then if index_last (set_items l s) <? a
          then index_last (set_items l s) else a
     else a) = true.
Proof.
  intros Hlen a. unfold index_is_valid_or_void, index_is_valid, index_last, size.
  cbn [_items set_items]. rewrite Hlen.
  destruct (indexcur_default_range s) as [Ha|Ha]; fold a in Ha.
  - rewrite Ha. reflexivity.
  - destruct (a =? -1) eqn:E1; [lia|]. cbn [negb].
    destruct (size s - 1 - 1 <? a) eqn:E2.
    + destruct (size s - 1 - 1 =? -1) eqn:E3; [reflexivity|].
      apply andb_true_iff. lia.
    + apply orb_true_iff. right. apply andb_true_iff. lia.
Qed.

(** [item_remove] of a valid index on an enabled vidget that is not
    changing: the item is deleted, and the active index is clamped to the
    new last index. *)
Lemma item_remove_ok (self_handlers : Eventor.handlers_dict) index
    notify keep_active (s : ListboxVidget Item) (x : X) :
  keep_vidget_and run obs ->
  is_enabled s = true ->
  _is_changing s = false ->
  0 <= index < size s ->
  let a := indexcur_default curselection s in
  let l := take (Z.to_nat index) (_items s)
           ++ drop (S (Z.to_nat index)) (_items s) in
  ∃ s' x' t,
    item_remove curselection run self_handlers index notify keep_active (s, x)
    = (Ret tt, (s', x'), t)
    ∧ _items s' = l
    ∧ _indexcur s'
      = (if keep_active
         then if negb (a =? -1)
              then if size s - 2 <? a then size s - 2 else a
              else a
         else -1)
    ∧ _is_changing s' = false
    ∧ state (_listbox s') = state (_listbox s).
Proof.
  intros Hkeep Hen Hch Hi a l.
  assert (Hdel : PyList.del (_items s) index = Ret l)
    by now apply PyListFacts.del_in_range.
  assert (Hlen : PyList.len l = size s - 1)
    by now apply (PyListFacts.len_del (_items s) l index).
  pose proof (clamped_index_valid s l Hlen) as Hv. cbv zeta in Hv. fold a in Hv.
  assert (Hlast : index_last (set_items l s) = size s - 2).
  { unfold index_last, size in *. cbn [_items set_items]. lia. }
  assert (Hvalid : index_is_valid s index = true).
  { unfold index_is_valid. apply andb_true_iff. lia. }
  unfold item_remove.
  unfold bind at 1. cbn [self gets fst snd]. rewrite Hvalid. cbn [negb].
  destruct notify; unfold when, bind; cbn [assign modify self gets fst snd ret].
  - run_notify Hkeep. run_notify Hkeep.
    cbn [assign modify self gets fst snd ret]. rewrite Hdel.
    cbn [assign modify self gets fst snd ret].
    run_indexcur_set Hkeep Hv Hen Hch.
    run_update. run_notify Hkeep. run_notify Hkeep. cbn.
    eexists _, _, _. (split; [reflexivity|]). cbn in *.
    repeat split; try congruence.
    rewrite Hcur0. destruct keep_active; [|reflexivity].
    rewrite Hcur. fold a. now rewrite Hlast.
  - rewrite Hdel. cbn [assign modify self gets fst snd ret].
    run_indexcur_set Hkeep Hv Hen Hch.
    run_update. cbn.
    eexists _, _, _. (split; [reflexivity|]). cbn in *.
    repeat split; try congruence.
    rewrite Hcur0. destruct keep_active; [|reflexivity].
    rewrite Hcur. fold a. now rewrite Hlast.
Qed.



(** When the cached index is valid or void, it is what [indexcur()]
    gives. *)
Lemma indexcur_default_cached (s : ListboxVidget Item) (c : Z) :
  _indexcur s = c ->
  index_is_valid_or_void s c = true ->
  indexcur_default curselection s = c.
Proof.
  intros <- Hv. rewrite indexcur_default_eq.
  unfold index_is_valid_or_void in Hv.
  destruct (index_is_valid s (_indexcur s)); [reflexivity|].
  rewrite orb_false_r in Hv. lia.
Qed.

End Facts.


Import Samples.


Lemma run_idle_keeps_vidget {Item X : Type} :
  keep_vidget (Item:=Item) (X:=X) (run_idle (W:=ListboxVidget Item * X)).
Proof. intros h a s x. exists x. reflexivity. Qed.






(** What the model gives for [item_insert(item)] on a list that is not
    empty and has no active index: [list.insert(-1, item)] puts the item
    before the last one. *)
Remark item_insert_without_active_index :
  let s := listbox_of [10; 20] (-1) "normal" false in
  _items (fst (world (item_insert no_curselection run_idle no_handlers 99 None
                        true true (s, tt))))
  = [10; 99; 20].
Proof. reflexivity. Qed.




(** A change in progress is what a handler meets: a handler of
    [ITEMS_CHANGE_SOON] that calls [items_set] on the listbox notifying it
    is refused, the error passes through the outer call, and the items are
    those from before the outer call. *)
Remark items_set_from_handler_is_refused :
  let s := listbox_of [10; 20] 0 "normal" false in
  let r := items_set run_reenter soon_handlers [1; 2; 3] true false (s, tt) in
  result r = Raise CircularCallError ∧ _items (fst (world r)) = [10; 20].
Proof. vm_compute. split; reflexivity. Qed.

(** What the model gives for [item_insert] on a disabled vidget: the item
    is in the items list when the error is raised. *)
Remark item_insert_on_disabled_vidget :
  let off := listbox_of [10; 20] 0 "disabled" false in
  let r := item_insert no_curselection run_idle no_handlers 99 (Some 0) true
             true (off, tt) in
  result r = Raise DisabledError ∧ _items (fst (world r)) = [99; 10; 20].
Proof. vm_compute. split; reflexivity. Qed.

End ListboxFacts.

(** ** tkinterutil/text.py *)

Module EntryFacts.
Import Entry.

Section Facts.
Context {X Handler : Type} `{EqDecision Handler}.
Variable run : Handler -> option Eventor.payload -> EntryVidget * X
               -> outcome unit * (EntryVidget * X).

(** The validator is asked before anything else: a rejected text raises
    with nothing changed and no handler called. *)
Lemma text_set_rejected (self_handlers : Eventor.handlers_dict) text notify
    notify_arg is_validator (s : EntryVidget) (x : X) :
  text_is_valid s text = Ret false ->
  text_set run self_handlers text notify notify_arg is_validator (s, x)
  = (Raise ValueError, (s, x), []).
Proof.
  intros Hv. unfold text_set, bind. cbn [self gets fst snd]. now rewrite Hv.
Qed.

Lemma rejects_all_invalid (s : EntryVidget) text :
  rejects_all s -> text_is_valid s text = Ret false.
Proof.
  intros (validator & Hval & Hrej). unfold text_is_valid.
  now rewrite Hval, Hrej.
Qed.

Lemma text_set_attempts_rejected (self_handlers : Eventor.handlers_dict)
    attempts (s : EntryVidget) (x : X) :
  rejects_all s ->
  text_set_attempts run self_handlers attempts (s, x) = (s, x).
Proof.
  intros Hrej. induction attempts as [|[[[text notify] notify_arg] v] rest IH].
  - reflexivity.
  - cbn [text_set_attempts].
    rewrite text_set_rejected by now apply rejects_all_invalid.
    exact IH.
Qed.

End Facts.

(** C6. With a validator that rejects every value, every [text_set] call
    raises [ValueError] before anything is changed or any handler is
    called, so [text()] is the same after any number of attempted calls
    with any texts; the validator wrapper that Tk calls at a key stroke
    answers [False] and changes nothing, and the handler of a combobox
    selection puts the old text back. *)
Theorem rejecting_validator_keeps_text :
  ∀ (X Handler : Type) (Heq : EqDecision Handler)
    (run : Handler -> option Eventor.payload -> EntryVidget * X
           -> outcome unit * (EntryVidget * X))
    (self_handlers : Eventor.handlers_dict)
    (attempts : list (string * bool * pyval * bool))
    (s : EntryVidget) (x : X),
    rejects_all s ->
    (∀ text notify notify_arg is_validator,
        text_is_valid s text = Ret false
        ∧ text_set run self_handlers text notify notify_arg is_validator
            (s, x)
          = (Raise ValueError, (s, x), []))
    ∧ text_set_attempts run self_handlers attempts (s, x) = (s, x)
    ∧ text (fst (text_set_attempts run self_handlers attempts (s, x)))
      = text s
    ∧ (∀ new_value,
          _is_changing s = false ->
          validator_wrapper run self_handlers new_value (s, x)
          = (Ret false, (s, x), []))
    ∧ text (fst (world (_on_combobox_selected run self_handlers (s, x))))
      = text s.
Proof.
  intros X Handler Heq run self_handlers attempts s x Hrej.
  split; [|split; [|split; [|split]]].
  - intros. split; [now apply rejects_all_invalid|].
    apply text_set_rejected. now apply rejects_all_invalid.
  - now apply text_set_attempts_rejected.
  - now rewrite text_set_attempts_rejected.
  - intros new_value Hch. destruct Hrej as (validator & Hval & Hrej).
    unfold validator_wrapper, bind. cbn [self gets fst snd].
    rewrite Hch, Hval, Hrej. reflexivity.
  - unfold _on_combobox_selected, bind. cbn [self gets fst snd].
    rewrite (rejects_all_invalid s _ Hrej). reflexivity.
Qed.

Import Samples.

Lemma rejecting_validator_keeps_text_witness :
  rejects_all stubborn_entry
  ∧ text (fst (text_set_attempts (Handler:=nat) run_idle ∅
                 [("a"%string, true, PNone, false);
                  ("b"%string, false, PNone, false);
                  ("c"%string, true, PNone, true)]
                 (stubborn_entry, tt)))
    = "old"%string.
Proof.
  assert (Hrej : rejects_all stubborn_entry).
  { exists (fun _ => Ret false). split; [reflexivity|]. intros; reflexivity. }
  split; [exact Hrej|].
  apply (rejecting_validator_keeps_text unit nat _ run_idle ∅
           [("a"%string, true, PNone, false);
            ("b"%string, false, PNone, false);
            ("c"%string, true, PNone, true)]
           stubborn_entry tt Hrej).
Defined.

End EntryFacts.

(** ** tkinterutil/menu.py *)

Module MenuTreeFacts.
Import MenuTree.

(** C7. With the separator ["/"], the full id of a relative id below the
    root ["/"] is the root id followed by the relative id, with no
    separator between them, and below any other parent it is the parent
    id, the separator and the relative id. On a fresh tree with root id
    ["/"] and separator ["/"]: [add_menu('/', 'A')] followed by [add_command('/A', 'B', ...)]
    registers the command under ["/A/B"], with no double separator;
    [remove_item('/A')], given room for its one nested call, also removes
    ["/A/B"]; and [add_menu('/', 'C')] then comes at index 0, the next
    free index below the root, with the bookkeeping and the Tk menu in
    agreement. With a sibling before ["/A"] and one after it, the sibling
    after it moves down by one on the removal, the one before it stays,
    and ["/C"] comes after both. *)
Theorem menu_tree_scenario :
  ∀ (callback depth : nat),
    (∀ id, _id_to_full_default id "/" "/" = ("/" +:+ id)%string)
    ∧ (∀ id pid, pid ≠ "/"%string ->
         _id_to_full_default id pid "/" = (pid +:+ "/" +:+ id)%string)
    ∧
    let r1 := (add_menu (T:=unit) "/" "A" false None None None ;;
               add_command "/A" "B" callback false None None None) init in
    let r2 := remove_item (T:=unit) (S (S depth)) "/A" (world r1) in
    let r3 := add_menu (T:=unit) "/" "C" false None None None (world r2) in
    (result r1 = Ret tt
     ∧ od_keys (_id_to_info (world r1)) = ["/"; "/A"; "/A/B"]%string
     ∧ entry_of (world r1) "/A/B"
       = Some (Some "/A"%string, Some 0, Name "command")
     ∧ tk_menus (world r1) = [ [cascade 1 "A"]; [command "B" callback] ])
    ∧ (result r2 = Ret tt
       ∧ od_keys (_id_to_info (world r2)) = ["/"]%string
       ∧ tk_menus (world r2) = [ []; [] ])
    ∧ (result r3 = Ret tt
       ∧ od_keys (_id_to_info (world r3)) = ["/"; "/C"]%string
       ∧ entry_of (world r3) "/C" = Some (Some "/"%string, Some 0, Menu 2)
       ∧ top_consistent (world r3))
    ∧ let q1 := (add_menu (T:=unit) "/" "X" false None None None ;;
                 add_menu "/" "A" false None None None ;;
                 add_command "/A" "B" callback false None None None ;;
                 add_menu "/" "D" false None None None) init in
      let q2 := remove_item (T:=unit) (S (S depth)) "/A" (world q1) in
      let q3 := add_menu (T:=unit) "/" "C" false None None None (world q2) in
      result q1 = Ret tt
      ∧ entry_of (world q1) "/X" = Some (Some "/"%string, Some 0, Menu 1)
      ∧ entry_of (world q1) "/A" = Some (Some "/"%string, Some 1, Menu 2)
      ∧ entry_of (world q1) "/D" = Some (Some "/"%string, Some 2, Menu 3)
      ∧ result q2 = Ret tt
      ∧ od_keys (_id_to_info (world q2)) = ["/"; "/X"; "/D"]%string
      ∧ entry_of (world q2) "/X" = Some (Some "/"%string, Some 0, Menu 1)
      ∧ entry_of (world q2) "/D" = Some (Some "/"%string, Some 1, Menu 3)
      ∧ result q3 = Ret tt
      ∧ entry_of (world q3) "/C" = Some (Some "/"%string, Some 2, Menu 4)
      ∧ top_consistent (world q3).
Proof.
  intros callback depth. split; [|split].
  - intros id. reflexivity.
  - intros id pid Hne. unfold _id_to_full_default, PyStr.eqb.
    now rewrite bool_decide_eq_false_2.
  - vm_compute. repeat split.
Qed.

Lemma menu_tree_scenario_witness :
  _id_to_full_default "B" "/A" "/" = "/A/B"%string.
Proof.
  apply (menu_tree_scenario 0 0). intros Heq. discriminate Heq.
Defined.

End MenuTreeFacts.

(** ** registry_editor.py *)

Module EditorFacts.
Import Listbox Editor.

Section Facts.
Context {X Handler : Type} `{EqDecision Handler}.
Variable curselection : Listbox_widget -> list Z.
Variable run : Handler -> option Eventor.payload
               -> ListboxVidget string * (Rest * X)
               -> outcome unit * (ListboxVidget string * (Rest * X)).
Variable sorted_by_lower : list string -> list string.
Variable showwarning : string -> string -> X -> X.
Variable status_bar_set : string -> X -> X.

Lemma result_eta {A W T : Type} (r r' : outcome A * W * list T) :
  r = r' -> (let (p, t) := r in let (o, w) := p in (o, w, t)) = r'.
Proof. intros <-. now destruct r as [[o w] t]. Qed.

Lemma keep_editor_vidget :
  keep_editor run -> keep_vidget_and run (fst : Rest * X -> Rest).
Proof.
  intros Hkeep h a s [r x]. destruct (Hkeep h a s r x) as [x' E].
  exists (r, x'). split; [exact E | reflexivity].
Qed.

(** [remember] writes the active index under the active path, unless the
    path is not the root and the index is 0. *)
Lemma remember_eq (lb : ListboxVidget string) (r : Rest) (x : X) :
  _child_keys_listbox_indexcur_remember (Handler:=Handler) curselection
    (lb, (r, x))
  = if negb (PyStr.eqb (nav_path r) Registry.ROOT)
       && (indexcur_default curselection lb =? 0)
    then (Ret tt, (lb, (r, x)), [])
    else (Ret tt,
          (lb, (set_memo (<[nav_path r := indexcur_default curselection lb]>
                            (_child_keys_listbox_indexcur_memo r)) r, x)),
          []).
Proof.
  unfold _child_keys_listbox_indexcur_remember, bind, get. cbn [fst snd].
  destruct (negb (PyStr.eqb (nav_path r) Registry.ROOT)
            && (indexcur_default curselection lb =? 0)); reflexivity.
Qed.

(** [recover] when the remembered index is past the last index: the entry
    is deleted and the listbox is not touched. *)
Lemma recover_stale (listbox_handlers : Eventor.handlers_dict)
    (lb : ListboxVidget string) (r : Rest) (x : X) (m : Z) :
  _child_keys_listbox_indexcur_memo r !! nav_path r = Some m ->
  m ≠ indexcur_default curselection lb ->
  index_last lb < m ->
  _child_keys_listbox_indexcur_recover curselection run listbox_handlers
    (lb, (r, x))
  = (Ret tt,
     (lb, (set_memo (delete (nav_path r)
                       (_child_keys_listbox_indexcur_memo r)) r, x)),
     []).
Proof.
  intros Hm Hne Hlast.
  unfold _child_keys_listbox_indexcur_recover, bind, get, memo.
  cbn [fst snd]. rewrite Hm.
  destruct (Z.eqb_spec m (indexcur_default curselection lb)); [contradiction|].
  destruct (Z.ltb_spec (index_last lb) m); [reflexivity | lia].
Qed.

(** [recover] when the remembered index is in the list: it is made the
    active index. *)
Lemma recover_restores (listbox_handlers : Eventor.handlers_dict)
    (lb : ListboxVidget string) (r : Rest) (x : X) (m : Z) :
  keep_editor run ->
  is_enabled lb = true ->
  _is_changing lb = false ->
  _child_keys_listbox_indexcur_memo r !! nav_path r = Some m ->
  -1 <= m <= index_last lb ->
  ∃ lb' x' t,
    _child_keys_listbox_indexcur_recover curselection run listbox_handlers
      (lb, (r, x))
    = (Ret tt, (lb', (r, x')), t)
    ∧ _items lb' = _items lb
    ∧ indexcur_default curselection lb' = m.
Proof.
  intros Hkeep Hen Hch Hm Hrange.
  unfold _child_keys_listbox_indexcur_recover, bind, get, memo.
  cbn [fst snd]. rewrite Hm.
  destruct (Z.eqb_spec m (indexcur_default curselection lb)) as [Heq|Hne].
  - exists lb, x, []. repeat split. now symmetry.
  - destruct (Z.ltb_spec (index_last lb) m); [lia|].
    assert (Hv : index_is_valid_or_void lb m = true).
    { unfold index_is_valid_or_void, index_is_valid, index_last in *.
      destruct (Z.eqb_spec m (-1)); [reflexivity|].
      apply andb_true_iff. lia. }
    destruct (ListboxFacts.indexcur_set_ok run fst listbox_handlers m false
                true PNone lb (r, x) (keep_editor_vidget Hkeep) Hv Hen Hch)
      as (lb' & [r' x'] & t & E & Hi & Hc & Hg & Hr & Hst & Ho).
    simpl in Ho. subst r'. rewrite E.
    exists lb', x', t. repeat split; [exact Hi|].
    apply ListboxFacts.indexcur_default_cached; [exact Hc|].
    unfold index_is_valid_or_void, index_is_valid, size in *.
    now rewrite Hi.
Qed.

End Facts.

(** C8. [remember] creates no memo entry when the active path is not the
    root and the active index is 0, the place of the ['..'] entry, and
    otherwise stores the active index under the active path. When the
    navigator comes back to a path with a remembered index [m] and the
    child keys listbox (enabled, not changing, with handlers that leave
    the listbox and the editor alone) is filled again, the active index
    is [m] again if [m] is not past the last index of the new list;
    if it is, there is no active index and the entry of the path is
    deleted from the memo. *)
Theorem selection_memo :
  ∀ (X Handler : Type) (Heq : EqDecision Handler)
    (curselection : Listbox_widget -> list Z)
    (run : Handler -> option Eventor.payload
           -> ListboxVidget string * (Rest * X)
           -> outcome unit * (ListboxVidget string * (Rest * X)))
    (sorted_by_lower : list string -> list string)
    (showwarning : string -> string -> X -> X)
    (status_bar_set : string -> X -> X)
    (listbox_handlers : Eventor.handlers_dict)
    (lb : ListboxVidget string) (r : Rest) (x : X)
    (child_names : option (list string)) (m : Z),
    (nav_path r ≠ Registry.ROOT ->
     indexcur_default curselection lb = 0 ->
     _child_keys_listbox_indexcur_remember (Handler:=Handler) curselection
       (lb, (r, x))
     = (Ret tt, (lb, (r, x)), []))
    ∧ (nav_path r = Registry.ROOT ∨ indexcur_default curselection lb ≠ 0 ->
       ∃ r',
         _child_keys_listbox_indexcur_remember (Handler:=Handler) curselection
           (lb, (r, x))
         = (Ret tt, (lb, (r', x)), [])
         ∧ nav_path r' = nav_path r
         ∧ _child_keys_listbox_indexcur_memo r'
           = <[nav_path r := indexcur_default curselection lb]>
               (_child_keys_listbox_indexcur_memo r))
    ∧ (keep_editor run ->
       is_enabled lb = true ->
       _is_changing lb = false ->
       _child_keys_listbox_indexcur_memo r !! nav_path r = Some m ->
       -1 <= m ->
       let names := sorted_by_lower (default [] child_names) in
       let items' := if negb (PyStr.eqb (nav_path r) Registry.ROOT)
                     then ".."%string :: names else names in
       ∃ lb' r' x' t,
         _child_keys_listbox_on_nav_path_change curselection run
           sorted_by_lower showwarning status_bar_set listbox_handlers
           child_names (lb, (r, x))
         = (Ret tt, (lb', (r', x')), t)
         ∧ _items lb' = items'
         ∧ nav_path r' = nav_path r
         ∧ (m <= PyList.len items' - 1 ->
            indexcur_default curselection lb' = m
            ∧ _child_keys_listbox_indexcur_memo r'
              = _child_keys_listbox_indexcur_memo r)
         ∧ (PyList.len items' - 1 < m ->
            indexcur_default curselection lb' = -1
            ∧ _child_keys_listbox_indexcur_memo r'
              = delete (nav_path r) (_child_keys_listbox_indexcur_memo r))).
Proof.
  intros X Handler Heq curselection run sorted_by_lower showwarning
    status_bar_set listbox_handlers lb r x child_names m.
  split; [|split].
  - intros Hpath Hcur. rewrite remember_eq, Hcur.
    unfold PyStr.eqb. rewrite bool_decide_eq_false_2 by exact Hpath.
    reflexivity.
  - intros Hcase. rewrite remember_eq.
    assert (Hc : negb (PyStr.eqb (nav_path r) Registry.ROOT)
                 && (indexcur_default curselection lb =? 0) = false).
    { destruct Hcase as [Hroot|Hne].
      - unfold PyStr.eqb. now rewrite bool_decide_eq_true_2.
      - apply andb_false_iff. right. lia. }
    rewrite Hc. eexists. repeat split.
  - intros Hkeep Hen Hch Hm Hlow names items'.
    set (x2 := status_bar_set ("Key: `" +:+ nav_path r +:+ "`")
                 (match child_names with
                  | None => showwarning "Error"
                              ("Cannot read child keys of key: `"
                               +:+ nav_path r +:+ "`") x
                  | Some _ => x
                  end)).
    assert (Hpre :
      _child_keys_listbox_on_nav_path_change curselection run sorted_by_lower
        showwarning status_bar_set listbox_handlers child_names (lb, (r, x))
      = bind (items_set run listbox_handlers items' true false)
          (fun _ => _child_keys_listbox_indexcur_recover curselection run
                      listbox_handlers)
          (lb, (r, x2))).
    { unfold _child_keys_listbox_on_nav_path_change.
      destruct child_names as [l|]; unfold bind at 1 2 3;
        cbn [get outside modify ret fst snd app];
        repeat (apply result_eta); reflexivity. }
    rewrite Hpre. unfold bind.
    destruct (ListboxFacts.items_set_ok run fst listbox_handlers items' true
                false lb (r, x2) (keep_editor_vidget run Hkeep) Hen Hch)
      as (lb1 & [r1 x3] & t1 & E1 & Hi1 & Hc1 & Hg1 & Hst1 & Ho1).
    simpl in Ho1. subst r1. rewrite E1.
    assert (Hen1 : is_enabled lb1 = true).
    { unfold is_enabled in *. now rewrite Hst1. }
    assert (Hcur1 : indexcur_default curselection lb1 = -1).
    { apply ListboxFacts.indexcur_default_cached; [exact Hc1 | reflexivity]. }
    assert (Hlast1 : index_last lb1 = PyList.len items' - 1).
    { unfold index_last, size. now rewrite Hi1. }
    assert (Hlen0 : 0 <= PyList.len items') by (unfold PyList.len; lia).
    destruct (Z.le_gt_cases m (PyList.len items' - 1)) as [Hin|Hout].
    + destruct (recover_restores curselection run listbox_handlers lb1 r x3 m
                  Hkeep Hen1 Hg1 Hm ltac:(lia))
        as (lb2 & x4 & t2 & E2 & Hi2 & Hc2).
      rewrite E2. exists lb2, r, x4, (t1 ++ t2).
      split; [reflexivity|]. split; [congruence|]. split; [reflexivity|].
      split; [auto | intros; lia].
    + rewrite (recover_stale curselection run listbox_handlers lb1 r x3 m Hm)
        by lia.
      eexists lb1, _, x3, _. split; [reflexivity|].
      split; [exact Hi1|]. split; [reflexivity|].
      split; [intros; lia | auto].
Qed.

Import Samples.

Lemma selection_memo_witness :
  let lb := names_listbox ["x"%string] 0 in
  (∃ lb' r' x' t,
      _child_keys_listbox_on_nav_path_change (Handler:=nat) no_curselection
        run_idle keep_order no_dialog no_status ∅
        (Some ["b"; "a"; "c"]%string) (lb, (at_hive, tt))
      = (Ret tt, (lb', (r', x')), t)
      ∧ indexcur_default no_curselection lb' = 2
      ∧ _child_keys_listbox_indexcur_memo r'
        = _child_keys_listbox_indexcur_memo at_hive)
  ∧ (∃ lb' r' x' t,
        _child_keys_listbox_on_nav_path_change (Handler:=nat) no_curselection
          run_idle keep_order no_dialog no_status ∅
          (Some []) (lb, (at_hive, tt))
        = (Ret tt, (lb', (r', x')), t)
        ∧ indexcur_default no_curselection lb' = -1
        ∧ _child_keys_listbox_indexcur_memo r' = ∅)
  ∧ _child_keys_listbox_indexcur_remember (Handler:=nat) no_curselection
      (lb, (at_hive, tt))
    = (Ret tt, (lb, (at_hive, tt)), []).
Proof.
  intros lb.
  assert (Hkeep : keep_editor (X:=unit) (run_idle (W:=ListboxVidget string * (Rest * unit)))).
  { intros h a s r x. exists x. reflexivity. }
  split; [|split].
  - destruct (selection_memo unit nat _ no_curselection run_idle keep_order
                no_dialog no_status ∅ lb at_hive tt
                (Some ["b"; "a"; "c"]%string) 2)
      as (_ & _ & H3).
    destruct (H3 Hkeep eq_refl eq_refl eq_refl ltac:(lia))
      as (lb' & r' & x' & t & E & _ & _ & Hin & _).
    exists lb', r', x', t. split; [exact E|].
    apply Hin. vm_compute. discriminate.
  - destruct (selection_memo unit nat _ no_curselection run_idle keep_order
                no_dialog no_status ∅ lb at_hive tt (Some []) 2)
      as (_ & _ & H3).
    destruct (H3 Hkeep eq_refl eq_refl eq_refl ltac:(lia))
      as (lb' & r' & x' & t & E & _ & _ & _ & Hout).
    exists lb', r', x', t. split; [exact E|].
    destruct Hout as [Hc Hmemo]; [vm_compute; reflexivity|].
    split; [exact Hc|]. rewrite Hmemo. vm_compute. reflexivity.
  - apply (selection_memo unit nat _ no_curselection run_idle keep_order
             no_dialog no_status ∅ lb at_hive tt None 2).
    + vm_compute. discriminate.
    + reflexivity.
Defined.

End EditorFacts.

(** ** eventor.py: registering, removing and failing handlers *)

Module EventorLaws.
Import Eventor.

Section Laws.
Context {W Handler : Type} `{EqDecision Handler}.
Variable run : Handler -> option payload -> W -> outcome unit * W.

Lemma existsb_wrapper_eq (hw : _EventHandlerWrapper Handler) l :
  existsb (wrapper_eq hw) l = true ↔ handler hw ∈ handler <$> l.
Proof.
  induction l as [|x l IH]; simpl.
  - split; [discriminate|]. intros Hin. inversion Hin.
  - rewrite orb_true_iff, IH. unfold wrapper_eq.
    rewrite bool_decide_eq_true, elem_of_cons. tauto.
Qed.

Lemma handlers_for_remove (self : handlers_dict) (h : Handler) ev :
  handlers_for (handler_remove self h) ev
  = filter (fun hw => handler hw ≠ h) (handlers_for self ev).
Proof.
  unfold handlers_for, handler_remove, handlers_dict in *.
  rewrite lookup_fmap. destruct (self !! ev); reflexivity.
Qed.

Lemma call_in_order_prefix ev a (hs : list (_EventHandlerWrapper Handler)) w :
  let r := call_in_order run ev a hs w in
  ∃ n, call_wrapper <$> trace r = take n hs
       ∧ (result r = Ret tt -> n = length hs)
       ∧ (∀ e, result r = Raise e ->
            ∃ c, last (trace r) = Some c
                 ∧ wrapper_call run (call_wrapper c) a (call_world c)
                   = (Raise e, world r)).
Proof.
  revert w. induction hs as [|hw hs IH]; intros w; simpl.
  - exists 0%nat. split; [reflexivity|]. split; [reflexivity|]. discriminate.
  - destruct (wrapper_call run hw a w) as [[[]|e] w1] eqn:Hc.
    + destruct (IH w1) as (n & Ht & Hret & Hraise).
      destruct (call_in_order run ev a hs w1) as [[o w2] t].
      unfold result, world, trace in *; simpl in *.
      exists (S n). split; [|split].
      * simpl. f_equal. exact Ht.
      * intros Ho. now rewrite Hret.
      * intros e He. destruct (Hraise e He) as (c & Hl & Hcall).
        exists c. split; [|exact Hcall].
        destruct t; [discriminate|]. exact Hl.
    + exists 1%nat. unfold result, world, trace; simpl.
      split; [reflexivity|]. split; [discriminate|].
      intros e' He'. inversion He'; subst.
      eexists. split; [reflexivity|]. simpl. exact Hc.
Qed.

Lemma handler_add_fresh (self : handlers_dict) ev (h : Handler) need_arg :
  h ∉ handler <$> handlers_for self ev ->
  ∃ self', handler_add self ev h need_arg = Ret self'.
Proof.
  intros Hfresh. unfold handler_add, handlers_for, handlers_dict in *.
  destruct (self !! ev) as [l|] eqn:E; simpl in *; [|eauto].
  destruct (existsb _ l) eqn:Ex; [|eauto].
  exfalso. apply Hfresh.
  now apply (existsb_wrapper_eq {| handler := h; _need_arg := need_arg |}).
Qed.

Lemma filter_all {A} (P : A -> Prop) `{∀ x, Decision (P x)} (l : list A) :
  Forall P l -> filter P l = l.
Proof.
  induction 1 as [|x l Hx Hl IH]; [reflexivity|].
  rewrite filter_cons_True by exact Hx. now rewrite IH.
Qed.

Lemma handler_add_remove (self self1 : handlers_dict) ev (h : Handler) need_arg :
  (∀ ev', h ∉ handler <$> handlers_for self ev') ->
  handler_add self ev h need_arg = Ret self1 ->
  ∀ ev', handlers_for (handler_remove self1 h) ev' = handlers_for self ev'.
Proof.
  intros Hfresh Hadd ev'.
  destruct (EventorFacts.handler_add_appends self self1 ev h need_arg Hadd)
    as (Hev & Hother).
  assert (Hall : ∀ e, Forall (fun hw => handler hw ≠ h) (handlers_for self e)).
  { intros e. apply Forall_forall. intros hw Hin Heq.
    apply (Hfresh e). rewrite <- Heq. now apply list_elem_of_fmap_2. }
  rewrite handlers_for_remove.
  destruct (decide (ev' = ev)) as [->|Hne].
  - rewrite Hev, filter_app, filter_all by apply Hall.
    rewrite filter_cons_False by (simpl; intros Hn; now apply Hn).
    rewrite filter_nil. apply app_nil_r.
  - rewrite Hother by exact Hne. apply filter_all, Hall.
Qed.

End Laws.

(** X1. [handler_add] raises [ValueError] exactly when the handler is
    already in the list of the event, whatever [need_arg] it was or is
    registered with; otherwise it returns, the handler is last in the list
    of the event, the lists of the other events are as before, and a dict
    whose lists hold each handler once stays such. *)
Theorem handler_add_refuses_registered_handler :
  ∀ (Handler : Type) (Heq : EqDecision Handler)
    (self : handlers_dict) (event : option string) (h : Handler)
    (need_arg : bool),
    (handler_add self event h need_arg = Raise ValueError
     ↔ h ∈ handler <$> handlers_for self event)
    ∧ (h ∉ handler <$> handlers_for self event ->
       ∃ self',
         handler_add self event h need_arg = Ret self'
         ∧ handlers_for self' event
           = handlers_for self event
             ++ [ {| handler := h; _need_arg := need_arg |} ]
         ∧ (∀ ev', ev' ≠ event -> handlers_for self' ev' = handlers_for self ev')
         ∧ ((∀ ev', NoDup (handler <$> handlers_for self ev')) ->
            ∀ ev', NoDup (handler <$> handlers_for self' ev'))).
Proof.
  intros Handler Heq self event h need_arg.
  assert (Hex : ∀ l, existsb (wrapper_eq {| handler := h; _need_arg := need_arg |}) l
                     = true ↔ h ∈ handler <$> l).
  { intros l. apply (existsb_wrapper_eq {| handler := h; _need_arg := need_arg |}). }
  split.
  - unfold handler_add, handlers_for, handlers_dict in *.
    destruct (self !! event) as [l|] eqn:E; simpl.
    + destruct (existsb _ l) eqn:Ex.
      * split; [intros _; now apply Hex | reflexivity].
      * split; [discriminate|]. intros Hin. apply Hex in Hin. congruence.
    + split; [discriminate|]. intros Hin. inversion Hin.
  - intros Hfresh.
    destruct (handler_add_fresh self event h need_arg Hfresh) as (self' & Hadd).
    exists self'.
    destruct (EventorFacts.handler_add_appends self self' event h need_arg Hadd)
      as (Hev & Hother).
    split; [exact Hadd|]. split; [exact Hev|]. split; [exact Hother|].
    intros Hnodup ev'. destruct (decide (ev' = event)) as [->|Hne].
    + rewrite Hev, fmap_app. apply NoDup_app. split; [apply Hnodup|].
      split; [|apply NoDup_singleton].
      intros x Hx Hx'. apply list_elem_of_singleton in Hx'. simpl in Hx'.
      subst x. now apply Hfresh.
    + rewrite Hother by exact Hne. apply Hnodup.
Qed.

Lemma handler_add_refuses_registered_handler_witness :
  ∃ self',
    handler_add Samples.two_and_one (Some "F"%string) 1%nat true = Ret self'
    ∧ handlers_for self' (Some "F"%string)
      = [ {| handler := 1%nat; _need_arg := true |} ].
Proof.
  destruct (handler_add_refuses_registered_handler nat _ Samples.two_and_one
              (Some "F"%string) 1%nat true) as (_ & H).
  destruct H as (self' & Hadd & Hev & _).
  - vm_compute. intros Hin. inversion Hin.
  - exists self'. split; [exact Hadd|]. exact Hev.
Defined.

(** X2. After [handler_remove(h)] the handler is in no list, the other
    handlers keep their places, no notification calls [h], and [h] can be
    registered again. Registering a handler that was nowhere and removing
    it leaves every notification as it was before. *)
Theorem handler_remove_unregisters :
  ∀ (W Handler : Type) (Heq : EqDecision Handler)
    (run : Handler -> option payload -> W -> outcome unit * W)
    (self : handlers_dict) (h : Handler),
    (∀ ev, handlers_for (handler_remove self h) ev
           = filter (fun hw => handler hw ≠ h) (handlers_for self ev))
    ∧ (∀ ev arg notifier need_info w,
         Forall (fun c => handler (call_wrapper c) ≠ h)
           (trace (handler_notify run (handler_remove self h) ev arg notifier
                     need_info w)))
    ∧ (∀ ev need_arg,
         ∃ self', handler_add (handler_remove self h) ev h need_arg = Ret self')
    ∧ (∀ ev need_arg self1,
         (∀ ev', h ∉ handler <$> handlers_for self ev') ->
         handler_add self ev h need_arg = Ret self1 ->
         ∀ ev' arg notifier need_info w,
           handler_notify run (handler_remove self1 h) ev' arg notifier
             need_info w
           = handler_notify run self ev' arg notifier need_info w).
Proof.
  intros W Handler Heq run self h.
  assert (Hno : ∀ ev, h ∉ handler <$> handlers_for (handler_remove self h) ev).
  { intros ev Hin. rewrite handlers_for_remove in Hin.
    apply list_elem_of_fmap in Hin. destruct Hin as (hw & -> & Hin).
    apply list_elem_of_filter in Hin. destruct Hin as (Hne & _). now apply Hne. }
  split; [apply handlers_for_remove|]. split; [|split].
  - intros ev arg notifier need_info w.
    rewrite EventorFacts.handler_notify_in_order.
    set (hs := handlers_for (handler_remove self h) ev
               ++ handlers_for (handler_remove self h) None).
    destruct (call_in_order_prefix run ev (notify_arg ev arg notifier need_info)
                hs w) as (n & Ht & _).
    apply Forall_forall. intros c Hc Heqh.
    assert (Hin : call_wrapper c ∈ hs).
    { apply (subseteq_take n). rewrite <- Ht. now apply list_elem_of_fmap_2. }
    subst hs. apply elem_of_app in Hin.
    destruct Hin as [Hin|Hin]; [apply (Hno ev)|apply (Hno None)];
      pose proof (list_elem_of_fmap_2 handler _ _ Hin) as Hin';
      rewrite Heqh in Hin'; exact Hin'.
  - intros ev need_arg.
    apply handler_add_fresh, Hno.
  - intros ev need_arg self1 Hfresh Hadd ev' arg notifier need_info w.
    rewrite !EventorFacts.handler_notify_in_order.
    now rewrite !(handler_add_remove self self1 ev h need_arg Hfresh Hadd).
Qed.

Lemma handler_remove_unregisters_witness :
  let self1 : handlers_dict (Handler:=nat) :=
    <[Some "E"%string := [Samples.wrap 1; Samples.wrap 2; Samples.wrap 7]]>
      Samples.two_and_one in
  handler_add Samples.two_and_one (Some "E"%string) 7%nat false = Ret self1
  ∧ handler_notify Samples.run_log (handler_remove self1 7%nat)
      (Some "E"%string) PNone None false []
    = handler_notify Samples.run_log Samples.two_and_one
        (Some "E"%string) PNone None false [].
Proof.
  intros self1.
  assert (Hadd : handler_add Samples.two_and_one (Some "E"%string) 7%nat false
                 = Ret self1) by (vm_compute; reflexivity).
  split; [exact Hadd|].
  destruct (handler_remove_unregisters (list nat) nat _ Samples.run_log
              Samples.two_and_one 7%nat) as (_ & _ & _ & H).
  apply (H (Some "E"%string) false self1); [|exact Hadd].
  intros ev'. unfold handlers_for, Samples.two_and_one, handlers_dict.
  destruct (decide (ev' = Some "E"%string)) as [->|Hne].
  { rewrite lookup_insert_eq. vm_compute. intros Hin.
    repeat (apply elem_of_cons in Hin; destruct Hin as [Hin|Hin];
            [discriminate|]).
    inversion Hin. }
  rewrite lookup_insert_ne by congruence.
  destruct (decide (ev' = None)) as [->|Hne'].
  { rewrite lookup_insert_eq. vm_compute. intros Hin.
    repeat (apply elem_of_cons in Hin; destruct Hin as [Hin|Hin];
            [discriminate|]).
    inversion Hin. }
  rewrite lookup_insert_ne by congruence. rewrite lookup_empty.
  simpl. intros Hin. inversion Hin.
Defined.



End EventorLaws.

(** ** registry.py: key paths and the existence test *)

Module PyStrFacts.
Import PyStr.

Lemma substring_all (s : string) : String.substring 0 (String.length s) s = s.
Proof. induction s as [|c s IH]; simpl; [reflexivity|]. now rewrite IH. Qed.

Lemma prefix_one (c c' : Ascii.ascii) (s : string) :
  String.prefix (String c EmptyString) (String c' s) = bool_decide (c = c').
Proof.
  simpl. destruct (Ascii.ascii_dec c c') as [->|Hne].
  - rewrite bool_decide_eq_true_2 by reflexivity. now destruct s.
  - now rewrite bool_decide_eq_false_2.
Qed.

(** A string without the separator has no last occurrence of it. *)
Lemma rfind_absent (c : Ascii.ascii) (s : string) :
  c ∉ String.list_ascii_of_string s -> rfind (String c EmptyString) s = None.
Proof.
  induction s as [|c' s IH]; intros Hc; [reflexivity|].
  cbn [rfind]. simpl in Hc. apply not_elem_of_cons in Hc. destruct Hc as (Hne & Hc).
  rewrite (IH Hc), prefix_one. now rewrite bool_decide_eq_false_2.
Qed.

(** The last occurrence of the separator in [p ++ sep ++ a], where [a] has
    none, is the one between [p] and [a]. *)
Lemma rfind_last (c : Ascii.ascii) (p a : string) :
  c ∉ String.list_ascii_of_string a ->
  rfind (String c EmptyString) (p +:+ String c a) = Some (p, a).
Proof.
  intros Hc. induction p as [|c' p IH].
  - change (EmptyString +:+ String c a)%string with (String c a).
    cbn [rfind]. rewrite (rfind_absent c a Hc), prefix_one.
    rewrite bool_decide_eq_true_2 by reflexivity.
    cbn [String.length]. rewrite Nat.sub_succ, Nat.sub_0_r.
    cbn [String.substring]. now rewrite substring_all.
  - change (String c' p +:+ String c a)%string with (String c' (p +:+ String c a)).
    cbn [rfind]. now rewrite IH.
Qed.

(** What [rfind] finds is a split of the string at the separator. *)
Lemma prefix_split (sep s : string) :
  String.prefix sep s = true ->
  s = (sep +:+ String.substring (String.length sep)
                 (String.length s - String.length sep) s)%string.
Proof.
  revert s. induction sep as [|c sep IH]; intros s Hp.
  - cbn [String.length]. rewrite Nat.sub_0_r. now rewrite substring_all.
  - destruct s as [|c' s]; [discriminate|]. simpl in Hp.
    destruct (Ascii.ascii_dec c c') as [->|]; [|discriminate].
    cbn [String.length]. rewrite Nat.sub_succ. cbn [String.substring].
    change (String c' sep +:+ ?x)%string with (String c' (sep +:+ x)).
    f_equal. now apply IH.
Qed.

Lemma rfind_Some (sep s b a : string) :
  rfind sep s = Some (b, a) -> s = (b +:+ sep +:+ a)%string.
Proof.
  revert b a. induction s as [|c s IH]; intros b a Hf.
  - cbn [rfind] in Hf. destruct (String.prefix sep EmptyString) eqn:Hp;
      [|discriminate].
    inversion Hf; subst. destruct sep; [reflexivity|discriminate].
  - cbn [rfind] in Hf. destruct (rfind sep s) as [[b' a']|].
    + inversion Hf; subst. rewrite (IH b' a) at 1 by reflexivity. reflexivity.
    + destruct (String.prefix sep (String c s)) eqn:Hp; [|discriminate].
      inversion Hf; subst. now apply prefix_split.
Qed.

Lemma length_append (a b : string) :
  String.length (a +:+ b) = (String.length a + String.length b)%nat.
Proof. induction a as [|c a IH]; simpl; [reflexivity|]. now rewrite IH. Qed.

Lemma list_ascii_append (a b : string) :
  String.list_ascii_of_string (a +:+ b)
  = String.list_ascii_of_string a ++ String.list_ascii_of_string b.
Proof. induction a as [|c a IH]; simpl; [reflexivity|]. now rewrite IH. Qed.

End PyStrFacts.

Module RegistryPaths.
Import Strings.Ascii.
Import Registry.

Local Abbreviation backslash := ("\"%char) (only parsing).

Section Paths.
Context {X PyHKEY : Type}.
Variable api : Win32 X PyHKEY.

(** No hive name holds a backslash. *)
Lemma HKEYS_no_backslash (path : string) :
  path ∈ HKEYS api -> backslash ∉ String.list_ascii_of_string path.
Proof.
  unfold HKEYS, _HIVE_NAME_TO_INT. cbn [fmap list_fmap fst].
  intros Hin.
  repeat (apply elem_of_cons in Hin; destruct Hin as [->|Hin];
          [vm_compute; intros Hc;
           repeat (apply elem_of_cons in Hc; destruct Hc as [Hc|Hc];
                   [discriminate|]);
           inversion Hc|]).
  inversion Hin.
Qed.

Lemma eqb_false (a b : string) : a ≠ b -> PyStr.eqb a b = false.
Proof. intros Hne. unfold PyStr.eqb. now apply bool_decide_eq_false. Qed.

Lemma eqb_true (a b : string) : PyStr.eqb a b = true -> a = b.
Proof. unfold PyStr.eqb. apply bool_decide_eq_true. Qed.

(** The parent of [p\name] is [p]. *)
Lemma parent_of_joined (p name : string) :
  backslash ∉ String.list_ascii_of_string name ->
  regkey_parent_path api (p +:+ "\" +:+ name) = p.
Proof.
  intros Hname. unfold regkey_parent_path.
  assert (Hin : backslash ∈ String.list_ascii_of_string (p +:+ "\" +:+ name)).
  { rewrite PyStrFacts.list_ascii_append. apply elem_of_app. right.
    simpl. apply elem_of_cons. now left. }
  rewrite eqb_false.
  2:{ intros Heq. rewrite Heq in Hin. inversion Hin. }
  rewrite bool_decide_eq_false_2.
  2:{ intros Hk. now apply HKEYS_no_backslash in Hk. }
  cbn [orb]. unfold PyStr.rpartition.
  change ("\" +:+ name)%string with (String backslash name).
  now rewrite (PyStrFacts.rfind_last backslash p name Hname).
Qed.

(** The parent of a name without backslash is the root. *)
Lemma parent_of_name (name : string) :
  backslash ∉ String.list_ascii_of_string name ->
  regkey_parent_path api name = ROOT.
Proof.
  intros Hname. unfold regkey_parent_path.
  destruct (PyStr.eqb name ROOT || bool_decide (name ∈ HKEYS api));
    [reflexivity|].
  unfold PyStr.rpartition.
  now rewrite (PyStrFacts.rfind_absent backslash name Hname).
Qed.

(** The parent path is shorter than the path, unless the path is the
    root. *)
Lemma parent_shorter (path : string) :
  path ≠ ROOT ->
  (String.length (regkey_parent_path api path) < String.length path)%nat.
Proof.
  intros Hne. unfold regkey_parent_path.
  assert (Hpos : (0 < String.length path)%nat).
  { destruct path; [contradiction|simpl; lia]. }
  destruct (PyStr.eqb path ROOT || bool_decide (path ∈ HKEYS api));
    [exact Hpos|].
  unfold PyStr.rpartition.
  destruct (PyStr.rfind "\" path) as [[b a]|] eqn:Hf; [|exact Hpos].
  apply PyStrFacts.rfind_Some in Hf. rewrite Hf.
  rewrite !PyStrFacts.length_append. simpl. lia.
Qed.

Lemma parent_iter (n : nat) (path : string) :
  (String.length path <= n)%nat ->
  Nat.iter n (regkey_parent_path api) path = ROOT.
Proof.
  revert path. induction n as [|n IH]; intros path Hlen.
  - destruct path; [reflexivity|simpl in Hlen; lia].
  - rewrite Nat.iter_succ_r. apply IH.
    destruct (decide (path = ROOT)) as [->|Hne]; [simpl; lia|].
    pose proof (parent_shorter path Hne). lia.
Qed.

Section Navigator.
Context {Handler : Type} `{EqDecision Handler}.
Variable run : Handler -> option Eventor.payload -> string * X
               -> outcome unit * (string * X).

(** [go_to_path] without the check, under handlers that keep the active
    path. *)
Lemma go_to_path_unchecked (self_handlers : Eventor.handlers_dict) P p x :
  keep_path run ->
  ∃ x' t, go_to_path api run self_handlers P false (p, x)
          = (Ret P, (P, x'), t).
Proof.
  intros Hkeep.
  destruct (RegistryFacts.notify_keeps_path run self_handlers PATH_CHANGE_SOON
              p x Hkeep) as (x1 & t1 & Hn1 & _).
  destruct (RegistryFacts.notify_keeps_path run self_handlers PATH_CHANGE_DONE
              P x1 Hkeep) as (x2 & t2 & Hn2 & _).
  exists x2, (t1 ++ t2). unfold go_to_path, when.
  rewrite bind_ret_l.
  unfold bind at 1. rewrite Hn1.
  unfold bind at 1. unfold modify at 1.
  unfold bind at 1. rewrite Hn2.
  unfold gets. simpl. now rewrite app_nil_r.
Qed.

End Navigator.
End Paths.

(** X4. The parent path of the child path of [p] for a name without
    backslash is [p], at the root as below it; so [go_to_child(name)]
    followed by [go_to_parent()] (handlers leaving the active path alone)
    goes to the child path and comes back to [p]. *)
Theorem go_to_child_then_parent :
  ∀ (X PyHKEY Handler : Type) (Heq : EqDecision Handler)
    (api : Win32 X PyHKEY)
    (run : Handler -> option Eventor.payload -> string * X
           -> outcome unit * (string * X))
    (self_handlers : Eventor.handlers_dict) (child_name p : string) (x : X),
    backslash ∉ String.list_ascii_of_string child_name ->
    let c := if PyStr.eqb p ROOT then child_name
             else (p +:+ "\" +:+ child_name)%string in
    child_path (Handler:=Handler) child_name (p, x) = (Ret c, (p, x), [])
    ∧ regkey_parent_path api c = p
    ∧ (keep_path run ->
       let r1 := go_to_child api run self_handlers child_name false (p, x) in
       let r2 := go_to_parent api run self_handlers false (world r1) in
       result r1 = Ret c ∧ fst (world r1) = c
       ∧ result r2 = Ret p ∧ fst (world r2) = p).
Proof.
  intros X PyHKEY Handler Heq api run self_handlers child_name p x Hname c.
  assert (Hchild : child_path (Handler:=Handler) child_name (p, x)
                   = (Ret c, (p, x), [])).
  { unfold child_path, bind, gets. simpl. subst c.
    destruct (PyStr.eqb p ROOT); reflexivity. }
  assert (Hparent : regkey_parent_path api c = p).
  { subst c. destruct (PyStr.eqb p ROOT) eqn:Hp.
    - apply eqb_true in Hp. subst p. now apply parent_of_name.
    - now apply parent_of_joined. }
  split; [exact Hchild|]. split; [exact Hparent|].
  intros Hkeep r1 r2.
  destruct (go_to_path_unchecked api run self_handlers c p x Hkeep)
    as (x1 & t1 & Hgo1).
  assert (Hr1 : r1 = (Ret c, (c, x1), t1)).
  { subst r1. unfold go_to_child. unfold bind at 1. rewrite Hchild.
    rewrite Hgo1. reflexivity. }
  destruct (go_to_path_unchecked api run self_handlers p c x1 Hkeep)
    as (x2 & t2 & Hgo2).
  assert (Hr2 : r2 = (Ret p, (p, x2), t2)).
  { subst r2. rewrite Hr1. unfold world. cbn [fst snd].
    unfold go_to_parent, parent_path. unfold bind at 1. unfold bind at 1.
    unfold gets, ret. cbn [fst snd]. rewrite Hparent, Hgo2. reflexivity. }
  rewrite Hr1, Hr2. repeat split.
Qed.

Lemma go_to_child_then_parent_witness :
  let r1 := go_to_child Samples.one_key Samples.run_idle Samples.nav_handlers
              "Software" false ("HKEY_CURRENT_USER"%string, tt) in
  let r2 := go_to_parent Samples.one_key Samples.run_idle Samples.nav_handlers
              false (world r1) in
  fst (world r1) = "HKEY_CURRENT_USER\Software"%string
  ∧ fst (world r2) = "HKEY_CURRENT_USER"%string.
Proof.
  assert (Hname : "\"%char ∉ String.list_ascii_of_string "Software").
  { apply (bool_decide_unpack _). vm_compute. exact I. }
  assert (Hkeep : keep_path (X:=unit) (Samples.run_idle (W:=string * unit))).
  { intros h a p x. exists x. reflexivity. }
  destruct (go_to_child_then_parent unit nat nat _ Samples.one_key
              Samples.run_idle Samples.nav_handlers "Software"
              "HKEY_CURRENT_USER" tt Hname) as (_ & _ & H).
  destruct (H Hkeep) as (_ & H1 & _ & H2).
  split; [exact H1 | exact H2].
Defined.

(** X5. The parent path of the root and of a hive name is the root; the
    parent path of any other path is shorter than the path; so taking the
    parent path as many times as the path has characters ends at the
    root. *)
Theorem regkey_parent_path_reaches_root :
  ∀ (X PyHKEY : Type) (api : Win32 X PyHKEY) (path : string),
    regkey_parent_path api ROOT = ROOT
    ∧ (path ∈ HKEYS api -> regkey_parent_path api path = ROOT)
    ∧ (path ≠ ROOT ->
       (String.length (regkey_parent_path api path) < String.length path)%nat)
    ∧ Nat.iter (String.length path) (regkey_parent_path api) path = ROOT.
Proof.
  intros X PyHKEY api path. split; [reflexivity|]. split; [|split].
  - intros Hin. unfold regkey_parent_path.
    rewrite (bool_decide_eq_true_2 _ Hin). now rewrite orb_true_r.
  - apply parent_shorter.
  - now apply parent_iter.
Qed.

Lemma regkey_parent_path_reaches_root_witness :
  regkey_parent_path Samples.one_key "HKEY_USERS" = ROOT
  ∧ (String.length
       (regkey_parent_path Samples.one_key "HKEY_USERS\S-1-5-18\Console")
     < String.length "HKEY_USERS\S-1-5-18\Console")%nat.
Proof.
  split.
  - destruct (regkey_parent_path_reaches_root unit nat Samples.one_key
                "HKEY_USERS") as (_ & H & _).
    apply H. apply (bool_decide_unpack _). vm_compute. exact I.
  - destruct (regkey_parent_path_reaches_root unit nat Samples.one_key
                "HKEY_USERS\S-1-5-18\Console") as (_ & _ & H & _).
    apply H. discriminate.
Defined.

Section Exists.
Context {X PyHKEY T : Type}.
Variable api : Win32 X PyHKEY.

Lemma regkey_get_unknown_hive path mask x :
  path ≠ ROOT ->
  _hive_name_to_int api (PyStr.partition path "\").1.1 = None ->
  regkey_get (T:=T) api path mask x = (Ret None, x, []).
Proof.
  intros Hne Hh. unfold regkey_get. rewrite (eqb_false _ _ Hne).
  unfold bind, try_except, _regkey_handle_get.
  destruct (PyStr.partition path "\") as [[hive_name sep] nohive_path].
  cbn [fst] in Hh. rewrite Hh. reflexivity.
Qed.

Lemma regkey_get_known_hive path mask x hive_int :
  path ≠ ROOT ->
  _hive_name_to_int api (PyStr.partition path "\").1.1 = Some hive_int ->
  let sub := if PyStr.eqb (PyStr.partition path "\").2 "" then None
             else Some (PyStr.partition path "\").2 in
  let m := match mask with
           | None => Z.lor (KEY_ALL_ACCESS api) (KEY_WOW64_64KEY api)
           | Some m => m
           end in
  regkey_get (T:=T) api path mask x
  = match RegOpenKeyEx api hive_int sub 0 m x with
    | (Ret h, x1) =>
        (Ret (Some {| class := RegKey_class; _handle := Some h;
                      _path := path |}), x1, [])
    | (Raise _, x1) => (Ret None, x1, [])
    end.
Proof.
  intros Hne Hh sub m. subst sub m. unfold regkey_get.
  rewrite (eqb_false _ _ Hne).
  unfold bind, try_except, _regkey_handle_get, os_call.
  destruct (PyStr.partition path "\") as [[hive_name sep] nohive_path].
  cbn [fst snd] in *. rewrite Hh.
  destruct (RegOpenKeyEx api hive_int _ 0 _ x) as [[h|e] x1]; reflexivity.
Qed.

End Exists.

(** X6. [regkey_exists] of the root is [True] without any call to the
    platform. For another path whose first part is not a hive name,
    [regkey_get] gives [None] and [regkey_exists] gives [False], again
    without any call to the platform. When the first part is a hive name
    the key is opened with [KEY_READ]: if the platform refuses, whatever
    the exception, the answer is [False]; if it hands out a handle, that
    handle is closed before the answer [True] is given. *)
Theorem regkey_exists_opens_and_closes :
  ∀ (X PyHKEY T : Type) (api : Win32 X PyHKEY) (path : string) (x : X),
    regkey_exists (T:=T) api ROOT x = (Ret true, x, [])
    ∧ (path ≠ ROOT ->
       let hive_name := (PyStr.partition path "\").1.1 in
       let sub := if PyStr.eqb (PyStr.partition path "\").2 "" then None
                  else Some (PyStr.partition path "\").2 in
       (_hive_name_to_int api hive_name = None ->
        ∀ mask,
          regkey_get (T:=T) api path mask x = (Ret None, x, [])
          ∧ regkey_exists (T:=T) api path x = (Ret false, x, []))
       ∧ (∀ hive_int e x1,
            _hive_name_to_int api hive_name = Some hive_int ->
            RegOpenKeyEx api hive_int sub 0 (KEY_READ api) x = (Raise e, x1) ->
            regkey_exists (T:=T) api path x = (Ret false, x1, []))
       ∧ (∀ hive_int h x1 x2,
            _hive_name_to_int api hive_name = Some hive_int ->
            RegOpenKeyEx api hive_int sub 0 (KEY_READ api) x = (Ret h, x1) ->
            RegCloseKey api h x1 = (Ret tt, x2) ->
            regkey_exists (T:=T) api path x = (Ret true, x2, []))).
Proof.
  intros X PyHKEY T api path x. split; [reflexivity|].
  intros Hne hive_name sub. split; [|split].
  - intros Hh mask. split; [now apply regkey_get_unknown_hive|].
    unfold regkey_exists, bind.
    now rewrite (regkey_get_unknown_hive api path _ x Hne Hh).
  - intros hive_int e x1 Hh Hopen. unfold regkey_exists, bind.
    rewrite (regkey_get_known_hive api path _ x hive_int Hne Hh).
    cbv zeta. fold sub. now rewrite Hopen.
  - intros hive_int h x1 x2 Hh Hopen Hclose. unfold regkey_exists, bind.
    rewrite (regkey_get_known_hive api path _ x hive_int Hne Hh).
    cbv zeta. fold sub. rewrite Hopen.
    unfold with_local, close, bind, gets, closed, on_rest, os_call, modify.
    cbn. rewrite Hclose. reflexivity.
Qed.

Lemma regkey_exists_opens_and_closes_witness :
  regkey_exists (T:=unit) Samples.one_key "NO_SUCH_HIVE\Software" tt
  = (Ret false, tt, [])
  ∧ regkey_exists (T:=unit) Samples.one_key "HKEY_CURRENT_USER\Software" tt
    = (Ret true, tt, []).
Proof.
  split.
  - apply (regkey_exists_opens_and_closes unit nat unit Samples.one_key
             "NO_SUCH_HIVE\Software" tt); [discriminate|reflexivity|exact None].
  - apply (regkey_exists_opens_and_closes unit nat unit Samples.one_key
             "HKEY_CURRENT_USER\Software" tt) with (hive_int:=1) (h:=1%nat) (x1:=tt);
      [discriminate|reflexivity|reflexivity|reflexivity].
Defined.

End RegistryPaths.

(** ** field_editor_config.py *)

Module FieldEditorConfigFacts.
Import Strings.Ascii.
Import FieldEditorConfig.

Lemma split_nonempty (s : string) (c : ascii) : PyStr.split s c ≠ [].
Proof.
  destruct s as [|x s]; simpl; [discriminate|].
  destruct (Ascii.eqb x c); [discriminate|].
  destruct (PyStr.split s c); discriminate.
Qed.

(** Joining the pieces of a split with another character puts that
    character in the place of each separator. *)
Lemma join_split_cons (d c x : ascii) (s : string) :
  PyStr.join (String d EmptyString) (PyStr.split (String x s) c)
  = String (if Ascii.eqb x c then d else x)
      (PyStr.join (String d EmptyString) (PyStr.split s c)).
Proof.
  cbn [PyStr.split]. pose proof (split_nonempty s c) as Hne.
  destruct (Ascii.eqb x c).
  - destruct (PyStr.split s c) as [|p ps]; [contradiction|]. reflexivity.
  - destruct (PyStr.split s c) as [|p ps]; [contradiction|].
    destruct ps; reflexivity.
Qed.

Lemma join_split_back (d c : ascii) (s : string) :
  d ∉ String.list_ascii_of_string s ->
  PyStr.join (String c EmptyString)
    (PyStr.split (PyStr.join (String d EmptyString) (PyStr.split s c)) d)
  = s.
Proof.
  induction s as [|x s IH]; intros Hd; [reflexivity|].
  simpl in Hd. apply not_elem_of_cons in Hd. destruct Hd as (Hne & Hd).
  rewrite join_split_cons, join_split_cons, (IH Hd). f_equal.
  destruct (Ascii.eqb x c) eqn:Hx.
  - rewrite Ascii.eqb_refl. now apply Ascii.eqb_eq in Hx.
  - destruct (Ascii.eqb x d) eqn:Hxd; [|reflexivity].
    apply Ascii.eqb_eq in Hxd. congruence.
Qed.

Lemma join_split_clears (d c : ascii) (s : string) :
  d ≠ c ->
  c ∉ String.list_ascii_of_string
        (PyStr.join (String d EmptyString) (PyStr.split s c)).
Proof.
  intros Hdc. induction s as [|x s IH]; [simpl; apply not_elem_of_nil|].
  rewrite join_split_cons. simpl. apply not_elem_of_cons. split; [|exact IH].
  destruct (Ascii.eqb x c) eqn:Hx; [congruence|].
  apply Ascii.eqb_neq in Hx. congruence.
Qed.

Lemma join_split_length (d c : ascii) (s : string) :
  String.length (PyStr.join (String d EmptyString) (PyStr.split s c))
  = String.length s.
Proof.
  induction s as [|x s IH]; [reflexivity|].
  rewrite join_split_cons. simpl. now rewrite IH.
Qed.

(** X7. [semicolon_to_newline] and [newline_to_semicolon] keep the length
    of the text; the first leaves no semicolon and the second no newline;
    and each undoes the other on a text that holds none of the characters
    the other would put in: a text without newline comes back from
    [semicolon_to_newline] followed by [newline_to_semicolon], and a text
    without semicolon from the two in the other order. *)
Theorem filters_undo_each_other :
  ∀ text : string,
    (newline ∉ String.list_ascii_of_string text ->
     newline_to_semicolon (semicolon_to_newline text) = text)
    ∧ (semicolon ∉ String.list_ascii_of_string text ->
       semicolon_to_newline (newline_to_semicolon text) = text)
    ∧ (semicolon ∉ String.list_ascii_of_string (semicolon_to_newline text))
    ∧ (newline ∉ String.list_ascii_of_string (newline_to_semicolon text))
    ∧ String.length (semicolon_to_newline text) = String.length text
    ∧ String.length (newline_to_semicolon text) = String.length text.
Proof.
  intros text. unfold newline_to_semicolon, semicolon_to_newline.
  split; [apply join_split_back|]. split; [apply join_split_back|].
  split; [apply join_split_clears; discriminate|].
  split; [apply join_split_clears; discriminate|].
  split; apply join_split_length.
Qed.

Lemma filters_undo_each_other_witness :
  newline_to_semicolon (semicolon_to_newline "C:\bin;D:\tools;")
  = "C:\bin;D:\tools;"%string
  ∧ semicolon_to_newline "C:\bin;D:\tools;"
    = String "C" (String ":" (String "\" (String "b" (String "i" (String "n"
        (String newline (String "D" (String ":" (String "\" (String "t"
        (String "o" (String "o" (String "l" (String "s"
        (String newline EmptyString))))))))))))))).
Proof.
  split; [|reflexivity].
  apply (filters_undo_each_other "C:\bin;D:\tools;").
  apply (bool_decide_unpack _). vm_compute. exact I.
Defined.

(** A text that holds a newline does not come back: its newline has
    become a semicolon. *)
Remark newline_is_not_kept :
  let text := String "a" (String newline (String "b" EmptyString)) in
  newline_to_semicolon (semicolon_to_newline text) = "a;b"%string.
Proof. reflexivity. Qed.

End FieldEditorConfigFacts.

(** ** tkinterutil/listbox.py: what the mutators do when they run *)

Module ListboxLaws.
Import Listbox.

Section Laws.
Context {Item X Handler : Type} `{EqDecision Handler}.
Variable curselection : Listbox_widget -> list Z.
Variable run : Handler -> option Eventor.payload -> ListboxVidget Item * X
               -> outcome unit * (ListboxVidget Item * X).

(** One notification under handlers that keep the vidget: each handler is
    shown the vidget as it is. *)
Lemma notify_sees (self_handlers : Eventor.handlers_dict) ev arg s x :
  keep_vidget run ->
  ∃ x' t, handler_notify run self_handlers ev arg (s, x) = (Ret tt, (s, x'), t)
          ∧ seen <$> t = fires self_handlers ev arg (view s).
Proof.
  intros Hkeep. unfold handler_notify.
  rewrite EventorFacts.handler_notify_in_order.
  destruct (EventorFacts.call_in_order_keeps run fst (Some ev)
              (Eventor.notify_arg (Some ev) arg None false)
              (Eventor.handlers_for self_handlers (Some ev)
               ++ Eventor.handlers_for self_handlers None) (s, x))
    as ([s' x'] & Hres & Hobs & Htr).
  { intros h a [s0 x0]. destruct (Hkeep h a s0 x0) as (x1 & ->).
    exists (s0, x1). auto. }
  simpl in Hobs. subst s'.
  destruct (Eventor.call_in_order _ _ _ _ _) as [[o w'] t]. simpl in *.
  inversion Hres; subst. exists x', t. split; [reflexivity|].
  unfold fires, seen.
  apply (f_equal (fmap (fun '(e, hw, a, s0) => (e, hw, a, view s0)))) in Htr.
  rewrite <- !list_fmap_compose in Htr. exact Htr.
Qed.

Ltac see_notify Hkeep :=
  match goal with
  | |- context [handler_notify ?r ?hd ?ev ?a (?s, ?x)] =>
      let x' := fresh "x" in
      let t := fresh "t" in
      let E := fresh "E" in
      let Ht := fresh "Htr" in
      destruct (notify_sees hd ev a s x Hkeep) as (x' & t & E & Ht);
      rewrite E; clear E
  end.

Ltac do_update :=
  match goal with
  | |- context [_listbox_widget_update ?ka (?s, ?x)] =>
      let s' := fresh "s" in
      let E := fresh "E" in
      let Hi := fresh "Hitems" in
      let Hc := fresh "Hcur" in
      let Hg := fresh "Hchg" in
      let Hr := fresh "Hres" in
      let Hst := fresh "Hstate" in
      destruct (ListboxFacts.widget_update_ok (Handler:=Handler) ka s x)
        as (s' & E & Hi & Hc & Hg & Hr & Hst);
      rewrite E; clear E
  end.


Lemma indexcur_set_run (self_handlers : Eventor.handlers_dict) (index : Z)
    (focus notify : bool) arg (s : ListboxVidget Item) (x : X) :
  keep_vidget run ->
  index_is_valid_or_void s index = true ->
  is_enabled s = true ->
  _is_changing s = false ->
  let resetting := index =? _indexcur s in
  ∃ s' x' t,
    indexcur_set run self_handlers index focus notify arg (s, x)
    = (Ret tt, (s', x'), t)
    ∧ _items s' = _items s
    ∧ _indexcur s' = index
    ∧ _is_changing s' = false
    ∧ _is_resetting s' = false
    ∧ state (_listbox s') = state (_listbox s)
    ∧ seen <$> t
      = (if notify
         then fires self_handlers ITEMCUR_CHANGE_SOON arg
                (_items s, _indexcur s, true, resetting)
              ++ fires self_handlers ITEMCUR_CHANGE_DONE arg
                   (_items s, index, true, resetting)
         else []).
Proof.
  intros Hkeep Hvalid Hen Hch resetting. subst resetting. unfold indexcur_set.
  unfold bind at 1. cbn [self gets fst snd].
  rewrite Hvalid, Hen, Hch. cbn [negb].
  destruct notify; unfold when.
  - unfold bind. cbn [assign modify fst snd].
    see_notify Hkeep.
    cbn [self gets fst snd assign modify tk].
    destruct (index_is_valid _ _); destruct (index =? -1); destruct focus;
      cbn -[handler_notify]; see_notify Hkeep; cbn;
      eexists _, _, _; (split; [reflexivity|]);
      rewrite ?app_nil_r, fmap_app, Htr, Htr0; repeat split.
  - unfold bind. cbn [assign modify fst snd self gets tk ret].
    destruct (index_is_valid _ _); destruct (index =? -1); destruct focus;
      cbn; eexists _, _, _; (split; [reflexivity|]); repeat split.
Qed.

(** A notification under handlers that leave the vidget alone, whether
    they return or raise, leaves the vidget alone. *)
Lemma notify_leaves (self_handlers : Eventor.handlers_dict) ev arg s x :
  leave_vidget run ->
  ∃ o x' t, handler_notify run self_handlers ev arg (s, x) = (o, (s, x'), t).
Proof.
  intros Hleave. unfold handler_notify.
  rewrite EventorFacts.handler_notify_in_order.
  generalize (Eventor.notify_arg (Some ev) arg None false).
  generalize (Eventor.handlers_for self_handlers (Some ev)
              ++ Eventor.handlers_for self_handlers None).
  intros hs a. revert x. induction hs as [|hw hs IH]; intros x; simpl.
  - eauto.
  - assert (Hw : ∃ o x1, Eventor.wrapper_call run hw a (s, x) = (o, (s, x1))).
    { unfold Eventor.wrapper_call. destruct (Eventor._need_arg hw); apply Hleave. }
    destruct Hw as (o & x1 & ->). destruct o as [[]|e]; [|eauto].
    destruct (IH x1) as (o' & x' & t & ->). eauto.
Qed.

Ltac leave_notify Hleave :=
  match goal with
  | |- context [handler_notify ?r ?hd ?ev ?a (?s, ?x)] =>
      let o := fresh "o" in
      let x' := fresh "x" in
      let t := fresh "t" in
      let E := fresh "E" in
      destruct (notify_leaves hd ev a s x Hleave) as (o & x' & t & E);
      rewrite E; clear E; destruct o as [[]|?]
  end.

(** A handler that raises stops [items_set] with the changing flag on. *)
Lemma items_set_raise (self_handlers : Eventor.handlers_dict) l
    (notify keep_active : bool) (s : ListboxVidget Item) (x : X) :
  leave_vidget run ->
  is_enabled s = true ->
  _is_changing s = false ->
  ∃ o s' x' t,
    items_set run self_handlers l notify keep_active (s, x)
    = (o, (s', x'), t)
    ∧ (raised o = true -> is_enabled s' = true ∧ _is_changing s' = true).
Proof.
  intros Hleave Hen Hch. unfold items_set.
  unfold bind at 1. cbn [self gets fst snd].
  rewrite Hen, Hch. cbn [negb].
  destruct notify; unfold when, bind; cbn [assign modify fst snd ret].
  - leave_notify Hleave; cbn [assign modify fst snd ret].
    + do_update. leave_notify Hleave; cbn.
      * eexists _, _, _, _. split; [reflexivity|]. discriminate.
      * eexists _, _, _, _. split; [reflexivity|]. intros _.
        unfold is_enabled in *. rewrite Hstate, Hchg. cbn. auto.
    + eexists _, _, _, _. split; [reflexivity|]. intros _. cbn. auto.
  - do_update. cbn. eexists _, _, _, _. split; [reflexivity|]. discriminate.
Qed.

(** A handler that raises stops [indexcur_set] with the changing flag
    on. *)
Lemma indexcur_set_raise (self_handlers : Eventor.handlers_dict) (index : Z)
    (focus notify : bool) arg (s : ListboxVidget Item) (x : X) :
  leave_vidget run ->
  index_is_valid_or_void s index = true ->
  is_enabled s = true ->
  _is_changing s = false ->
  ∃ o s' x' t,
    indexcur_set run self_handlers index focus notify arg (s, x)
    = (o, (s', x'), t)
    ∧ (raised o = true -> is_enabled s' = true ∧ _is_changing s' = true).
Proof.
  intros Hleave Hvalid Hen Hch. unfold indexcur_set.
  unfold bind at 1. cbn [self gets fst snd].
  rewrite Hvalid, Hen, Hch. cbn [negb].
  destruct notify; unfold when.
  - unfold bind. cbn [assign modify fst snd].
    leave_notify Hleave.
    + cbn [self gets fst snd assign modify tk].
      destruct (index_is_valid _ _); destruct (index =? -1); destruct focus;
        cbn -[handler_notify]; leave_notify Hleave; cbn;
        eexists _, _, _, _; (split; [reflexivity|]);
        try discriminate; intros _; auto.
    + eexists _, _, _, _. split; [reflexivity|]. intros _. cbn. auto.
  - unfold bind. cbn [assign modify fst snd self gets tk ret].
    destruct (index_is_valid _ _); destruct (index =? -1); destruct focus;
      cbn; eexists _, _, _, _; (split; [reflexivity|]); discriminate.
Qed.

End Laws.



(** X9. On an enabled listbox with no change in progress, [indexcur_set]
    with an index that is valid or -1 (handlers leaving the listbox alone)
    returns with that index active and both flags off. The handlers of
    [ITEMCUR_CHANGE_SOON] are shown the old index and those of
    [ITEMCUR_CHANGE_DONE] the new one, both with the changing flag on and
    with the resetting flag on exactly when the new index is the cached
    old one; with [notify=False] no handler is called. *)
Theorem indexcur_set_selects :
  ∀ (Item X Handler : Type) (Heq : EqDecision Handler)
    (curselection : Listbox_widget -> list Z)
    (run : Handler -> option Eventor.payload -> ListboxVidget Item * X
           -> outcome unit * (ListboxVidget Item * X))
    (self_handlers : Eventor.handlers_dict) (index : Z)
    (focus notify : bool) (arg : pyval) (s : ListboxVidget Item) (x : X),
    keep_vidget run ->
    index_is_valid_or_void s index = true ->
    is_enabled s = true ->
    _is_changing s = false ->
    let resetting := index =? _indexcur s in
    ∃ s' x' t,
      indexcur_set run self_handlers index focus notify arg (s, x)
      = (Ret tt, (s', x'), t)
      ∧ items s' = items s
      ∧ indexcur_default curselection s' = index
      ∧ is_changing s' = false
      ∧ is_resetting s' = false
      ∧ seen <$> t
        = (if notify
           then fires self_handlers ITEMCUR_CHANGE_SOON arg
                  (_items s, _indexcur s, true, resetting)
                ++ fires self_handlers ITEMCUR_CHANGE_DONE arg
                     (_items s, index, true, resetting)
           else []).
Proof.
  intros Item X Handler Heq curselection run self_handlers index focus notify
    arg s x Hkeep Hvalid Hen Hch resetting.
  destruct (indexcur_set_run run self_handlers index focus notify arg s x
              Hkeep Hvalid Hen Hch)
    as (s' & x' & t & E & Hi & Hc & Hg & Hr & Hst & Ht).
  exists s', x', t. split; [exact E|]. split; [exact Hi|].
  split; [|split; [exact Hg|split; [exact Hr|exact Ht]]].
  apply ListboxFacts.indexcur_default_cached; [exact Hc|].
  unfold index_is_valid_or_void, index_is_valid, size in *. now rewrite Hi.
Qed.

Lemma indexcur_set_selects_witness :
  let s := Samples.listbox_of [10; 20; 30] 1 "normal" false in
  ∃ s' x' t,
    indexcur_set Samples.run_idle Samples.no_handlers 1 false true PNone (s, tt)
    = (Ret tt, (s', x'), t)
    ∧ indexcur_default Samples.no_curselection s' = 1
    ∧ is_resetting s' = false.
Proof.
  intros s.
  destruct (indexcur_set_selects Z unit nat _ Samples.no_curselection
              Samples.run_idle Samples.no_handlers 1 false true PNone s tt)
    as (s' & x' & t & E & _ & Hc & _ & Hr & _).
  - apply ListboxFacts.run_idle_keeps_vidget.
  - reflexivity.
  - reflexivity.
  - reflexivity.
  - exists s', x', t. split; [exact E|]. split; [exact Hc|exact Hr].
Defined.

(** X10. [items_set] and [indexcur_set] turn the changing flag on before
    they notify and turn it off as their last step. When a handler raises
    (handlers leaving the listbox alone otherwise) the exception passes
    through and the flag stays on: from then on every [items_set] and
    every [indexcur_set] with an index that is valid or -1 raises the
    error of a call made during a change, and changes nothing. *)
Theorem raising_handler_leaves_listbox_changing :
  ∀ (Item X Handler : Type) (Heq : EqDecision Handler)
    (run : Handler -> option Eventor.payload -> ListboxVidget Item * X
           -> outcome unit * (ListboxVidget Item * X))
    (self_handlers : Eventor.handlers_dict) (l : list Item) (index : Z)
    (focus notify keep_active by_index : bool) (arg : pyval)
    (s : ListboxVidget Item) (x : X) (e : exn),
    leave_vidget run ->
    is_enabled s = true ->
    _is_changing s = false ->
    (by_index = true -> index_is_valid_or_void s index = true) ->
    let r := if by_index
             then indexcur_set run self_handlers index focus notify arg (s, x)
             else items_set run self_handlers l notify keep_active (s, x) in
    result r = Raise e ->
    is_changing (fst (world r)) = true
    ∧ (∀ l' notify' keep_active',
          items_set run self_handlers l' notify' keep_active' (world r)
          = (Raise CircularCallError, world r, []))
    ∧ (∀ index' focus' notify' arg',
          index_is_valid_or_void (fst (world r)) index' = true ->
          indexcur_set run self_handlers index' focus' notify' arg' (world r)
          = (Raise CircularCallError, world r, [])).
Proof.
  intros Item X Handler Heq run self_handlers l index focus notify keep_active
    by_index arg s x e Hleave Hen Hch Hvalid r Hr.
  assert (Hs : is_enabled (fst (world r)) = true
               ∧ _is_changing (fst (world r)) = true).
  { subst r. destruct by_index.
    - destruct (indexcur_set_raise run self_handlers index focus notify arg s x
                  Hleave (Hvalid eq_refl) Hen Hch) as (o & s' & x' & t & E & H).
      rewrite E in *. unfold result, world in *. cbn [fst snd] in *.
      subst o. now apply H.
    - destruct (items_set_raise run self_handlers l notify keep_active s x
                  Hleave Hen Hch) as (o & s' & x' & t & E & H).
      rewrite E in *. unfold result, world in *. cbn [fst snd] in *.
      subst o. now apply H. }
  destruct Hs as (Hen' & Hch'). destruct (world r) as [s1 x1] eqn:Hw.
  cbn [fst] in *. split; [exact Hch'|]. split.
  - intros l' notify' keep_active'.
    now apply ListboxFacts.items_set_changing.
  - intros index' focus' notify' arg' Hv.
    now apply ListboxFacts.indexcur_set_changing.
Qed.

Lemma raising_handler_leaves_listbox_changing_witness :
  let s := Samples.listbox_of [10; 20] 0 "normal" false in
  let r := items_set Samples.run_raise Samples.soon_handlers [7] true false
             (s, tt) in
  result r = Raise ValueError
  ∧ items (fst (world r)) = [10; 20]
  ∧ is_changing (fst (world r)) = true
  ∧ items_set Samples.run_raise Samples.soon_handlers [8] false false (world r)
    = (Raise CircularCallError, world r, []).
Proof.
  intros s r.
  assert (Hr : result r = Raise ValueError) by (vm_compute; reflexivity).
  split; [exact Hr|]. split; [vm_compute; reflexivity|].
  destruct (raising_handler_leaves_listbox_changing Z unit nat _
              Samples.run_raise Samples.soon_handlers [7] 0 false true false
              false PNone s tt ValueError) as (H1 & H2 & _).
  - intros h a s0 x0. exists (Raise ValueError), x0. reflexivity.
  - reflexivity.
  - reflexivity.
  - discriminate.
  - exact Hr.
  - split; [exact H1|]. apply H2.
Defined.

(** X11. [item_remove] at a valid index (enabled listbox, no change in
    progress, handlers leaving the listbox alone) takes out exactly the
    item at that index: the items before it keep their places and the
    items after it move down by one. With [keep_active=True] the active
    index keeps its number unless that is past the new last index, in
    which case it becomes the new last index (-1 when the list is empty);
    with [keep_active=False] there is no active index. *)
Theorem item_remove_removes_one_item :
  ∀ (Item X Handler : Type) (Heq : EqDecision Handler)
    (curselection : Listbox_widget -> list Z)
    (run : Handler -> option Eventor.payload -> ListboxVidget Item * X
           -> outcome unit * (ListboxVidget Item * X))
    (self_handlers : Eventor.handlers_dict) (index : Z)
    (notify keep_active : bool) (s : ListboxVidget Item) (x : X),
    keep_vidget run ->
    is_enabled s = true ->
    _is_changing s = false ->
    0 <= index < size s ->
    let sel := indexcur_default curselection s in
    ∃ s' x' t,
      item_remove curselection run self_handlers index notify keep_active (s, x)
      = (Ret tt, (s', x'), t)
      ∧ size s' = size s - 1
      ∧ (∀ j : nat, Z.of_nat j < index -> items s' !! j = items s !! j)
      ∧ (∀ j : nat, index <= Z.of_nat j -> items s' !! j = items s !! S j)
      ∧ indexcur_default curselection s'
        = (if keep_active
           then if sel =? -1 then -1 else Z.min sel (size s - 2)
           else -1)
      ∧ is_changing s' = false.
Proof.
  intros Item X Handler Heq curselection run self_handlers index notify
    keep_active s x Hkeep Hen Hch Hidx sel.
  destruct (ListboxFacts.item_remove_ok curselection run (fun _ => tt)
              self_handlers index notify keep_active s x
              (ListboxFacts.keep_vidget_obs run Hkeep) Hen Hch Hidx)
    as (s' & x' & t & E & Hi & Hc & Hg & Hst).
  fold sel in Hc.
  assert (Hlen : (Z.to_nat index < length (_items s))%nat).
  { unfold size, PyList.len in Hidx. lia. }
  assert (Hsize : size s' = size s - 1).
  { unfold size, PyList.len. rewrite Hi, length_app, length_take, length_drop.
    lia. }
  exists s', x', t. split; [exact E|]. split; [exact Hsize|].
  split; [|split; [|split; [|exact Hg]]].
  - intros j Hj. unfold items. rewrite Hi.
    rewrite lookup_app_l by (rewrite length_take; lia).
    apply lookup_take_lt. lia.
  - intros j Hj. unfold items. rewrite Hi.
    rewrite lookup_app_r by (rewrite length_take; lia).
    rewrite length_take, lookup_drop. f_equal. lia.
  - pose proof (ListboxFacts.indexcur_default_range curselection s) as Hrange.
    fold sel in Hrange.
    apply ListboxFacts.indexcur_default_cached.
    + rewrite Hc. destruct keep_active; [|reflexivity].
      destruct (sel =? -1) eqn:Hs; cbn [negb].
      * apply Z.eqb_eq in Hs. now rewrite Hs.
      * destruct (Z.ltb_spec (size s - 2) sel); lia.
    + unfold index_is_valid_or_void, index_is_valid. rewrite Hsize.
      destruct keep_active; [|reflexivity].
      destruct (Z.eqb_spec sel (-1)); [reflexivity|].
      apply orb_true_iff.
      destruct (Z.eqb_spec (Z.min sel (size s - 2)) (-1)); [now left|right].
      apply andb_true_iff. split; [apply Z.leb_le|apply Z.ltb_lt]; lia.
Qed.

Lemma item_remove_removes_one_item_witness :
  let s := Samples.listbox_of [10; 20; 30] 2 "normal" false in
  ∃ s' x' t,
    item_remove Samples.no_curselection Samples.run_idle Samples.no_handlers
      0 true true (s, tt)
    = (Ret tt, (s', x'), t)
    ∧ size s' = 2
    ∧ items s' !! 0%nat = Some 20
    ∧ indexcur_default Samples.no_curselection s' = 1.
Proof.
  intros s.
  destruct (item_remove_removes_one_item Z unit nat _ Samples.no_curselection
              Samples.run_idle Samples.no_handlers 0 true true s tt)
    as (s' & x' & t & E & Hsize & _ & Hafter & Hc & _).
  - apply ListboxFacts.run_idle_keeps_vidget.
  - reflexivity.
  - reflexivity.
  - vm_compute. split; [discriminate|reflexivity].
  - exists s', x', t. split; [exact E|]. split; [exact Hsize|].
    split; [|exact Hc]. rewrite (Hafter 0%nat); [reflexivity|]. reflexivity.
Defined.

(** X12. [itemcur()] read from the cached index never raises unless asked
    to: it is the item at the cached active index when that index is
    within the list, and otherwise [None], or [IndexError] with
    [raise_error=True]. *)
Theorem itemcur_is_item_at_cached_index :
  ∀ (Item : Type) (curselection : Listbox_widget -> list Z)
    (s : ListboxVidget Item) (raise_error : bool),
    (index_is_valid s (_indexcur s) = true ->
     ∃ item, items s !! Z.to_nat (_indexcur s) = Some item
             ∧ itemcur curselection s false raise_error = Ret (Some item))
    ∧ (index_is_valid s (_indexcur s) = false ->
       itemcur curselection s false raise_error
       = if raise_error then Raise IndexError else Ret None).
Proof.
  intros Item curselection s raise_error. unfold itemcur, indexcur, _indexcurs.
  split; intros Hv; rewrite Hv.
  - unfold index_is_valid, size, PyList.len in Hv.
    apply andb_true_iff in Hv. destruct Hv as (H0 & Hn).
    apply Z.leb_le in H0. apply Z.ltb_lt in Hn.
    destruct (items s !! Z.to_nat (_indexcur s)) as [item|] eqn:Hl.
    2:{ apply lookup_ge_None in Hl. unfold items in Hl. lia. }
    exists item. split; [reflexivity|].
    destruct (Z.eqb_spec (_indexcur s) (-1)); [lia|].
    unfold PyList.getitem, PyList.len, items in *.
    destruct (Z.ltb_spec (_indexcur s) 0); [lia|].
    destruct (Z.leb_spec 0 (_indexcur s)); [|lia].
    destruct (Z.ltb_spec (_indexcur s) (Z.of_nat (length (_items s)))); [|lia].
    cbn [andb]. now rewrite Hl.
  - destruct raise_error; reflexivity.
Qed.

Lemma itemcur_is_item_at_cached_index_witness :
  itemcur Samples.no_curselection
    (Samples.listbox_of [10; 20; 30] 1 "normal" false) false true
  = Ret (Some 20)
  ∧ itemcur Samples.no_curselection
      (Samples.listbox_of [10; 20; 30] 3 "normal" false) false false
    = Ret None.
Proof.
  split.
  - destruct (itemcur_is_item_at_cached_index Z Samples.no_curselection
                (Samples.listbox_of [10; 20; 30] 1 "normal" false) true)
      as (H & _).
    destruct H as (item & Hl & ->); [reflexivity|].
    vm_compute in Hl. now inversion Hl.
  - destruct (itemcur_is_item_at_cached_index Z Samples.no_curselection
                (Samples.listbox_of [10; 20; 30] 3 "normal" false) false)
      as (_ & H).
    apply H. reflexivity.
Defined.

End ListboxLaws.

(** ** tkinterutil/text.py: setting the text of an entry *)

Module EntryLaws.
Import Entry.

Section Laws.
Context {X Handler : Type} `{EqDecision Handler}.
Variable run : Handler -> option Eventor.payload -> EntryVidget * X
               -> outcome unit * (EntryVidget * X).

Lemma entry_notify_sees (self_handlers : Eventor.handlers_dict) ev arg s x :
  keep_vidget run ->
  ∃ x' t, handler_notify run self_handlers ev arg (s, x) = (Ret tt, (s, x'), t)
          ∧ seen <$> t = fires self_handlers ev arg (view s).
Proof.
  intros Hkeep. unfold handler_notify.
  rewrite EventorFacts.handler_notify_in_order.
  destruct (EventorFacts.call_in_order_keeps run fst (Some ev)
              (Eventor.notify_arg (Some ev) arg None true)
              (Eventor.handlers_for self_handlers (Some ev)
               ++ Eventor.handlers_for self_handlers None) (s, x))
    as ([s' x'] & Hres & Hobs & Htr).
  { intros h a [s0 x0]. destruct (Hkeep h a s0 x0) as (x1 & ->).
    exists (s0, x1). auto. }
  simpl in Hobs. subst s'.
  destruct (Eventor.call_in_order _ _ _ _ _) as [[o w'] t]. simpl in *.
  inversion Hres; subst. exists x', t. split; [reflexivity|].
  unfold fires, seen.
  apply (f_equal (fmap (fun '(e, hw, a, s0) => (e, hw, a, view s0)))) in Htr.
  rewrite <- !list_fmap_compose in Htr. exact Htr.
Qed.

Ltac see_notify Hkeep :=
  match goal with
  | |- context [handler_notify ?r ?hd ?ev ?a (?s, ?x)] =>
      let x' := fresh "x" in
      let t := fresh "t" in
      let E := fresh "E" in
      let Ht := fresh "Htr" in
      destruct (entry_notify_sees hd ev a s x Hkeep) as (x' & t & E & Ht);
      rewrite E; clear E
  end.

Lemma append_nil_r (s : string) : (s +:+ "")%string = s.
Proof.
  induction s as [|c s IH]; [reflexivity|].
  change (String c s +:+ "")%string with (String c (s +:+ "")).
  now rewrite IH.
Qed.

Lemma eqb_refl (s : string) : PyStr.eqb s s = true.
Proof. unfold PyStr.eqb. now apply bool_decide_eq_true. Qed.

Lemma is_state_NORMAL : is_state NORMAL = true.
Proof. vm_compute. reflexivity. Qed.

Lemma NORMAL_enabled : PyStr.eqb NORMAL DISABLED = false.
Proof. vm_compute. reflexivity. Qed.

(** The steps of [text_set] that put the text in the Tk widget. *)
Lemma widget_write (text : string) (s : EntryVidget) (x : X) :
  is_state (state (_text_widget s)) = true ->
  (_validator_wrapper_unmount ;;
   state_set NORMAL ;;
   tk widget_delete_all ;;
   tk (widget_insert_0 text) ;;
   state_set_back ;;
   _validator_wrapper_mount) (s, x)
  = (Ret tt,
     ({| _text_widget := {| value := text; state := state (_text_widget s);
                            validatecommand := true |};
         _is_changing := _is_changing s;
         _old_widget_state := state (_text_widget s);
         _validator := _validator s;
         _text := _text s |}, x),
     [] : list (Eventor.call (EntryVidget * X) Handler)).
Proof.
  intros Hst.
  unfold _validator_wrapper_unmount, _validator_wrapper_mount, state_set,
    state_set_back, tk, assign, self.
  rewrite is_state_NORMAL. cbn [negb].
  unfold bind, modify, gets, raise, ret.
  cbn [fst snd set_text_widget set_old_widget_state widget_state_set
       widget_validatecommand_set _text_widget _old_widget_state state value
       validatecommand].
  unfold widget_insert_0, widget_delete_all.
  cbn [fst snd set_text_widget set_old_widget_state widget_state_set
       widget_validatecommand_set _text_widget _old_widget_state state value
       validatecommand].
  rewrite NORMAL_enabled.
  cbn [fst snd set_text_widget set_old_widget_state widget_state_set
       widget_validatecommand_set _text_widget _old_widget_state state value
       validatecommand].
  rewrite NORMAL_enabled.
  cbn [fst snd set_text_widget set_old_widget_state widget_state_set
       widget_validatecommand_set _text_widget _old_widget_state state value
       validatecommand].
  rewrite Hst. cbn. rewrite append_nil_r. reflexivity.
Qed.

Lemma text_set_run (self_handlers : Eventor.handlers_dict) (text : string)
    (notify : bool) arg (s : EntryVidget) (x : X) :
  keep_vidget run ->
  text_is_valid s text = Ret true ->
  _is_changing s = false ->
  is_state (state (_text_widget s)) = true ->
  ∃ s' x' t,
    text_set run self_handlers text notify arg false (s, x)
    = (Ret tt, (s', x'), t)
    ∧ _text s' = text
    ∧ _text_widget s'
      = {| value := text; state := state (_text_widget s);
           validatecommand := true |}
    ∧ _is_changing s' = false
    ∧ _validator s' = _validator s
    ∧ seen <$> t
      = (if notify
         then fires self_handlers TEXT_CHANGE_SOON arg
                (_text s, value (_text_widget s), true)
              ++ fires self_handlers TEXT_CHANGE_DONE arg (text, text, true)
         else []).
Proof.
  intros Hkeep Hvalid Hch Hst. unfold text_set.
  unfold bind at 1. cbn [self gets fst snd].
  rewrite Hvalid, Hch. cbn [negb].
  destruct notify; unfold when.
  - unfold bind at 1. cbn [assign modify fst snd].
    unfold bind at 1. see_notify Hkeep.
    unfold bind at 1. cbn [assign modify fst snd].
    unfold bind at 1. rewrite widget_write by exact Hst.
    unfold bind at 1. cbn [self gets fst snd _text _text_widget value set_text].
    rewrite eqb_refl. cbn [negb].
    unfold bind at 1. cbn [ret].
    unfold bind at 1. see_notify Hkeep.
    cbn [assign modify fst snd].
    eexists _, _, _. split; [reflexivity|].
    cbn [app]. rewrite app_nil_r, fmap_app, Htr, Htr0. unfold view. cbn.
    repeat split.
  - unfold bind at 1. cbn [assign modify fst snd].
    unfold bind at 1. cbn [ret].
    unfold bind at 1. cbn [assign modify fst snd].
    unfold bind at 1. rewrite widget_write by exact Hst.
    unfold bind at 1. cbn [self gets fst snd _text _text_widget value set_text].
    rewrite eqb_refl. cbn [negb].
    unfold bind at 1. cbn [ret].
    unfold bind at 1. cbn [ret assign modify fst snd].
    eexists _, _, _. split; [reflexivity|]. cbn. repeat split.
Qed.

(** The same steps on a widget whose state is not one that
    [state_set_back] accepts. *)
Lemma widget_write_fails (text : string) (s : EntryVidget) (x : X) :
  is_state (state (_text_widget s)) = false ->
  (_validator_wrapper_unmount ;;
   state_set NORMAL ;;
   tk widget_delete_all ;;
   tk (widget_insert_0 text) ;;
   state_set_back ;;
   _validator_wrapper_mount) (s, x)
  = (Raise ValueError,
     ({| _text_widget := {| value := text; state := NORMAL;
                            validatecommand := false |};
         _is_changing := _is_changing s;
         _old_widget_state := state (_text_widget s);
         _validator := _validator s;
         _text := _text s |}, x),
     [] : list (Eventor.call (EntryVidget * X) Handler)).
Proof.
  intros Hst.
  unfold _validator_wrapper_unmount, _validator_wrapper_mount, state_set,
    state_set_back, tk, assign, self.
  rewrite is_state_NORMAL. cbn [negb].
  unfold bind, modify, gets, raise, ret.
  cbn [fst snd set_text_widget set_old_widget_state widget_state_set
       widget_validatecommand_set _text_widget _old_widget_state state value
       validatecommand].
  unfold widget_insert_0, widget_delete_all.
  cbn [fst snd set_text_widget set_old_widget_state widget_state_set
       widget_validatecommand_set _text_widget _old_widget_state state value
       validatecommand].
  rewrite NORMAL_enabled.
  cbn [fst snd set_text_widget set_old_widget_state widget_state_set
       widget_validatecommand_set _text_widget _old_widget_state state value
       validatecommand].
  rewrite NORMAL_enabled.
  cbn [fst snd set_text_widget set_old_widget_state widget_state_set
       widget_validatecommand_set _text_widget _old_widget_state state value
       validatecommand].
  rewrite Hst. cbn. rewrite append_nil_r. reflexivity.
Qed.

Lemma text_set_changing (self_handlers : Eventor.handlers_dict) (text : string)
    (notify : bool) arg (is_validator b : bool) (s : EntryVidget) (x : X) :
  _is_changing s = true ->
  text_is_valid s text = Ret b ->
  text_set run self_handlers text notify arg is_validator (s, x)
  = (Raise ValueError, (s, x), []).
Proof.
  intros Hch Hv. unfold text_set. unfold bind at 1. cbn [self gets fst snd].
  rewrite Hv, Hch. destruct b; reflexivity.
Qed.

Lemma text_set_stops (self_handlers : Eventor.handlers_dict) (text : string)
    (notify : bool) arg (s : EntryVidget) (x : X) :
  keep_vidget run ->
  text_is_valid s text = Ret true ->
  _is_changing s = false ->
  is_state (state (_text_widget s)) = false ->
  ∃ s' x' t,
    text_set run self_handlers text notify arg false (s, x)
    = (Raise ValueError, (s', x'), t)
    ∧ _text s' = text
    ∧ _text_widget s'
      = {| value := text; state := NORMAL; validatecommand := false |}
    ∧ _is_changing s' = true
    ∧ _validator s' = _validator s
    ∧ seen <$> t
      = (if notify
         then fires self_handlers TEXT_CHANGE_SOON arg
                (_text s, value (_text_widget s), true)
         else []).
Proof.
  intros Hkeep Hvalid Hch Hst. unfold text_set.
  unfold bind at 1. cbn [self gets fst snd].
  rewrite Hvalid, Hch. cbn [negb].
  destruct notify; unfold when.
  - unfold bind at 1. cbn [assign modify fst snd].
    unfold bind at 1. see_notify Hkeep.
    unfold bind at 1. cbn [assign modify fst snd].
    unfold bind at 1. rewrite widget_write_fails by exact Hst.
    eexists _, _, _. split; [reflexivity|].
    cbn [app]. rewrite app_nil_r, Htr. unfold view. cbn.
    repeat split.
  - unfold bind at 1. cbn [assign modify fst snd].
    unfold bind at 1. cbn [ret].
    unfold bind at 1. cbn [assign modify fst snd].
    unfold bind at 1. rewrite widget_write_fails by exact Hst.
    eexists _, _, _. split; [reflexivity|]. cbn. repeat split.
Qed.

(** [text_set] called by the validator wrapper: the Tk widget is left to
    Tk. *)
Lemma text_set_by_validator (self_handlers : Eventor.handlers_dict)
    (text : string) (notify : bool) arg (s : EntryVidget) (x : X) :
  keep_vidget run ->
  text_is_valid s text = Ret true ->
  _is_changing s = false ->
  ∃ x' t,
    text_set run self_handlers text notify arg true (s, x)
    = (Ret tt, (set_text text s, x'), t)
    ∧ seen <$> t
      = (if notify
         then fires self_handlers TEXT_CHANGE_SOON arg
                (_text s, value (_text_widget s), true)
              ++ fires self_handlers TEXT_CHANGE_DONE arg
                   (text, value (_text_widget s), true)
         else []).
Proof.
  intros Hkeep Hvalid Hch. unfold text_set.
  unfold bind at 1. cbn [self gets fst snd].
  rewrite Hvalid, Hch. cbn [negb].
  destruct notify; unfold when.
  - unfold bind at 1. cbn [assign modify fst snd].
    unfold bind at 1. see_notify Hkeep.
    unfold bind at 1. cbn [assign modify fst snd].
    unfold bind at 1. cbn [ret].
    unfold bind at 1. cbn [self gets fst snd].
    unfold bind at 1.
    match goal with
    | |- context [if ?c then ret tt else ret tt] => destruct c
    end; cbn [ret];
      (unfold bind at 1; see_notify Hkeep; cbn [assign modify fst snd];
       eexists _, _; split;
       [destruct s; cbn in *; subst; reflexivity|];
       cbn [app]; rewrite app_nil_r, fmap_app, Htr, Htr0; unfold view; cbn;
       reflexivity).
  - unfold bind at 1. cbn [assign modify fst snd].
    unfold bind at 1. cbn [ret].
    unfold bind at 1. cbn [assign modify fst snd].
    unfold bind at 1. cbn [ret].
    unfold bind at 1. cbn [self gets fst snd].
    unfold bind at 1.
    match goal with
    | |- context [if ?c then ret tt else ret tt] => destruct c
    end; cbn [ret];
      (unfold bind at 1; cbn [ret assign modify fst snd];
       eexists _, _; split;
       [destruct s; cbn in *; subst; reflexivity|reflexivity]).
Qed.

End Laws.
Lemma run_idle_keeps_entry {X : Type} :
  keep_vidget (X:=X) (Samples.run_idle (W:=EntryVidget * X)).
Proof. intros h a s x. exists x. reflexivity. Qed.

(** X13. [text_set] with a text the validator accepts, on an entry that is
    not changing and whose widget is in one of the states normal,
    disabled and active (handlers leaving the entry alone): the call
    returns, [text()] and the Tk widget hold the new text, the widget is
    back in the state it was in, also when that state is disabled, the
    validator wrapper is mounted and the changing flag is off. The
    handlers of [TEXT_CHANGE_SOON] are shown the old text and those of
    [TEXT_CHANGE_DONE] the new one, both with the changing flag on; with
    [notify=False] no handler is called. *)
Theorem text_set_sets_text :
  ∀ (X Handler : Type) (Heq : EqDecision Handler)
    (run : Handler -> option Eventor.payload -> EntryVidget * X
           -> outcome unit * (EntryVidget * X))
    (self_handlers : Eventor.handlers_dict) (new_text : string)
    (notify : bool) (notify_arg : pyval) (s : EntryVidget) (x : X),
    keep_vidget run ->
    text_is_valid s new_text = Ret true ->
    is_changing s = false ->
    is_state (state (_text_widget s)) = true ->
    ∃ s' x' t,
      text_set run self_handlers new_text notify notify_arg false (s, x)
      = (Ret tt, (s', x'), t)
      ∧ text s' = new_text
      ∧ value (_text_widget s') = new_text
      ∧ state (_text_widget s') = state (_text_widget s)
      ∧ validatecommand (_text_widget s') = true
      ∧ is_changing s' = false
      ∧ seen <$> t
        = (if notify
           then fires self_handlers TEXT_CHANGE_SOON notify_arg
                  (text s, value (_text_widget s), true)
                ++ fires self_handlers TEXT_CHANGE_DONE notify_arg
                     (new_text, new_text, true)
           else []).
Proof.
  intros X Handler Heq run self_handlers new_text notify notify_arg s x Hkeep
    Hvalid Hch Hst.
  destruct (text_set_run run self_handlers new_text notify notify_arg s x Hkeep
              Hvalid Hch Hst) as (s' & x' & t & E & Ht & Hw & Hc & _ & Htr).
  exists s', x', t. rewrite Hw. cbn. repeat split; assumption.
Qed.

Lemma text_set_sets_text_witness :
  let s := Samples.plain_entry "disabled" in
  ∃ s' x' t,
    text_set Samples.run_idle Samples.text_handlers "new" true PNone false
      (s, tt)
    = (Ret tt, (s', x'), t)
    ∧ text s' = "new"%string
    ∧ value (_text_widget s') = "new"%string
    ∧ state (_text_widget s') = "disabled"%string.
Proof.
  intros s.
  destruct (text_set_sets_text unit nat _ Samples.run_idle
              Samples.text_handlers "new" true PNone s tt)
    as (s' & x' & t & E & Ht & Hv & Hst & _).
  - apply run_idle_keeps_entry.
  - reflexivity.
  - reflexivity.
  - vm_compute. reflexivity.
  - exists s', x', t. repeat split; assumption.
Defined.

(** X14. [text_set] puts the widget in the normal state to write the text
    and then puts the old state back, and [state_set_back] refuses a state
    that is not normal, disabled or active. So on an entry whose widget is
    in another state (text accepted, no change in progress, handlers
    leaving the entry alone) the call raises [ValueError] after the text
    has been written: [text()] and the widget hold the new text, the widget
    is in the normal state with the validator wrapper unmounted, only the
    handlers of [TEXT_CHANGE_SOON] have been called, and the changing flag
    is on, so that every later [text_set] raises [ValueError] and changes
    nothing. *)
Theorem text_set_on_unlisted_state :
  ∀ (X Handler : Type) (Heq : EqDecision Handler)
    (run : Handler -> option Eventor.payload -> EntryVidget * X
           -> outcome unit * (EntryVidget * X))
    (self_handlers : Eventor.handlers_dict) (new_text : string)
    (notify : bool) (notify_arg : pyval) (s : EntryVidget) (x : X),
    keep_vidget run ->
    text_is_valid s new_text = Ret true ->
    is_changing s = false ->
    is_state (state (_text_widget s)) = false ->
    ∃ s' x' t,
      text_set run self_handlers new_text notify notify_arg false (s, x)
      = (Raise ValueError, (s', x'), t)
      ∧ text s' = new_text
      ∧ _text_widget s'
        = {| value := new_text; state := NORMAL; validatecommand := false |}
      ∧ is_changing s' = true
      ∧ seen <$> t
        = (if notify
           then fires self_handlers TEXT_CHANGE_SOON notify_arg
                  (text s, value (_text_widget s), true)
           else [])
      ∧ ∀ text' notify' notify_arg' is_validator' b,
          text_is_valid s text' = Ret b ->
          text_set run self_handlers text' notify' notify_arg' is_validator'
            (s', x')
          = (Raise ValueError, (s', x'), []).
Proof.
  intros X Handler Heq run self_handlers new_text notify notify_arg s x Hkeep
    Hvalid Hch Hst.
  destruct (text_set_stops run self_handlers new_text notify notify_arg s x
              Hkeep Hvalid Hch Hst)
    as (s' & x' & t & E & Ht & Hw & Hc & Hval & Htr).
  exists s', x', t. split; [exact E|]. split; [exact Ht|]. split; [exact Hw|].
  split; [exact Hc|]. split; [exact Htr|].
  intros text' notify' notify_arg' is_validator' b Hb.
  apply (text_set_changing run self_handlers text' notify' notify_arg'
           is_validator' b s' x' Hc).
  unfold text_is_valid in *. now rewrite Hval.
Qed.

Lemma text_set_on_unlisted_state_witness :
  let s := Samples.plain_entry "readonly" in
  ∃ s' x' t,
    text_set Samples.run_idle Samples.text_handlers "new" true PNone false
      (s, tt)
    = (Raise ValueError, (s', x'), t)
    ∧ text s' = "new"%string
    ∧ is_changing s' = true
    ∧ text_set Samples.run_idle Samples.text_handlers "newer" true PNone false
        (s', x')
      = (Raise ValueError, (s', x'), []).
Proof.
  intros s.
  destruct (text_set_on_unlisted_state unit nat _ Samples.run_idle
              Samples.text_handlers "new" true PNone s tt)
    as (s' & x' & t & E & Ht & _ & Hc & _ & Hlater).
  - apply run_idle_keeps_entry.
  - reflexivity.
  - reflexivity.
  - vm_compute. reflexivity.
  - exists s', x', t. split; [exact E|]. split; [exact Ht|].
    split; [exact Hc|]. apply (Hlater "newer"%string true PNone false true).
    reflexivity.
Defined.

(** X15. The validator wrapper that Tk calls at a key stroke, on an entry
    that is not changing: when the validator accepts the new value
    (handlers leaving the entry alone) the wrapper answers [True],
    [text()] is the new value, the Tk widget and the changing flag are as
    they were, and the handlers of [TEXT_CHANGE_SOON] and then of
    [TEXT_CHANGE_DONE] have been called, the second shown the new text
    while the widget still holds the old one; when the validator raises,
    the wrapper answers [False] and nothing is changed. On an entry that
    is changing the wrapper raises [ValueError]. *)
Theorem validator_wrapper_accepts :
  ∀ (X Handler : Type) (Heq : EqDecision Handler)
    (run : Handler -> option Eventor.payload -> EntryVidget * X
           -> outcome unit * (EntryVidget * X))
    (self_handlers : Eventor.handlers_dict) (new_value : string)
    (validator : string -> outcome bool) (s : EntryVidget) (x : X),
    _validator s = Some validator ->
    (keep_vidget run ->
     is_changing s = false ->
     validator new_value = Ret true ->
     ∃ s' x' t,
       validator_wrapper run self_handlers new_value (s, x)
       = (Ret true, (s', x'), t)
       ∧ text s' = new_value
       ∧ _text_widget s' = _text_widget s
       ∧ is_changing s' = false
       ∧ seen <$> t
         = fires self_handlers TEXT_CHANGE_SOON PNone
             (text s, value (_text_widget s), true)
           ++ fires self_handlers TEXT_CHANGE_DONE PNone
                (new_value, value (_text_widget s), true))
    ∧ (∀ e, is_changing s = false ->
         validator new_value = Raise e ->
         validator_wrapper run self_handlers new_value (s, x)
         = (Ret false, (s, x), []))
    ∧ (is_changing s = true ->
       validator_wrapper run self_handlers new_value (s, x)
       = (Raise ValueError, (s, x), [])).
Proof.
  intros X Handler Heq run self_handlers new_value validator s x Hval.
  split; [|split].
  - intros Hkeep Hch Hok.
    assert (Hvalid : text_is_valid s new_value = Ret true).
    { unfold text_is_valid. now rewrite Hval. }
    destruct (text_set_by_validator run self_handlers new_value true PNone s x
                Hkeep Hvalid Hch) as (x' & t & E & Htr).
    unfold validator_wrapper. unfold bind at 1. cbn [self gets fst snd].
    unfold is_changing in Hch. rewrite Hch, Hval, Hok. unfold when.
    unfold bind at 1. unfold bind at 1. cbn [self gets fst snd].
    rewrite Hch. unfold bind at 1. cbn [ret]. unfold bind at 1. rewrite E.
    unfold bind at 1. cbn [self gets fst snd set_text _is_changing].
    rewrite Hch. cbn [ret].
    eexists _, _, _. split; [reflexivity|].
    cbn [app]. rewrite !app_nil_r. repeat split; [exact Hch|exact Htr].
  - intros e Hch Hraise. unfold validator_wrapper.
    unfold bind at 1. cbn [self gets fst snd].
    unfold is_changing in Hch. rewrite Hch, Hval, Hraise. reflexivity.
  - intros Hch. unfold validator_wrapper.
    unfold bind at 1. cbn [self gets fst snd].
    unfold is_changing in Hch. now rewrite Hch.
Qed.

Lemma validator_wrapper_accepts_witness :
  let s := Samples.plain_entry "normal" in
  ∃ s' x' t,
    validator_wrapper Samples.run_idle Samples.text_handlers "older" (s, tt)
    = (Ret true, (s', x'), t)
    ∧ text s' = "older"%string
    ∧ value (_text_widget s') = "old"%string.
Proof.
  intros s.
  destruct (validator_wrapper_accepts unit nat _ Samples.run_idle
              Samples.text_handlers "older" _DEFAULT_VALIDATOR s tt eq_refl)
    as (H & _).
  destruct H as (s' & x' & t & E & Ht & Hw & _).
  - apply run_idle_keeps_entry.
  - reflexivity.
  - reflexivity.
  - exists s', x', t. split; [exact E|]. split; [exact Ht|]. now rewrite Hw.
Defined.

End EntryLaws.

(** ** tkinterutil/menu.py: adding and removing items in any tree *)

Module MenuTreeLaws.
Import MenuTree.

Section Laws.
Context {T : Type}.

Lemma eqb_false_ne (a b : string) : a ≠ b -> PyStr.eqb a b = false.
Proof. intros Hne. unfold PyStr.eqb. now apply bool_decide_eq_false. Qed.

Lemma od_contains_get d k :
  od_contains d k = match od_get d k with Some _ => true | None => false end.
Proof.
  unfold od_contains. destruct (od_get d k) eqn:E.
  - apply bool_decide_eq_true. eauto.
  - apply bool_decide_eq_false. intros [x Hx]. discriminate.
Qed.

Lemma item_is_menu_run (self : MenuTree) pid i :
  od_get (_id_to_info self) pid = Some i ->
  item_is_menu (T:=T) (Some pid) self
  = (Ret (is_Menu (INFO_K_ITEM_WIDGET i)), self, []).
Proof.
  intros Hg. unfold item_is_menu, info_of, bind, get, ret. now rewrite Hg.
Qed.

Lemma item_is_menu_missing (self : MenuTree) pid :
  od_get (_id_to_info self) pid = None ->
  item_is_menu (T:=T) (Some pid) self = (Raise ValueError, self, []).
Proof.
  intros Hg. unfold item_is_menu, info_of, bind, get, ret. now rewrite Hg.
Qed.

(** The two readings of the last child index change nothing. *)
Lemma item_child_index_last_reads (self : MenuTree) pid :
  ∃ o, item_child_index_last (T:=T) pid self = (o, self, []).
Proof.
  unfold item_child_index_last, item_child_indexes, item_is_menu, info_of,
    bind, get, ret, raise.
  destruct (od_get (_id_to_info self) pid) as [i|] eqn:Hg; [|eauto].
  destruct (is_Menu (INFO_K_ITEM_WIDGET i)) eqn:Hm; cbn; [|eauto].
  rewrite Hg. cbn. rewrite Hm. cbn.
  destruct (child_indexes_of pid (od_values (_id_to_info self))); cbn; eauto.
Qed.

Lemma item_child_index_last_internal_reads (self : MenuTree) pid :
  ∃ o, _item_child_index_last_internal (T:=T) pid self = (o, self, []).
Proof.
  unfold _item_child_index_last_internal, info_of, tk_index_END, bind, get,
    gets, ret, raise.
  destruct (od_get (_id_to_info self) pid) as [i|]; [|eauto].
  destruct (INFO_K_ITEM_WIDGET i); cbn; eauto.
Qed.


(** When the last child index can be read, every child of the menu has an
    index. *)
Lemma item_child_index_last_Ret (self : MenuTree) pid last :
  result (item_child_index_last (T:=T) pid self) = Ret last ->
  ∃ idxs, child_indexes_of pid (od_values (_id_to_info self)) = Ret idxs.
Proof.
  unfold item_child_index_last, item_child_indexes, item_is_menu, info_of,
    bind, get, ret, raise, result.
  destruct (od_get (_id_to_info self) pid) as [i|] eqn:Hg; [|discriminate].
  destruct (is_Menu (INFO_K_ITEM_WIDGET i)) eqn:Hm; cbn; [|discriminate].
  rewrite Hg. cbn. rewrite Hm. cbn.
  destruct (child_indexes_of pid (od_values (_id_to_info self))); cbn;
    [eauto|discriminate].
Qed.


Lemma od_get_fmap (f : info -> info) (d : list (string * info)) k :
  od_get ((fun kv => (kv.1, f kv.2)) <$> d) k = f <$> od_get d k.
Proof.
  unfold od_get. induction d as [|[k' i] d IH]; [reflexivity|].
  cbn [fmap list_fmap List.find fst snd].
  destruct (PyStr.eqb k' k); [reflexivity|]. exact IH.
Qed.




Lemma menu_run (self : MenuTree) pid pi m :
  od_get (_id_to_info self) pid = Some pi ->
  INFO_K_ITEM_WIDGET pi = Menu m ->
  menu (T:=T) (Some pid) self = (Ret m, self, []).
Proof.
  intros Hg Hw. unfold menu, info_of, bind, get, ret.
  rewrite Hg. cbn. now rewrite Hw.
Qed.











Lemma alter_at {A} (f : A -> A) (l : list A) (m : nat) (x : A) :
  l !! m = Some x -> alter f m l = <[m := f x]> l.
Proof.
  revert m. induction l as [|y l IH]; intros [|m] Hl; try discriminate.
  - inversion Hl; subst. reflexivity.
  - cbn. f_equal. now apply IH.
Qed.



(** Removal of an item without children. *)
Lemma set_id_to_info_eta (self : MenuTree) :
  set_id_to_info (_id_to_info self) self = self.
Proof. now destruct self. Qed.

Lemma od_keys_in (d : list (string * info)) k :
  k ∈ od_keys d ↔ is_Some (od_get d k).
Proof.
  unfold od_keys, od_get. induction d as [|[k' i] d IH].
  - split; [intros Hin; inversion Hin|intros [x Hx]; discriminate].
  - rewrite fmap_cons. cbn [fst List.find]. unfold PyStr.eqb.
    rewrite elem_of_cons. destruct (bool_decide (k' = k)) eqn:Hk.
    + apply bool_decide_eq_true in Hk. subst. split; [eauto|now left].
    + apply bool_decide_eq_false in Hk. rewrite IH.
      split; [intros [->|H]; [contradiction|exact H]|now right].
Qed.

Lemma replace_absent (d : list (string * info)) k v :
  k ∉ d.*1 ->
  (fun kv => if bool_decide (kv.1 = k) then (k, v) else kv) <$> d = d.
Proof.
  induction d as [|[k2 i2] d IH]; intros Hk; [reflexivity|].
  rewrite fmap_cons in Hk. cbn [fst] in Hk.
  apply not_elem_of_cons in Hk. destruct Hk as (Hne & Hk).
  rewrite fmap_cons. cbn [fst].
  rewrite bool_decide_eq_false_2 by congruence.
  f_equal. now apply IH.
Qed.

(** In a dict, writing the value of a key that is there changes the entry
    of that key alone. *)
Lemma od_set_there (d : list (string * info)) k v :
  NoDup (od_keys d) ->
  is_Some (od_get d k) ->
  od_set d k v
  = (fun kv => if bool_decide (kv.1 = k) then (k, v) else kv) <$> d.
Proof.
  unfold od_keys. induction d as [|[k' i] d IH]; intros Hnd Hg.
  - destruct Hg as [x Hx]. discriminate.
  - rewrite fmap_cons in Hnd. cbn [fst] in Hnd.
    apply NoDup_cons in Hnd. destruct Hnd as (Hk' & Hnd).
    cbn [od_set]. rewrite fmap_cons. cbn [fst]. unfold PyStr.eqb.
    destruct (bool_decide (k' = k)) eqn:Hk.
    + apply bool_decide_eq_true in Hk. subst k'. f_equal.
      symmetry. now apply replace_absent.
    + f_equal. apply IH; [exact Hnd|].
      unfold od_get in *. cbn [List.find fst] in Hg. unfold PyStr.eqb in Hg.
      now rewrite Hk in Hg.
Qed.

Lemma lowered_PID pid j i : INFO_K_PID (lowered pid j i) = INFO_K_PID i.
Proof.
  unfold lowered. destruct (bool_decide _); [|reflexivity].
  destruct (INFO_K_ITEM_INDEX i); [|reflexivity].
  destruct (j <? z); reflexivity.
Qed.

Lemma lowered_index_Some pid j i :
  is_Some (INFO_K_ITEM_INDEX i) ->
  is_Some (INFO_K_ITEM_INDEX (lowered pid j i)).
Proof.
  intros [x Hx]. unfold lowered. destruct (bool_decide _); [|eauto].
  rewrite Hx. destruct (j <? x); cbn; eauto.
Qed.

Lemma od_get_elem (d : list (string * info)) k v :
  od_get d k = Some v -> (k, v) ∈ d.
Proof.
  unfold od_get. induction d as [|[k' i] d IH]; [discriminate|].
  cbn [List.find fst]. unfold PyStr.eqb.
  destruct (bool_decide (k' = k)) eqn:Hk.
  - apply bool_decide_eq_true in Hk. subst. cbn. intros Hv. inversion Hv.
    apply elem_of_cons. now left.
  - intros Hv. apply elem_of_cons. right. now apply IH.
Qed.

Lemma od_get_unique (d : list (string * info)) k v :
  NoDup (od_keys d) -> (k, v) ∈ d -> od_get d k = Some v.
Proof.
  unfold od_keys, od_get. induction d as [|[k' i] d IH]; intros Hnd Hin.
  - inversion Hin.
  - rewrite fmap_cons in Hnd. cbn [fst] in Hnd.
    apply NoDup_cons in Hnd. destruct Hnd as (Hk' & Hnd).
    cbn [List.find fst]. unfold PyStr.eqb.
    apply elem_of_cons in Hin. destruct Hin as [Heq|Hin].
    + inversion Heq; subst. now rewrite bool_decide_eq_true_2.
    + rewrite bool_decide_eq_false_2.
      * now apply IH.
      * intros ->. apply Hk'.
        change k with ((k, v).1). now apply list_elem_of_fmap_2.
Qed.

Lemma fmap_ext_elem {A B} (f g : A -> B) (l : list A) :
  (∀ x, x ∈ l -> f x = g x) -> f <$> l = g <$> l.
Proof.
  induction l as [|x l IH]; intros Hfg; [reflexivity|].
  rewrite !fmap_cons. f_equal.
  - apply Hfg. apply elem_of_cons. now left.
  - apply IH. intros y Hy. apply Hfg. apply elem_of_cons. now right.
Qed.

Lemma child_indexes_Forall pid (d : list (string * info)) idxs :
  child_indexes_of pid (snd <$> d) = Ret idxs ->
  Forall (fun kv => INFO_K_PID kv.2 = Some pid ->
                    is_Some (INFO_K_ITEM_INDEX kv.2)) d.
Proof.
  revert idxs. induction d as [|[k i] d IH]; intros idxs Hc; [constructor|].
  rewrite fmap_cons in Hc. cbn [child_indexes_of snd] in Hc.
  destruct (child_indexes_of pid (snd <$> d)) as [l|] eqn:Hrest;
    [|discriminate].
  constructor; [|now apply (IH l)].
  cbn. intros Hp. rewrite (bool_decide_eq_true_2 _ Hp) in Hc.
  destruct (INFO_K_ITEM_INDEX i); [eauto|discriminate].
Qed.

Section Loop.
Variable pid : option string.
Variable j : Z.
Variable id : string.

(** The info dicts the loop meets: a dict, in which no item is a child of
    the item being removed and every child of its parent has an index. *)
Local Abbreviation good :=
  (fun c : list (string * info) =>
     NoDup (od_keys c)
     ∧ Forall (fun kv => INFO_K_PID kv.2 ≠ Some id) c
     ∧ Forall (fun kv => INFO_K_PID kv.2 = pid ->
                         is_Some (INFO_K_ITEM_INDEX kv.2)) c).

(** The entry of the key [x], and the entries of the keys of [l], have
    been through the loop. *)
Local Abbreviation upd1 :=
  (fun (x : string) (c : list (string * info)) =>
     (fun kv => if bool_decide (kv.1 = x)
                then (kv.1, lowered pid j kv.2) else kv) <$> c).

Local Abbreviation updl :=
  (fun (l : list string) (c : list (string * info)) =>
     (fun kv => if bool_decide (kv.1 ∈ l)
                then (kv.1, lowered pid j kv.2) else kv) <$> c).

Lemma upd1_keys x c : od_keys (upd1 x c) = od_keys c.
Proof.
  unfold od_keys. cbv beta. rewrite <- list_fmap_compose.
  apply fmap_ext_elem. intros [k v] _. cbn.
  destruct (bool_decide (k = x)); reflexivity.
Qed.

Lemma upd1_good x c : good c -> good (upd1 x c).
Proof.
  intros (Hnd & Hleaf & Hidx). split; [now rewrite upd1_keys|]. split.
  - cbv beta. apply Forall_fmap. eapply Forall_impl; [exact Hleaf|].
    intros [k v] Hv. cbn in *. destruct (bool_decide (k = x)); cbn; [|exact Hv].
    now rewrite lowered_PID.
  - cbv beta. apply Forall_fmap. eapply Forall_impl; [exact Hidx|].
    intros [k v] Hv. cbn in *. destruct (bool_decide (k = x)); cbn; [|exact Hv].
    rewrite lowered_PID. intros Hp. now apply lowered_index_Some, Hv.
Qed.

Lemma upd1_absent x c : od_get c x = None -> upd1 x c = c.
Proof.
  intros Hg. cbv beta. rewrite <- (list_fmap_id c) at 2.
  apply fmap_ext_elem. intros [k v] Hin. cbn.
  rewrite bool_decide_eq_false_2; [reflexivity|].
  intros ->. assert (Hk : x ∈ od_keys c).
  { unfold od_keys. change x with ((x, v).1). now apply list_elem_of_fmap_2. }
  apply od_keys_in in Hk. destruct Hk as [y Hy]. congruence.
Qed.

Lemma od_set_same (c : list (string * info)) x xi :
  NoDup (od_keys c) -> od_get c x = Some xi -> od_set c x xi = c.
Proof.
  intros Hnd Hg. rewrite od_set_there by eauto.
  rewrite <- (list_fmap_id c) at 2.
  apply fmap_ext_elem. intros [k v] Hin. cbn.
  destruct (bool_decide (k = x)) eqn:Hk; [|reflexivity].
  apply bool_decide_eq_true in Hk. subst k.
  rewrite (od_get_unique c x v Hnd Hin) in Hg. now inversion Hg.
Qed.

Lemma upd1_od_set x c xi :
  NoDup (od_keys c) -> od_get c x = Some xi ->
  od_set c x (lowered pid j xi) = upd1 x c.
Proof.
  intros Hnd Hg. rewrite od_set_there by eauto. cbv beta.
  apply fmap_ext_elem. intros [k v] Hin. cbn.
  destruct (bool_decide (k = x)) eqn:Hk; [|reflexivity].
  apply bool_decide_eq_true in Hk. subst k.
  rewrite (od_get_unique c x v Hnd Hin) in Hg. now inversion Hg.
Qed.

Lemma updl_step x l c :
  x ∉ l -> updl l (upd1 x c) = updl (x :: l) c.
Proof.
  intros Hx. cbv beta. rewrite <- list_fmap_compose.
  apply fmap_ext_elem. intros [k v] _. cbn.
  destruct (decide (k = x)) as [->|Hne].
  - rewrite (bool_decide_eq_true_2 (x = x)) by reflexivity. cbn.
    rewrite (bool_decide_eq_false_2 (x ∈ l)) by exact Hx.
    rewrite bool_decide_eq_true_2; [reflexivity|]. apply elem_of_cons. now left.
  - rewrite (bool_decide_eq_false_2 (k = x)) by exact Hne. cbn.
    destruct (decide (k ∈ l)) as [Hin|Hnin].
    + rewrite (bool_decide_eq_true_2 (k ∈ l)) by exact Hin.
      rewrite bool_decide_eq_true_2; [reflexivity|].
      apply elem_of_cons. now right.
    + rewrite (bool_decide_eq_false_2 (k ∈ l)) by exact Hnin.
      rewrite bool_decide_eq_false_2; [reflexivity|].
      intros Hc. apply elem_of_cons in Hc. destruct Hc; contradiction.
Qed.

Lemma updl_all c : updl (od_keys c) c = (fun kv => (kv.1, lowered pid j kv.2)) <$> c.
Proof.
  cbv beta. apply fmap_ext_elem. intros [k v] Hin. cbn.
  rewrite bool_decide_eq_true_2; [reflexivity|].
  unfold od_keys. change k with ((k, v).1). now apply list_elem_of_fmap_2.
Qed.

(** A loop whose body does to the entry of its key what [lowered] says. *)
Lemma loop_passes (body : string -> M MenuTree T unit) (self1 : MenuTree) :
  (∀ x c, good c ->
     body x (set_id_to_info c self1)
     = (Ret tt, set_id_to_info (upd1 x c) self1, [])) ->
  ∀ l c, NoDup l -> good c ->
    for_each l body (set_id_to_info c self1)
    = (Ret tt, set_id_to_info (updl l c) self1, []).
Proof.
  intros Hstep l. induction l as [|x l IH]; intros c Hnd Hgood.
  - cbn [for_each]. unfold ret. cbv beta. f_equal. f_equal. f_equal.
    rewrite <- (list_fmap_id c) at 1. apply fmap_ext_elem.
    intros [k v] _. cbn. rewrite bool_decide_eq_false_2; [reflexivity|].
    intros Hin. inversion Hin.
  - apply NoDup_cons in Hnd. destruct Hnd as (Hx & Hnd).
    cbn [for_each]. unfold bind. rewrite (Hstep x c Hgood).
    rewrite (IH (upd1 x c) Hnd (upd1_good x c Hgood)).
    now rewrite updl_step.
Qed.

End Loop.

End Laws.

(** X16. [add_item] makes its checks before it calls the widget factory:
    when the parent id is not in the tree, when the parent is not a menu,
    when the full id of the item is already in the tree, when the
    bookkeeping and the Tk menu disagree on the last child index of the
    parent, and when an index is given that is negative or more than one
    past the last child index, the call raises [ValueError], the factory
    is not called and the tree is as it was. *)
Theorem add_item_refuses_before_the_factory :
  ∀ (T : Type) (widget_factory : nat -> Z -> string -> M MenuTree T item_widget)
    (pid id : string) (id_is_full : bool) (id_sep : option string)
    (index : option Z) (label : option string) (self : MenuTree),
    let full_id :=
      if id_is_full then id
      else _id_to_full self id pid (default (_id_sep self) id_sep) in
    let refused :=
      add_item widget_factory pid id id_is_full id_sep index label self
      = (Raise ValueError, self, []) in
    (od_get (_id_to_info self) pid = None -> refused)
    ∧ (∀ i, od_get (_id_to_info self) pid = Some i ->
          is_Menu (INFO_K_ITEM_WIDGET i) = false -> refused)
    ∧ (∀ i, od_get (_id_to_info self) pid = Some i ->
          is_Menu (INFO_K_ITEM_WIDGET i) = true ->
          od_contains (_id_to_info self) full_id = true -> refused)
    ∧ (∀ i last_index last_index_internal,
          od_get (_id_to_info self) pid = Some i ->
          is_Menu (INFO_K_ITEM_WIDGET i) = true ->
          od_contains (_id_to_info self) full_id = false ->
          result (item_child_index_last (T:=T) pid self) = Ret last_index ->
          result (_item_child_index_last_internal (T:=T) pid self)
          = Ret last_index_internal ->
          last_index ≠ last_index_internal
          ∨ (∃ j, index = Some j ∧ (j < 0 ∨ last_index + 1 < j)) ->
          refused).
Proof.
  intros T widget_factory pid id id_is_full id_sep index label self full_id
    refused. subst refused. split; [|split; [|split]].
  - intros Hg. unfold add_item. unfold bind at 1.
    now rewrite item_is_menu_missing.
  - intros i Hg Hm. unfold add_item. unfold bind at 1.
    rewrite (item_is_menu_run self pid i Hg), Hm. reflexivity.
  - intros i Hg Hm Hex. unfold add_item. unfold bind at 1.
    rewrite (item_is_menu_run self pid i Hg), Hm. cbn [negb].
    unfold bind at 1. cbn [get]. unfold bind at 1. unfold item_exists, gets.
    fold full_id. rewrite Hex. reflexivity.
  - intros i last_index last_index_internal Hg Hm Hex Hl Hli Hbad.
    unfold add_item. unfold bind at 1.
    rewrite (item_is_menu_run self pid i Hg), Hm. cbn [negb].
    unfold bind at 1. cbn [get]. unfold bind at 1. unfold item_exists, gets.
    fold full_id. rewrite Hex. cbn [negb].
    destruct (item_child_index_last_reads (T:=T) self pid) as (o1 & E1).
    destruct (item_child_index_last_internal_reads (T:=T) self pid)
      as (o2 & E2).
    rewrite E1 in Hl. rewrite E2 in Hli. unfold result in *. cbn in Hl, Hli.
    subst o1 o2.
    unfold bind at 1. rewrite E1. unfold bind at 1. rewrite E2.
    destruct (Z.eqb_spec last_index last_index_internal) as [Heq|Hne];
      cbn [negb]; [|reflexivity].
    destruct Hbad as [Hbad|(j & -> & Hj)]; [contradiction|].
    cbn [default from_option]. unfold Datatypes.id.
    destruct (Z.leb_spec 0 j); destruct (Z.leb_spec j (last_index + 1));
      cbn [andb negb]; try reflexivity; exfalso; lia.
Qed.

Lemma add_item_refuses_before_the_factory_witness :
  add_command (T:=unit) "/File" "Exit" 0 false None None None init
  = (Raise ValueError, init, []).
Proof.
  unfold add_command.
  apply (add_item_refuses_before_the_factory unit _ "/File" "Exit" false None
           None None init).
  reflexivity.
Defined.



(** X18. [remove_item] refuses the top menu and an id that is not in the
    tree with [ValueError], leaving the tree as it was. For an item that
    has no children (the tree a dict, the parent a menu, each child of the
    parent with an index), given room for one call, it returns: the entry
    at the index of the item is deleted from the Tk menu of the parent,
    the item is taken out of the bookkeeping, each child of the parent
    that came after it has its index lowered by one, and every other item
    is as it was. *)
Theorem remove_item_without_children :
  ∀ (T : Type) (depth : nat) (id : string) (self : MenuTree),
    (id = INFO_K_ID_V_TOP ->
     remove_item (T:=T) (S depth) id self = (Raise ValueError, self, []))
    ∧ (od_get (_id_to_info self) id = None ->
       remove_item (T:=T) (S depth) id self = (Raise ValueError, self, []))
    ∧ (∀ (i : info) (p : string) (j : Z) (pinfo : info) (m : nat)
         (es : list menu_entry) (last : Z),
          id ≠ INFO_K_ID_V_TOP ->
          od_get (_id_to_info self) id = Some i ->
          INFO_K_PID i = Some p ->
          INFO_K_ITEM_INDEX i = Some j ->
          0 <= j ->
          od_get (_id_to_info self) p = Some pinfo ->
          INFO_K_ITEM_WIDGET pinfo = Menu m ->
          tk_menus self !! m = Some es ->
          NoDup (od_keys (_id_to_info self)) ->
          Forall (fun kv => INFO_K_PID kv.2 ≠ Some id) (_id_to_info self) ->
          result (item_child_index_last (T:=T) p self) = Ret last ->
          ∃ self',
            remove_item (T:=T) (S depth) id self = (Ret tt, self', [])
            ∧ _id_to_info self'
              = od_del ((fun kv => (kv.1, lowered (Some p) j kv.2))
                        <$> _id_to_info self) id
            ∧ tk_menus self'
              = <[m := take (Z.to_nat j) es ++ drop (S (Z.to_nat j)) es]>
                  (tk_menus self)).
Proof.
  intros T depth id self. split; [|split].
  - intros ->. reflexivity.
  - intros Hg. cbn [remove_item].
    destruct (PyStr.eqb id INFO_K_ID_V_TOP); [reflexivity|].
    unfold bind at 1. unfold info_of, bind, get. now rewrite Hg.
  - intros i p j pinfo m es last Hne Hg Hp Hj H0 Hgp Hw Hes Hnd Hleaf Hlast.
    destruct (item_child_index_last_Ret self p last Hlast) as (idxs & Hidx).
    pose proof (child_indexes_Forall p _ idxs Hidx) as Hsib.
    set (self1 := set_tk_menus
                    (<[m := take (Z.to_nat j) es ++ drop (S (Z.to_nat j)) es]>
                       (tk_menus self)) self).
    exists (set_id_to_info
              (od_del ((fun kv => (kv.1, lowered (Some p) j kv.2))
                       <$> _id_to_info self) id) self1).
    split; [|split; reflexivity].
    cbn [remove_item]. rewrite (eqb_false_ne _ _ Hne).
    unfold bind at 1. unfold info_of at 1. unfold bind at 1. cbn [get].
    rewrite Hg. cbn [ret]. rewrite Hp, Hj.
    unfold bind at 1. rewrite (menu_run self p pinfo m Hgp Hw).
    unfold bind at 1. unfold tk_delete at 1, modify.
    rewrite (alter_at _ _ _ es Hes).
    replace (0 <=? j) with true by (symmetry; now apply Z.leb_le).
    fold self1.
    unfold bind at 1. unfold item_ids at 1, gets.
    unfold bind at 1.
    change (od_keys (_id_to_info self1)) with (od_keys (_id_to_info self)).
    match goal with
    | |- context [for_each ?l ?body self1] =>
        pose proof (loop_passes (Some p) j id body self1) as Hloop
    end.
    cbv zeta in Hloop.
    rewrite (Hloop) with (c := _id_to_info self); clear Hloop.
    + cbv beta. rewrite (updl_all (Some p) j (_id_to_info self)).
      unfold bind at 1. cbn [get].
      cbn [_id_to_info set_id_to_info].
      rewrite od_contains_get, od_get_fmap, Hg. reflexivity.
    + intros x c (Hndc & Hleafc & Hsibc).
      unfold bind at 1. cbn [get _id_to_info set_id_to_info].
      destruct (od_get c x) as [xi|] eqn:Hx.
      * pose proof (od_get_elem c x xi Hx) as Hin.
        rewrite Forall_forall in Hleafc, Hsibc.
        pose proof (Hleafc _ Hin) as Hnc. pose proof (Hsibc _ Hin) as Hix.
        cbn [snd] in Hnc, Hix.
        rewrite (bool_decide_eq_false_2 _ Hnc).
        rewrite <- (upd1_od_set (Some p) j x c xi Hndc Hx).
        unfold lowered.
        destruct (bool_decide (INFO_K_PID xi = Some p)) eqn:Hpx.
        -- apply bool_decide_eq_true in Hpx.
           destruct (Hix Hpx) as [xidx Hxidx]. rewrite Hxidx.
           destruct (j <? xidx); unfold when; cbn.
           ++ reflexivity.
           ++ now rewrite (od_set_same c x xi Hndc Hx).
        -- cbn. now rewrite (od_set_same c x xi Hndc Hx).
      * rewrite (upd1_absent (Some p) j x c Hx). reflexivity.
    + exact Hnd.
    + split; [exact Hnd|]. split; [exact Hleaf|exact Hsib].
Qed.

Lemma remove_item_without_children_witness :
  let self := world ((add_menu (T:=unit) "/" "X" false None None None ;;
                      add_command "/" "A" 7 false None None None ;;
                      add_menu "/" "D" false None None None) init) in
  ∃ self',
    remove_item (T:=unit) 1 "/A" self = (Ret tt, self', [])
    ∧ od_keys (_id_to_info self') = ["/"; "/X"; "/D"]%string
    ∧ entry_of self' "/X" = Some (Some "/"%string, Some 0, Menu 1)
    ∧ entry_of self' "/D" = Some (Some "/"%string, Some 1, Menu 2)
    ∧ tk_menus self' !! 0%nat = Some [cascade 1 "X"; cascade 2 "D"].
Proof.
  intros self.
  destruct (remove_item_without_children unit 0 "/A" self) as (_ & _ & H).
  destruct (H {| INFO_K_ID := "/A"; INFO_K_PID := Some "/"%string;
                 INFO_K_ITEM_WIDGET := Name "command";
                 INFO_K_ITEM_INDEX := Some 1 |}
              "/"%string 1
              {| INFO_K_ID := "/"; INFO_K_PID := None;
                 INFO_K_ITEM_WIDGET := Menu 0; INFO_K_ITEM_INDEX := None |}
              0%nat [cascade 1 "X"; command "A" 7; cascade 2 "D"] 2)
    as (self' & E & Hd & Htk).
  - discriminate.
  - reflexivity.
  - reflexivity.
  - reflexivity.
  - lia.
  - reflexivity.
  - reflexivity.
  - reflexivity.
  - apply (bool_decide_unpack _). vm_compute. exact I.
  - vm_compute. repeat constructor; discriminate.
  - reflexivity.
  - exists self'. split; [exact E|]. unfold entry_of. rewrite Hd, Htk.
    vm_compute. repeat split.
Defined.

End MenuTreeLaws.

(** ** registry_editor.py: going to a key path from the editor *)

Module EditorNavFacts.
Import Registry EditorNav.

Section Facts.
Context {X PyHKEY Handler : Type} `{EqDecision Handler}.
Variable api : Win32 X PyHKEY.
Variable run : Handler -> option Eventor.payload -> string * X
               -> outcome unit * (string * X).
Variable showwarning : string -> string -> X -> X.

(** [go_to_path] with the check on a path that is not found. *)
Lemma go_to_path_refused (self_handlers : Eventor.handlers_dict) P p x x1 :
  regkey_exists (T:=Eventor.call (string * X) Handler) api P x
  = (Ret false, x1, []) ->
  go_to_path api run self_handlers P true (p, x)
  = (Raise ValueError, (p, x1), []).
Proof.
  intros Hex. unfold go_to_path, when, bind, on_rest. now rewrite Hex.
Qed.

(** [go_to_path] with the check on a path that is found, under handlers
    that keep the active path. *)
Lemma go_to_path_checked (self_handlers : Eventor.handlers_dict) P p x x1 :
  keep_path run ->
  regkey_exists (T:=Eventor.call (string * X) Handler) api P x
  = (Ret true, x1, []) ->
  ∃ x' t, go_to_path api run self_handlers P true (p, x)
          = (Ret P, (P, x'), t)
          ∧ seen <$> t
            = fires self_handlers PATH_CHANGE_SOON p
              ++ fires self_handlers PATH_CHANGE_DONE P.
Proof.
  intros Hkeep Hex.
  destruct (RegistryFacts.notify_keeps_path run self_handlers PATH_CHANGE_SOON
              p x1 Hkeep) as (x2 & t1 & Hn1 & Ht1).
  destruct (RegistryFacts.notify_keeps_path run self_handlers PATH_CHANGE_DONE
              P x2 Hkeep) as (x3 & t2 & Hn2 & Ht2).
  exists x3, (t1 ++ t2). split; [|now rewrite fmap_app, Ht1, Ht2].
  unfold go_to_path, when.
  unfold bind at 1. unfold bind at 1. unfold on_rest. rewrite Hex.
  cbn [negb ret app].
  unfold bind at 1. rewrite Hn1.
  unfold bind at 1. unfold modify at 1.
  unfold bind at 1. rewrite Hn2.
  unfold gets. simpl. now rewrite app_nil_r.
Qed.

Lemma regkey_exists_run P x :
  ∃ o x1, regkey_exists (T:=Eventor.call (string * X) Handler) api P x
          = (o, x1, []).
Proof.
  pose proof (RegistryFacts.regkey_exists_silent
                (T:=Eventor.call (string * X) Handler) api P x) as Hs.
  destruct (regkey_exists api P x) as [[o x1] t]. unfold trace in Hs.
  cbn in Hs. subst t. eauto.
Qed.

Lemma path_nav_goto_false (nav_handlers : Eventor.handlers_dict) P p x x1 :
  regkey_exists (T:=Eventor.call (string * X) Handler) api P x
  = (Ret false, x1, []) ->
  _path_nav_goto api run showwarning nav_handlers P (p, x)
  = (Ret false,
     (p, showwarning "Error" ("Cannot open key: `" +:+ P +:+ "`.") x1), []).
Proof.
  intros Hex. unfold _path_nav_goto, try_except.
  unfold bind at 1.
  rewrite (go_to_path_refused nav_handlers P p x x1 Hex).
  reflexivity.
Qed.

Lemma path_nav_goto_true (nav_handlers : Eventor.handlers_dict) P p x x1 :
  keep_path run ->
  regkey_exists (T:=Eventor.call (string * X) Handler) api P x
  = (Ret true, x1, []) ->
  ∃ x' t,
    go_to_path api run nav_handlers P true (p, x) = (Ret P, (P, x'), t)
    ∧ _path_nav_goto api run showwarning nav_handlers P (p, x)
      = (Ret true, (P, x'), t)
    ∧ seen <$> t
      = fires nav_handlers PATH_CHANGE_SOON p
        ++ fires nav_handlers PATH_CHANGE_DONE P.
Proof.
  intros Hkeep Hex.
  destruct (go_to_path_checked nav_handlers P p x x1 Hkeep Hex)
    as (x' & t & Hgo & Ht).
  exists x', t. split; [exact Hgo|]. split; [|exact Ht].
  unfold _path_nav_goto, try_except. unfold bind at 1. rewrite Hgo.
  cbn. now rewrite app_nil_r.
Qed.

(** Below the root a right click is [_path_nav_goto] of the parent
    path. *)
Lemma path_nav_goto_at (nav_handlers : Eventor.handlers_dict) p x :
  p ≠ ROOT ->
  _child_keys_listbox_on_right_click api run showwarning nav_handlers (p, x)
  = (_path_nav_goto api run showwarning nav_handlers
       (regkey_parent_path api p) ;; ret tt) (p, x).
Proof.
  intros Hne. unfold _child_keys_listbox_on_right_click.
  unfold bind at 1. unfold path, gets. cbn [fst snd].
  unfold PyStr.eqb. rewrite bool_decide_eq_false_2 by exact Hne. cbn [negb].
  unfold bind at 1. unfold parent_path at 1. unfold bind at 1.
  unfold gets, ret. cbn [fst snd]. cbn [app]. 
  destruct ((_path_nav_goto api run showwarning nav_handlers
               (regkey_parent_path api p);; (λ w, (Ret (), w, []))) (p, x))
    as [[o w] t]. reflexivity.
Qed.

End Facts.

(** X19. [_path_nav_goto(path)] goes to the path with the check on. When
    the key is not found, it returns [False], the active path is as it
    was, no handler of the navigator is called and one warning is shown.
    When the key is found (handlers leaving the active path alone), it
    returns [True], the active path is the new path, the handlers of
    [PATH_CHANGE_SOON] are called while the old path is active and those
    of [PATH_CHANGE_DONE] while the new one is, and no warning is shown by
    the method itself. *)
Theorem path_nav_goto_reports :
  ∀ (X PyHKEY Handler : Type) (Heq : EqDecision Handler)
    (api : Win32 X PyHKEY)
    (run : Handler -> option Eventor.payload -> string * X
           -> outcome unit * (string * X))
    (showwarning : string -> string -> X -> X)
    (nav_handlers : Eventor.handlers_dict) (P p : string) (x x1 : X),
    (regkey_exists (T:=Eventor.call (string * X) Handler) api P x
     = (Ret false, x1, []) ->
     _path_nav_goto api run showwarning nav_handlers P (p, x)
     = (Ret false,
        (p, showwarning "Error" ("Cannot open key: `" +:+ P +:+ "`.") x1),
        []))
    ∧ (keep_path run ->
       regkey_exists (T:=Eventor.call (string * X) Handler) api P x
       = (Ret true, x1, []) ->
       _path_nav_goto api run showwarning nav_handlers P (p, x)
       = (Ret true,
          world (go_to_path api run nav_handlers P true (p, x)),
          trace (go_to_path api run nav_handlers P true (p, x)))
       ∧ fst (world (go_to_path api run nav_handlers P true (p, x))) = P
       ∧ seen <$> trace (go_to_path api run nav_handlers P true (p, x))
         = fires nav_handlers PATH_CHANGE_SOON p
           ++ fires nav_handlers PATH_CHANGE_DONE P).
Proof.
  intros X PyHKEY Handler Heq api run showwarning nav_handlers P p x x1.
  split.
  - apply path_nav_goto_false.
  - intros Hkeep Hex.
    destruct (path_nav_goto_true api run showwarning nav_handlers P p x x1
                Hkeep Hex) as (x' & t & Hgo & Hnav & Ht).
    rewrite Hgo, Hnav. unfold world, trace. cbn [fst snd].
    split; [reflexivity|]. split; [reflexivity|exact Ht].
Qed.

Lemma path_nav_goto_reports_witness :
  _path_nav_goto (Handler:=nat) (Samples.one_key_in (list string))
    Samples.run_idle Samples.log_warning Samples.nav_handlers
    "HKEY_CURRENT_USER\Nowhere" ("HKEY_CURRENT_USER"%string, [])
  = (Ret false,
     ("HKEY_CURRENT_USER"%string,
      ["Cannot open key: `HKEY_CURRENT_USER\Nowhere`."%string]), [])
  ∧ fst (world (_path_nav_goto (Handler:=nat) (Samples.one_key_in (list string))
                  Samples.run_idle Samples.log_warning Samples.nav_handlers
                  "HKEY_CURRENT_USER\Software" (""%string, [])))
    = "HKEY_CURRENT_USER\Software"%string.
Proof.
  split.
  - destruct (path_nav_goto_reports (list string) nat nat _
                (Samples.one_key_in (list string)) Samples.run_idle
                Samples.log_warning Samples.nav_handlers
                "HKEY_CURRENT_USER\Nowhere" "HKEY_CURRENT_USER" [] [])
      as (H & _).
    apply H. reflexivity.
  - destruct (path_nav_goto_reports (list string) nat nat _
                (Samples.one_key_in (list string)) Samples.run_idle
                Samples.log_warning Samples.nav_handlers
                "HKEY_CURRENT_USER\Software" "" [] [])
      as (_ & H).
    destruct H as (Hgo & Hp & _).
    + intros h a p x. exists x. reflexivity.
    + reflexivity.
    + rewrite Hgo. exact Hp.
Defined.

(** X20. A right click on the child keys listbox does nothing at the
    root: no call to the platform, no handler called, no warning. Below
    the root it goes to the parent path with the check on: when the parent
    key is found (handlers leaving the active path alone) the parent path
    becomes the active path; when it is not found the active path stays
    and a warning is shown. *)
Theorem right_click_goes_to_parent :
  ∀ (X PyHKEY Handler : Type) (Heq : EqDecision Handler)
    (api : Win32 X PyHKEY)
    (run : Handler -> option Eventor.payload -> string * X
           -> outcome unit * (string * X))
    (showwarning : string -> string -> X -> X)
    (nav_handlers : Eventor.handlers_dict) (p : string) (x x1 : X),
    let parent := regkey_parent_path api p in
    (p = ROOT ->
     _child_keys_listbox_on_right_click api run showwarning nav_handlers (p, x)
     = (Ret tt, (p, x), []))
    ∧ (p ≠ ROOT -> keep_path run ->
       regkey_exists (T:=Eventor.call (string * X) Handler) api parent x
       = (Ret true, x1, []) ->
       result (_child_keys_listbox_on_right_click api run showwarning
                 nav_handlers (p, x)) = Ret tt
       ∧ fst (world (_child_keys_listbox_on_right_click api run showwarning
                       nav_handlers (p, x))) = parent)
    ∧ (p ≠ ROOT ->
       regkey_exists (T:=Eventor.call (string * X) Handler) api parent x
       = (Ret false, x1, []) ->
       _child_keys_listbox_on_right_click api run showwarning nav_handlers
         (p, x)
       = (Ret tt,
          (p, showwarning "Error" ("Cannot open key: `" +:+ parent +:+ "`.")
                x1),
          [])).
Proof.
  intros X PyHKEY Handler Heq api run showwarning nav_handlers p x x1 parent.
  split; [|split].
  - intros ->. reflexivity.
  - intros Hne Hkeep Hex.
    rewrite (path_nav_goto_at api run showwarning nav_handlers p x Hne).
    destruct (path_nav_goto_true api run showwarning nav_handlers parent p x x1
                Hkeep Hex) as (x' & t & _ & Hnav & _).
    unfold bind. fold parent. rewrite Hnav. split; reflexivity.
  - intros Hne Hex.
    rewrite (path_nav_goto_at api run showwarning nav_handlers p x Hne).
    unfold bind. fold parent.
    rewrite (path_nav_goto_false api run showwarning nav_handlers parent p x x1
               Hex).
    reflexivity.
Qed.

Lemma right_click_goes_to_parent_witness :
  fst (world (_child_keys_listbox_on_right_click (Handler:=nat)
                (Samples.one_key_in (list string)) Samples.run_idle
                Samples.log_warning Samples.nav_handlers
                ("HKEY_CURRENT_USER\Software\Classes"%string, [])))
  = "HKEY_CURRENT_USER\Software"%string.
Proof.
  destruct (right_click_goes_to_parent (list string) nat nat _
              (Samples.one_key_in (list string)) Samples.run_idle
              Samples.log_warning Samples.nav_handlers
              "HKEY_CURRENT_USER\Software\Classes" [] [])
    as (_ & H & _).
  destruct H as (_ & H).
  - discriminate.
  - intros h a p x. exists x. reflexivity.
  - reflexivity.
  - exact H.
Defined.

End EditorNavFacts.

(** ** tkinterutil/menu.py: full ids and labels *)

Module MenuIdFacts.
Import Strings.Ascii.
Import MenuTree.

(** A string in which the separator is not found does not hold it. *)
Lemma rfind_None (c : Ascii.ascii) (s : string) :
  PyStr.rfind (String c EmptyString) s = None ->
  c ∉ String.list_ascii_of_string s.
Proof.
  induction s as [|c' s IH]; intros Hf; [simpl; inversion 1|].
  cbn [PyStr.rfind] in Hf.
  destruct (PyStr.rfind (String c EmptyString) s) as [[b a]|];
    [discriminate|].
  rewrite PyStrFacts.prefix_one in Hf.
  destruct (bool_decide_reflect (c = c')); [discriminate|].
  simpl. apply not_elem_of_cons. split; [assumption|]. now apply IH.
Qed.

(** The part after the last separator holds no separator. *)
Lemma rfind_rest (c : Ascii.ascii) (s b a : string) :
  PyStr.rfind (String c EmptyString) s = Some (b, a) ->
  c ∉ String.list_ascii_of_string a.
Proof.
  revert b a. induction s as [|c' s IH]; intros b a Hf.
  - cbn [PyStr.rfind] in Hf. discriminate.
  - cbn [PyStr.rfind] in Hf.
    destruct (PyStr.rfind (String c EmptyString) s) as [[b' a']|] eqn:Hr.
    + inversion Hf; subst. now apply (IH b').
    + rewrite PyStrFacts.prefix_one in Hf.
      destruct (bool_decide (c = c')) eqn:Hc; [|discriminate].
      inversion Hf; subst. rewrite Nat.sub_0_r, PyStrFacts.substring_all.
      now apply rfind_None.
Qed.

(** X21. With the default id functions and a separator of one character,
    the label made from the full id of a relative id is the relative id
    itself exactly when the relative id does not hold the separator; the
    label never holds the separator; and for such a relative id the full
    id splits at its last separator into the parent id (nothing for the
    top menu with the separator [/]) and the relative id. *)
Theorem default_label_of_full_id :
  ∀ (c : Ascii.ascii) (id pid : string),
    let id_sep := String c EmptyString in
    let full := _id_to_full_default id pid id_sep in
    (_id_to_label_default full id_sep = id
     ↔ c ∉ String.list_ascii_of_string id)
    ∧ (c ∉ String.list_ascii_of_string (_id_to_label_default full id_sep))
    ∧ (c ∉ String.list_ascii_of_string id ->
       PyStr.rpartition full id_sep
       = (if PyStr.eqb pid INFO_K_ID_V_TOP && PyStr.eqb id_sep INFO_K_ID_V_TOP
          then ""%string else pid, id_sep, id)).
Proof.
  intros c id pid id_sep full.
  assert (Hfull : ∃ p, full = (p +:+ String c id)%string
                       ∧ p = if PyStr.eqb pid INFO_K_ID_V_TOP
                                && PyStr.eqb id_sep INFO_K_ID_V_TOP
                             then ""%string else pid).
  { unfold full, _id_to_full_default.
    destruct (PyStr.eqb pid INFO_K_ID_V_TOP) eqn:Hp;
      [destruct (PyStr.eqb id_sep INFO_K_ID_V_TOP) eqn:Hs|]; cbn [andb].
    - apply bool_decide_eq_true in Hp, Hs. subst pid. unfold id_sep in Hs.
      exists ""%string. split; [|reflexivity]. unfold INFO_K_ID_V_TOP in *.
      inversion Hs; subst. reflexivity.
    - exists pid. split; reflexivity.
    - exists pid. split; reflexivity. }
  destruct Hfull as (p & Hfull & Hp).
  assert (Hgood : c ∉ String.list_ascii_of_string id ->
                  PyStr.rpartition full id_sep = (p, id_sep, id)).
  { intros Hc. unfold PyStr.rpartition, id_sep. rewrite Hfull.
    now rewrite (PyStrFacts.rfind_last c p id Hc). }
  assert (Hlabel : c ∉ String.list_ascii_of_string
                         (_id_to_label_default full id_sep)).
  { unfold _id_to_label_default, PyStr.rpartition.
    destruct (PyStr.rfind id_sep full) as [[b a]|] eqn:Hf.
    - now apply (rfind_rest c full b a).
    - apply rfind_None in Hf. exfalso. apply Hf.
      rewrite Hfull, PyStrFacts.list_ascii_append. apply elem_of_app. right.
      simpl. apply elem_of_cons. now left. }
  split; [split|split].
  - intros Heq. now rewrite <- Heq.
  - intros Hc. unfold _id_to_label_default. now rewrite (Hgood Hc).
  - exact Hlabel.
  - intros Hc. rewrite (Hgood Hc), Hp. reflexivity.
Qed.

Lemma default_label_of_full_id_witness :
  _id_to_label_default (_id_to_full_default "Exit" "/File" "/") "/"
  = "Exit"%string
  ∧ _id_to_label_default (_id_to_full_default "File" "/" "/") "/"
    = "File"%string
  ∧ _id_to_label_default (_id_to_full_default "Save/As" "/File" "/") "/"
    = "As"%string.
Proof.
  destruct (default_label_of_full_id "/"%char "Exit" "/File") as ((_ & H1) & _).
  destruct (default_label_of_full_id "/"%char "File" "/") as ((_ & H2) & _).
  split; [|split].
  - apply H1. vm_compute. intros Hc.
    repeat (apply elem_of_cons in Hc; destruct Hc as [Hc|Hc]; [discriminate|]).
    inversion Hc.
  - apply H2. vm_compute. intros Hc.
    repeat (apply elem_of_cons in Hc; destruct Hc as [Hc|Hc]; [discriminate|]).
    inversion Hc.
  - reflexivity.
Defined.

(** With a separator of more than one character the label can differ from
    a relative id that does not hold the separator. *)
Remark long_separator_label :
  _id_to_label_default (_id_to_full_default "a" "/m" "aa") "aa" = ""%string.
Proof. reflexivity. Qed.

End MenuIdFacts.

(** ** registry_editor.py: the path bar and the navigator in step *)

Module EditorPathBarFacts.
Import Registry Entry EditorPathBar.

Section Facts.
Context {X PyHKEY Handler : Type} `{EqDecision Handler}.
Variable api : Win32 X PyHKEY.
Variable run : Handler -> option Eventor.payload -> Editor X
               -> outcome unit * Editor X.
Variable showwarning : string -> string -> X -> X.

Lemma set_rest_rest (w : Editor X) : set_rest (rest w) w = w.
Proof. now destruct w. Qed.

(** A check of a key from the editor is the check on the outside. *)
Lemma regkey_exists_ed {T} (path : string) (w : Editor X) :
  regkey_exists (T:=T) (api_ed api) path w
  = (result (regkey_exists (T:=T) api path (rest w)),
     set_rest (world (regkey_exists (T:=T) api path (rest w))) w,
     trace (regkey_exists (T:=T) api path (rest w))).
Proof.
  destruct w as [p b l x]. unfold regkey_exists, regkey_get.
  destruct (PyStr.eqb path ROOT); [reflexivity|].
  unfold _regkey_handle_get.
  destruct (PyStr.partition path "\") as [[hive_name sep] nohive_path].
  change (_hive_name_to_int (api_ed api) hive_name)
    with (_hive_name_to_int api hive_name).
  destruct (_hive_name_to_int api hive_name) as [hive_int|]; [|reflexivity].
  cbv beta iota zeta delta
    [bind try_except os_call with_local close on_rest gets modify ret raise
     result world trace fst snd closed class _handle app].
  cbn [api_ed RegOpenKeyEx RegCloseKey KEY_READ rest set_rest].
  match goal with
  | |- context [RegOpenKeyEx api hive_int ?sub 0 (KEY_READ api) x] =>
      destruct (RegOpenKeyEx api hive_int sub 0 (KEY_READ api) x)
        as [[h|e] x1]; [|reflexivity]
  end.
  cbv beta iota zeta delta
    [bind try_except os_call with_local close on_rest gets modify ret raise
     result world trace fst snd closed class _handle app].
  cbn [api_ed RegOpenKeyEx RegCloseKey KEY_READ rest set_rest].
  destruct (RegCloseKey api h x1) as [[[]|e] x2]; reflexivity.
Qed.

Lemma regkey_exists_ed_run {T} (path : string) (w : Editor X) b x1 :
  regkey_exists (T:=T) api path (rest w) = (Ret b, x1, []) ->
  regkey_exists (T:=T) (api_ed api) path w = (Ret b, set_rest x1 w, []).
Proof. intros E. now rewrite regkey_exists_ed, E. Qed.


(** [_path_bar_update] sets the label by the check of the path bar's
    text. *)
Lemma path_bar_update_run (w : Editor X) b x1 :
  regkey_exists (T:=Eventor.call (Editor X) Handler) api
    (text (_path_bar w)) (rest w) = (Ret b, x1, []) ->
  _path_bar_update (Handler:=Handler) api w
  = (Ret tt,
     set_path_bar_label (if b then NORMAL else DISABLED) (set_rest x1 w), []).
Proof.
  intros E. unfold _path_bar_update.
  unfold bind at 1. cbn [gets].
  unfold bind at 1. rewrite (regkey_exists_ed_run _ w b x1 E).
  destruct b; reflexivity.
Qed.

(** [text_set] with [notify=False] calls no handler. *)
Lemma text_set_quiet {Y : Type}
    (run' : Handler -> option Eventor.payload -> EntryVidget * Y
            -> outcome unit * (EntryVidget * Y))
    (self_handlers : Eventor.handlers_dict) (new_text : string) arg
    (s : EntryVidget) (y : Y) :
  text_is_valid s new_text = Ret true ->
  _is_changing s = false ->
  is_state (state (_text_widget s)) = true ->
  text_set run' self_handlers new_text false arg false (s, y)
  = (Ret tt,
     ({| _text_widget := {| value := new_text; state := state (_text_widget s);
                            validatecommand := true |};
         _is_changing := false;
         _old_widget_state := state (_text_widget s);
         _validator := _validator s;
         _text := new_text |}, y), []).
Proof.
  intros Hvalid Hch Hst. unfold text_set.
  unfold bind at 1. cbn [self gets fst snd].
  rewrite Hvalid, Hch. cbn [negb]. unfold when.
  unfold bind at 1. cbn [assign modify fst snd].
  unfold bind at 1. cbn [ret].
  unfold bind at 1. cbn [assign modify fst snd].
  unfold bind at 1. rewrite EntryLaws.widget_write by exact Hst.
  unfold bind at 1. cbn [self gets fst snd _text _text_widget value set_text].
  rewrite EntryLaws.eqb_refl. cbn [negb].
  unfold bind at 1. cbn [ret].
  unfold bind at 1. cbn [ret assign modify fst snd].
  reflexivity.
Qed.

(** The text the path bar holds after a quiet [text_set]. *)
Lemma path_bar_text_set_quiet (bar_handlers : Eventor.handlers_dict)
    (new_text : string) (w : Editor X) :
  text_is_valid (_path_bar w) new_text = Ret true ->
  _is_changing (_path_bar w) = false ->
  is_state (state (_text_widget (_path_bar w))) = true ->
  path_bar_text_set run bar_handlers new_text false w
  = (Ret tt,
     set_path_bar
       {| _text_widget := {| value := new_text;
                             state := state (_text_widget (_path_bar w));
                             validatecommand := true |};
          _is_changing := false;
          _old_widget_state := state (_text_widget (_path_bar w));
          _validator := _validator (_path_bar w);
          _text := new_text |} w, []).
Proof.
  intros Hvalid Hch Hst. unfold path_bar_text_set, on_attr.
  rewrite (text_set_quiet _ bar_handlers new_text PNone (_path_bar w) w
             Hvalid Hch Hst).
  reflexivity.
Qed.


Lemma eqb_neq (a b : string) : a ≠ b -> PyStr.eqb a b = false.
Proof. intros Hne. unfold PyStr.eqb. now apply bool_decide_eq_false. Qed.


(** What a handler call shows of the editor: the event, the wrapper, the
    argument, and the navigator's path, the path bar and the label at the
    call. *)
Local Abbreviation shown :=
  (fun c : Eventor.call (Editor X) Handler =>
     (Eventor.call_event c, Eventor.call_wrapper c, Eventor.call_arg c,
      (_path_nav (Eventor.call_world c), _path_bar (Eventor.call_world c),
       _path_bar_label (Eventor.call_world c)))).

(** One notification of the navigator under handlers that keep the
    editor. *)
Lemma nav_notify_keeps (nav_handlers : Eventor.handlers_dict) ev p
    (w : Editor X) :
  keep_editor run ->
  ∃ w' t,
    Eventor.handler_notify (run_attr run _path_nav set_path_nav) nav_handlers
      (Some ev) PSelf None false (p, w)
    = (Ret tt, (p, w'), t)
    ∧ _path_bar w' = _path_bar w
    ∧ _path_bar_label w' = _path_bar_label w
    ∧ shown <$> (call_attr set_path_nav <$> t)
      = (fun hw => (Some ev, hw, Eventor.Raw PSelf,
                    (p, _path_bar w, _path_bar_label w)))
        <$> (Eventor.handlers_for nav_handlers (Some ev)
             ++ Eventor.handlers_for nav_handlers None).
Proof.
  intros Hkeep. rewrite EventorFacts.handler_notify_in_order.
  destruct (EventorFacts.call_in_order_keeps
              (run_attr run _path_nav set_path_nav)
              (fun pw : string * Editor X =>
                 (pw.1, _path_bar pw.2, _path_bar_label pw.2))
              (Some ev) (Eventor.notify_arg (Some ev) PSelf None false)
              (Eventor.handlers_for nav_handlers (Some ev)
               ++ Eventor.handlers_for nav_handlers None) (p, w))
    as ([p' w'] & Hres & Hobs & Htr).
  { intros h a [p0 w0]. unfold run_attr. cbn [fst snd].
    destruct (Hkeep h a (set_path_nav p0 w0)) as [x1 ->].
    eexists. split; reflexivity. }
  cbn [fst snd] in Hobs. injection Hobs as Hp Hb Hl. subst p'.
  destruct (Eventor.call_in_order _ _ _ _ _) as [[o w''] t].
  cbn [fst snd] in Hres, Htr. inversion Hres; subst.
  exists w', t. split; [reflexivity|]. split; [exact Hb|].
  split; [exact Hl|].
  rewrite <- list_fmap_compose.
  etrans; [|exact Htr]. apply list_fmap_ext. intros i c _. reflexivity.
Qed.


(** [_path_nav_goto] on a key that is not found. *)
Lemma path_nav_goto_missing (nav_handlers : Eventor.handlers_dict) P
    (w : Editor X) x1 :
  regkey_exists (T:=Eventor.call (string * Editor X) Handler) api P (rest w)
  = (Ret false, x1, []) ->
  _path_nav_goto api run showwarning nav_handlers P w
  = (Ret false,
     set_rest (showwarning "Error" ("Cannot open key: `" +:+ P +:+ "`.") x1) w,
     []).
Proof.
  intros Hex. unfold _path_nav_goto, on_attr.
  rewrite (EditorNavFacts.path_nav_goto_false (api_ed api)
             (run_attr run _path_nav set_path_nav) (showwarning_ed showwarning)
             nav_handlers P (_path_nav w) w (set_rest x1 w)
             (regkey_exists_ed_run P w false x1 Hex)).
  now destruct w.
Qed.

(** [_path_nav_goto] on a key that is found, under handlers that keep the
    editor. *)
Lemma path_nav_goto_found (nav_handlers : Eventor.handlers_dict) P
    (w : Editor X) x1 :
  keep_editor run ->
  regkey_exists (T:=Eventor.call (string * Editor X) Handler) api P (rest w)
  = (Ret true, x1, []) ->
  ∃ x' t,
    _path_nav_goto api run showwarning nav_handlers P w
    = (Ret true,
       {| _path_nav := P; _path_bar := _path_bar w;
          _path_bar_label := _path_bar_label w; rest := x' |}, t)
    ∧ shown <$> t
      = ((fun hw => (Some PATH_CHANGE_SOON, hw, Eventor.Raw PSelf,
                     (_path_nav w, _path_bar w, _path_bar_label w)))
         <$> (Eventor.handlers_for nav_handlers (Some PATH_CHANGE_SOON)
              ++ Eventor.handlers_for nav_handlers None))
        ++ ((fun hw => (Some PATH_CHANGE_DONE, hw, Eventor.Raw PSelf,
                        (P, _path_bar w, _path_bar_label w)))
            <$> (Eventor.handlers_for nav_handlers (Some PATH_CHANGE_DONE)
                 ++ Eventor.handlers_for nav_handlers None)).
Proof.
  intros Hkeep Hex.
  destruct (nav_notify_keeps nav_handlers PATH_CHANGE_SOON (_path_nav w)
              (set_rest x1 w) Hkeep) as (w1 & t1 & Hn1 & Hb1 & Hl1 & Ht1).
  destruct (nav_notify_keeps nav_handlers PATH_CHANGE_DONE P w1 Hkeep)
    as (w2 & t2 & Hn2 & Hb2 & Hl2 & Ht2).
  exists (rest w2), (call_attr set_path_nav <$> (t1 ++ t2)). split.
  - unfold _path_nav_goto, on_attr, EditorNav._path_nav_goto, try_except.
    unfold bind at 1. unfold go_to_path, when.
    unfold bind at 1. unfold bind at 1. unfold on_rest.
    rewrite (regkey_exists_ed_run P w true x1 Hex).
    cbn [negb ret app].
    unfold bind at 1. rewrite Hn1.
    unfold bind at 1. unfold modify at 1.
    unfold bind at 1. rewrite Hn2.
    cbn [gets fst snd ret app]. rewrite !app_nil_r.
    f_equal. f_equal. destruct w2. cbn in *. subst.
    rewrite Hb1, Hl1. reflexivity.
  - rewrite (fmap_app (call_attr set_path_nav) t1 t2).
    rewrite (fmap_app _ (call_attr set_path_nav <$> t1)), Ht1, Ht2.
    now rewrite Hb1, Hl1.
Qed.


(** [_path_bar_on_nav_path_change] while the path bar is changing, or when
    the bar holds the navigator's path. *)
Lemma on_nav_path_change_idle (bar_handlers : Eventor.handlers_dict)
    (w : Editor X) :
  is_changing (_path_bar w) = true ∨ _path_nav w = text (_path_bar w) ->
  _path_bar_on_nav_path_change api run bar_handlers w = (Ret tt, w, []).
Proof.
  intros Hcase. unfold _path_bar_on_nav_path_change.
  unfold bind at 1. cbn [gets].
  destruct (is_changing (_path_bar w)) eqn:Hch; [reflexivity|].
  destruct Hcase as [Hc|Heq']; [discriminate|].
  unfold bind at 1. cbn [gets]. unfold bind at 1. cbn [gets].
  rewrite Heq', EntryLaws.eqb_refl. reflexivity.
Qed.

Lemma on_nav_path_change_rejected (bar_handlers : Eventor.handlers_dict)
    (w : Editor X) :
  is_changing (_path_bar w) = false ->
  _path_nav w ≠ text (_path_bar w) ->
  text_is_valid (_path_bar w) (_path_nav w) = Ret false ->
  _path_bar_on_nav_path_change api run bar_handlers w
  = (Raise ValueError, w, []).
Proof.
  intros Hch Hne Hvalid. unfold _path_bar_on_nav_path_change.
  unfold bind at 1. cbn [gets]. rewrite Hch.
  unfold bind at 1. cbn [gets]. unfold bind at 1. cbn [gets].
  rewrite (eqb_neq _ _ Hne). cbn [negb app].
  unfold bind at 1. unfold path_bar_text_set, on_attr, text_set.
  unfold bind at 1. cbn [self gets fst snd]. rewrite Hvalid. cbn [negb raise].
  now destruct w.
Qed.

Lemma on_nav_path_change_writes (bar_handlers : Eventor.handlers_dict)
    (w : Editor X) (b : bool) (x1 : X) :
  is_changing (_path_bar w) = false ->
  _path_nav w ≠ text (_path_bar w) ->
  text_is_valid (_path_bar w) (_path_nav w) = Ret true ->
  is_state (state (_text_widget (_path_bar w))) = true ->
  key_check api (_path_nav w) (rest w) b x1 ->
  _path_bar_on_nav_path_change api run bar_handlers w
  = (Ret tt,
     {| _path_nav := _path_nav w;
        _path_bar :=
          {| _text_widget :=
               {| value := _path_nav w;
                  state := state (_text_widget (_path_bar w));
                  validatecommand := true |};
             _is_changing := false;
             _old_widget_state := state (_text_widget (_path_bar w));
             _validator := _validator (_path_bar w);
             _text := _path_nav w |};
        _path_bar_label := if b then NORMAL else DISABLED;
        rest := x1 |}, []).
Proof.
  intros Hch Hne Hvalid Hst Hex. unfold _path_bar_on_nav_path_change.
  unfold bind at 1. cbn [gets]. rewrite Hch.
  unfold bind at 1. cbn [gets]. unfold bind at 1. cbn [gets].
  rewrite (eqb_neq _ _ Hne). cbn [negb app].
  unfold bind at 1.
  rewrite (path_bar_text_set_quiet bar_handlers (_path_nav w) w
             Hvalid Hch Hst).
  rewrite (path_bar_update_run _ b x1) by apply Hex.
  reflexivity.
Qed.

(** [_path_bar_on_text_change] up to the call of [_path_nav_goto]. *)
Lemma on_text_change_step (nav_handlers : Eventor.handlers_dict)
    (w : Editor X) (b1 b2 : bool) (x1 x2 : X) :
  key_check api (text (_path_bar w)) (rest w) b1 x1 ->
  key_check api (text (_path_bar w)) x1 b2 x2 ->
  _path_bar_on_text_change api run showwarning nav_handlers w
  = (if b2
     then _path_nav_goto api run showwarning nav_handlers
            (text (_path_bar w)) ;; ret tt
     else ret tt)
      (set_path_bar_label (if b1 then NORMAL else DISABLED) (set_rest x2 w)).
Proof.
  intros E1 E2. unfold _path_bar_on_text_change.
  unfold bind at 1.
  rewrite (path_bar_update_run w b1 x1) by apply E1.
  unfold bind at 1. cbn [gets].
  unfold bind at 1.
  rewrite (regkey_exists_ed_run
             (text (_path_bar (set_path_bar_label
                                 (if b1 then NORMAL else DISABLED)
                                 (set_rest x1 w))))
             (set_path_bar_label (if b1 then NORMAL else DISABLED)
                (set_rest x1 w)) b2 x2) by apply E2.
  cbn [app].
  destruct (if b2 then _ else _) as [[o w'] t'] eqn:E; cbn in E |- *.
  rewrite <- E. destruct b2; reflexivity.
Qed.

End Facts.

Section Wired.
Context {X PyHKEY H : Type} `{EqDecision H}.
Variable api : Win32 X PyHKEY.
Variable run_other : H -> option Eventor.payload -> Editor X
                     -> outcome unit * Editor X.
Variable showwarning : string -> string -> X -> X.
Variable child_keys fields : H.

Local Abbreviation nav_handlers := (nav_handlers_bound child_keys fields).
Local Abbreviation RB :=
  (run_bound api run_other showwarning bar_handlers_bound nav_handlers).

Lemma bar_handlers_SOON :
  Eventor.handlers_for (bar_handlers_bound (H:=H)) (Some TEXT_CHANGE_SOON)
  ++ Eventor.handlers_for (bar_handlers_bound (H:=H)) None = [].
Proof.
  unfold Eventor.handlers_for, bar_handlers_bound, Eventor.handlers_dict.
  rewrite !lookup_singleton_ne by discriminate. reflexivity.
Qed.

Lemma bar_handlers_DONE :
  Eventor.handlers_for (bar_handlers_bound (H:=H)) (Some TEXT_CHANGE_DONE)
  ++ Eventor.handlers_for (bar_handlers_bound (H:=H)) None
  = [ {| Eventor.handler := path_bar_on_text_change;
         Eventor._need_arg := false |} ].
Proof.
  unfold Eventor.handlers_for, bar_handlers_bound, Eventor.handlers_dict.
  rewrite lookup_singleton_eq, lookup_singleton_ne by discriminate.
  reflexivity.
Qed.

Lemma nav_handlers_SOON :
  Eventor.handlers_for nav_handlers (Some PATH_CHANGE_SOON)
  ++ Eventor.handlers_for nav_handlers None = [].
Proof.
  unfold Eventor.handlers_for, nav_handlers_bound, Eventor.handlers_dict.
  rewrite !lookup_singleton_ne by discriminate. reflexivity.
Qed.

Lemma nav_handlers_DONE :
  Eventor.handlers_for nav_handlers (Some PATH_CHANGE_DONE)
  ++ Eventor.handlers_for nav_handlers None
  = [ {| Eventor.handler := path_bar_on_nav_path_change;
         Eventor._need_arg := false |};
      {| Eventor.handler := other child_keys; Eventor._need_arg := false |};
      {| Eventor.handler := other fields; Eventor._need_arg := false |} ].
Proof.
  unfold Eventor.handlers_for, nav_handlers_bound, Eventor.handlers_dict.
  rewrite lookup_singleton_eq, lookup_singleton_ne by discriminate.
  reflexivity.
Qed.

(** [_path_nav_goto] in the wired editor, on a key that is found: the
    path bar's handler runs first, at the new path, and then the handlers
    of the two listboxes. *)
Lemma wired_goto (depth : nat) (P : string) (w w2 : Editor X) (x1 : X) :
  keep_editor run_other ->
  key_check api P (rest w) true x1 ->
  _path_bar_on_nav_path_change api (RB depth) bar_handlers_bound
    (set_path_nav P (set_rest x1 w)) = (Ret tt, w2, []) ->
  _path_nav w2 = P ->
  ∃ x' t,
    _path_nav_goto api (RB (S depth)) showwarning nav_handlers P w
    = (Ret true, set_rest x' w2, t)
    ∧ (fun c => (Eventor.call_event c, Eventor.handler (Eventor.call_wrapper c),
                 _path_nav (Eventor.call_world c))) <$> t
      = [ (Some PATH_CHANGE_DONE, path_bar_on_nav_path_change, P);
          (Some PATH_CHANGE_DONE, other child_keys, P);
          (Some PATH_CHANGE_DONE, other fields, P) ].
Proof.
  intros Hkeep Hex Hbar Hnav.
  destruct (Hkeep child_keys None (set_path_nav P w2)) as [x3 Hc].
  destruct (Hkeep fields None (set_path_nav P (set_rest x3 (set_path_nav P w2))))
    as [x4 Hf].
  exists x4. eexists. split.
  - unfold _path_nav_goto, on_attr, EditorNav._path_nav_goto, try_except.
    unfold bind at 1. unfold go_to_path, when.
    unfold bind at 1. unfold bind at 1. unfold on_rest.
    rewrite (regkey_exists_ed_run api P w true x1) by apply Hex.
    cbn [negb ret app].
    unfold bind at 1. rewrite EventorFacts.handler_notify_in_order.
    rewrite nav_handlers_SOON. cbn [Eventor.call_in_order].
    unfold bind at 1. unfold modify at 1.
    unfold bind at 1. rewrite EventorFacts.handler_notify_in_order.
    rewrite nav_handlers_DONE.
    cbn [Eventor.call_in_order Eventor.wrapper_call Eventor._need_arg
         Eventor.handler].
    unfold run_attr at 1. cbn [fst snd run_bound].
    rewrite Hbar. cbn [result world fst snd].
    unfold run_attr at 1. cbn [fst snd run_bound]. rewrite Hnav, Hc.
    unfold run_attr at 1. cbn [fst snd run_bound].
    cbn [set_rest set_path_nav _path_nav _path_bar _path_bar_label rest].
    cbn [set_rest set_path_nav _path_nav _path_bar _path_bar_label rest] in Hf.
    rewrite Hf.
    cbn [gets fst snd ret app set_rest set_path_nav _path_nav _path_bar
         _path_bar_label rest].
    rewrite <- Hnav. reflexivity.
  - cbn. rewrite Hnav. reflexivity.
Qed.

Lemma run_bound_text (depth : nat) a (w : Editor X) :
  RB (S depth) path_bar_on_text_change a w
  = (result (_path_bar_on_text_change api (RB depth) showwarning nav_handlers
               w),
     world (_path_bar_on_text_change api (RB depth) showwarning nav_handlers
              w)).
Proof. reflexivity. Qed.

(** A key stroke in the path bar of the wired editor, up to what the
    bar's handler does. *)
Lemma wired_key_stroke (depth : nat) (P : string) (w w3 : Editor X)
    (v : string -> outcome bool)
    (t3 : list (Eventor.call (Editor X) (bound H))) :
  _is_changing (_path_bar w) = false ->
  _validator (_path_bar w) = Some v ->
  v P = Ret true ->
  _path_bar_on_text_change api (RB (S depth)) showwarning nav_handlers
    (set_path_bar (set_text P (set_is_changing true (_path_bar w))) w)
  = (Ret tt, w3, t3) ->
  _path_bar w3 = set_text P (set_is_changing true (_path_bar w)) ->
  ∃ t,
    path_bar_validator_wrapper (RB (S (S depth))) bar_handlers_bound P w
    = (Ret true, set_path_bar (set_text P (_path_bar w)) w3, t)
    ∧ (fun c => (Eventor.call_event c, Eventor.handler (Eventor.call_wrapper c),
                 text (_path_bar (Eventor.call_world c)),
                 is_changing (_path_bar (Eventor.call_world c)))) <$> t
      = [ (Some TEXT_CHANGE_DONE, path_bar_on_text_change, P, true) ].
Proof.
  intros Hch Hv HvP Hhandler Hbar.
  eexists. split.
  - unfold path_bar_validator_wrapper, on_attr, validator_wrapper.
    unfold bind at 1. cbn [self gets fst snd]. rewrite Hch, Hv, HvP.
    unfold when. unfold bind at 1. unfold bind at 1. cbn [self gets fst snd].
    rewrite Hch. unfold bind at 1. cbn [ret].
    unfold bind at 1. unfold text_set.
    unfold bind at 1. cbn [self gets fst snd].
    unfold text_is_valid. rewrite Hv, HvP, Hch. cbn [negb].
    unfold when.
    unfold bind at 1. cbn [assign modify fst snd].
    unfold bind at 1. unfold handler_notify.
    rewrite EventorFacts.handler_notify_in_order, bar_handlers_SOON.
    cbn [Eventor.call_in_order].
    unfold bind at 1. cbn [assign modify fst snd].
    unfold bind at 1. cbn [ret].
    unfold bind at 1. cbn [self gets fst snd].
    unfold bind at 1.
    match goal with
    | |- context [if ?c then ret tt else ret tt] => destruct c
    end; cbn [ret];
      (unfold bind at 1;
       rewrite EventorFacts.handler_notify_in_order, bar_handlers_DONE;
       cbn [Eventor.call_in_order Eventor.wrapper_call Eventor._need_arg
            Eventor.handler];
       unfold run_attr at 1; cbn [fst snd];
       rewrite run_bound_text, Hhandler; cbn [result world fst snd];
       cbn [assign modify fst snd app];
       unfold bind at 1; cbn [self gets fst snd];
       rewrite Hbar; cbn [set_is_changing _is_changing ret app fst snd];
       replace (set_is_changing false
                  (set_text P (set_is_changing true (_path_bar w))))
         with (set_text P (_path_bar w));
       [reflexivity|];
       unfold set_text, set_is_changing;
       cbn [_text_widget _is_changing _old_widget_state _validator _text];
       now rewrite Hch).
  - cbn. reflexivity.
Qed.

End Wired.

(** X22. [_path_bar_on_nav_path_change] does nothing while the path bar is
    changing, and nothing when the bar already holds the navigator's path.
    Otherwise it writes the navigator's path into the bar without
    notifying (the bar's validator accepting it, the widget in a listed
    state): the bar and its Tk widget hold that path, the widget keeps its
    state, the label is [NORMAL] if the key is found and [DISABLED] if
    not, the navigator is not moved and no handler is called. When the
    validator rejects the navigator's path the handler raises
    [ValueError] and changes nothing. *)
Theorem path_bar_follows_navigator :
  ∀ (X PyHKEY Handler : Type) (Heq : EqDecision Handler)
    (api : Win32 X PyHKEY)
    (run : Handler -> option Eventor.payload -> Editor X
           -> outcome unit * Editor X)
    (bar_handlers : Eventor.handlers_dict) (w : Editor X),
    let r := _path_bar_on_nav_path_change api run bar_handlers w in
    (is_changing (_path_bar w) = true -> r = (Ret tt, w, []))
    ∧ (_path_nav w = text (_path_bar w) -> r = (Ret tt, w, []))
    ∧ (is_changing (_path_bar w) = false ->
       _path_nav w ≠ text (_path_bar w) ->
       text_is_valid (_path_bar w) (_path_nav w) = Ret false ->
       r = (Raise ValueError, w, []))
    ∧ (is_changing (_path_bar w) = false ->
       _path_nav w ≠ text (_path_bar w) ->
       text_is_valid (_path_bar w) (_path_nav w) = Ret true ->
       is_state (state (_text_widget (_path_bar w))) = true ->
       ∀ (b : bool) (x1 : X),
         key_check api (_path_nav w) (rest w) b x1 ->
         ∃ bar',
           r = (Ret tt,
                {| _path_nav := _path_nav w; _path_bar := bar';
                   _path_bar_label := if b then NORMAL else DISABLED;
                   rest := x1 |}, [])
           ∧ text bar' = _path_nav w
           ∧ value (_text_widget bar') = _path_nav w
           ∧ state (_text_widget bar') = state (_text_widget (_path_bar w))
           ∧ is_changing bar' = false
           ∧ _validator bar' = _validator (_path_bar w)).
Proof.
  intros X PyHKEY Handler Heq api run bar_handlers w r.
  split; [|split; [|split]].
  - intros Hch. apply on_nav_path_change_idle. now left.
  - intros Heq'. apply on_nav_path_change_idle. now right.
  - apply on_nav_path_change_rejected.
  - intros Hch Hne Hvalid Hst b x1 Hex. eexists. split.
    + exact (on_nav_path_change_writes api run bar_handlers w b x1 Hch Hne
               Hvalid Hst Hex).
    + repeat split.
Qed.

Lemma path_bar_follows_navigator_witness :
  let bar := Samples.plain_entry "normal" in
  let w := {| _path_nav := "HKEY_CURRENT_USER\Software"; _path_bar := bar;
              _path_bar_label := "disabled"; rest := tt |} in
  ∃ bar',
    _path_bar_on_nav_path_change (Handler:=nat) (Samples.one_key_in unit)
      Samples.run_idle ∅ w
    = (Ret tt,
       {| _path_nav := "HKEY_CURRENT_USER\Software"; _path_bar := bar';
          _path_bar_label := "normal"; rest := tt |}, [])
    ∧ text bar' = "HKEY_CURRENT_USER\Software"%string.
Proof.
  intros bar w.
  destruct (path_bar_follows_navigator unit nat nat _ (Samples.one_key_in unit)
              Samples.run_idle ∅ w) as (_ & _ & _ & H).
  destruct (H eq_refl ltac:(discriminate) eq_refl eq_refl true tt
              ltac:(intros T; reflexivity))
    as (bar' & E & Ht & _).
  exists bar'. split; [exact E | exact Ht].
Defined.


(** X23. [_path_bar_on_text_change] checks the key of the path bar's text
    twice, for the label and for itself. When the key is not found the
    label is [DISABLED], the navigator is not moved, no handler is called
    and no warning is shown. When it is found the label is [NORMAL] and
    the navigator is sent to the text with the check on: if that third
    check finds the key (handlers keeping the editor), the text is the
    active path, with the handlers of [PATH_CHANGE_SOON] called at the
    old path and those of [PATH_CHANGE_DONE] at the new one; if it does
    not, the active path stays and a warning is shown. The path bar
    itself is left as it is. *)
Theorem path_bar_text_sends_navigator :
  ∀ (X PyHKEY Handler : Type) (Heq : EqDecision Handler)
    (api : Win32 X PyHKEY)
    (run : Handler -> option Eventor.payload -> Editor X
           -> outcome unit * Editor X)
    (showwarning : string -> string -> X -> X)
    (nav_handlers : Eventor.handlers_dict) (w : Editor X) (x1 x2 x3 : X),
    let P := text (_path_bar w) in
    let r := _path_bar_on_text_change api run showwarning nav_handlers w in
    (key_check api P (rest w) false x1 ->
     key_check api P x1 false x2 ->
     r = (Ret tt,
          {| _path_nav := _path_nav w; _path_bar := _path_bar w;
             _path_bar_label := DISABLED; rest := x2 |}, []))
    ∧ (key_check api P (rest w) true x1 ->
       key_check api P x1 true x2 ->
       key_check api P x2 false x3 ->
       r = (Ret tt,
            {| _path_nav := _path_nav w; _path_bar := _path_bar w;
               _path_bar_label := NORMAL;
               rest := showwarning "Error"
                         ("Cannot open key: `" +:+ P +:+ "`.") x3 |}, []))
    ∧ (key_check api P (rest w) true x1 ->
       key_check api P x1 true x2 ->
       key_check api P x2 true x3 ->
       keep_editor run ->
       ∃ x' t,
         r = (Ret tt,
              {| _path_nav := P; _path_bar := _path_bar w;
                 _path_bar_label := NORMAL; rest := x' |}, t)
         ∧ (fun c => (Eventor.call_event c, Eventor.call_wrapper c,
                      _path_nav (Eventor.call_world c))) <$> t
           = ((fun hw => (Some PATH_CHANGE_SOON, hw, _path_nav w))
              <$> (Eventor.handlers_for nav_handlers (Some PATH_CHANGE_SOON)
                   ++ Eventor.handlers_for nav_handlers None))
             ++ ((fun hw => (Some PATH_CHANGE_DONE, hw, P))
                 <$> (Eventor.handlers_for nav_handlers (Some PATH_CHANGE_DONE)
                      ++ Eventor.handlers_for nav_handlers None))).
Proof.
  intros X PyHKEY Handler Heq api run showwarning nav_handlers w x1 x2 x3 P r.
  pose proof (on_text_change_step api run showwarning nav_handlers w) as Hstep.
  fold P r in Hstep.
  split; [|split].
  - intros E1 E2. rewrite (Hstep false false x1 x2 E1 E2). reflexivity.
  - intros E1 E2 E3. rewrite (Hstep true true x1 x2 E1 E2).
    unfold bind.
    rewrite (path_nav_goto_missing api run showwarning nav_handlers P _ x3)
      by apply E3.
    reflexivity.
  - intros E1 E2 E3 Hkeep. rewrite (Hstep true true x1 x2 E1 E2).
    destruct (path_nav_goto_found api run showwarning nav_handlers P
                (set_path_bar_label NORMAL (set_rest x2 w)) x3 Hkeep
                ltac:(apply E3)) as (x' & t & Hgo & Ht).
    exists x', t. split.
    + unfold bind. rewrite Hgo. cbn [ret]. now rewrite app_nil_r.
    + apply (f_equal (fmap (fun v : option string
                                     * Eventor._EventHandlerWrapper Handler
                                     * Eventor.payload
                                     * (string * EntryVidget * string) =>
                              (v.1.1.1, v.1.1.2, v.2.1.1)))) in Ht.
      rewrite <- list_fmap_compose in Ht. rewrite fmap_app in Ht.
      rewrite <- !list_fmap_compose in Ht. exact Ht.
Qed.


Lemma path_bar_text_sends_navigator_witness :
  let bar := Samples.plain_entry "normal" in
  let w := {| _path_nav := "HKEY_CURRENT_USER"; _path_bar := bar;
              _path_bar_label := "normal"; rest := [] |} in
  _path_bar_on_text_change (Handler:=nat) (Samples.one_key_in (list string))
    Samples.run_idle Samples.log_warning ∅ w
  = (Ret tt,
     {| _path_nav := "HKEY_CURRENT_USER"; _path_bar := bar;
        _path_bar_label := "disabled"; rest := [] |}, []).
Proof.
  intros bar w.
  destruct (path_bar_text_sends_navigator (list string) nat nat _
              (Samples.one_key_in (list string)) Samples.run_idle
              Samples.log_warning ∅ w [] [] []) as (Hmissing & _).
  apply Hmissing; intros T; reflexivity.
Defined.

(** X24. In the editor as [_widget_bind] wires it, [_path_nav_goto] on a
    key that is found (the handlers of the two listboxes keeping the
    navigator, the path bar and the label) returns [True] with that key
    path active, after calling for [PATH_CHANGE_DONE] the path bar's
    handler and then the two others, each at the new path. If the path
    bar was not changing (its validator accepting the path, its widget in
    a listed state), the bar holds the new path afterwards and the label
    tells whether the bar's own check found the key; if the bar was
    changing, or held the path already, the bar and the label are as they
    were. *)
Theorem navigation_updates_path_bar :
  ∀ (X PyHKEY H : Type) (Heq : EqDecision H) (api : Win32 X PyHKEY)
    (run_other : H -> option Eventor.payload -> Editor X
                 -> outcome unit * Editor X)
    (showwarning : string -> string -> X -> X) (child_keys fields : H)
    (depth : nat) (P : string) (w : Editor X) (x1 : X),
    keep_editor run_other ->
    key_check api P (rest w) true x1 ->
    let nav_handlers := nav_handlers_bound child_keys fields in
    let r := _path_nav_goto api
               (run_bound api run_other showwarning bar_handlers_bound
                  nav_handlers (S depth))
               showwarning nav_handlers P w in
    let called (t : list (Eventor.call (Editor X) (bound H))) :=
      (fun c => (Eventor.call_event c, Eventor.handler (Eventor.call_wrapper c),
                 _path_nav (Eventor.call_world c))) <$> t
      = [ (Some PATH_CHANGE_DONE, path_bar_on_nav_path_change, P);
          (Some PATH_CHANGE_DONE, other child_keys, P);
          (Some PATH_CHANGE_DONE, other fields, P) ] in
    (is_changing (_path_bar w) = true ∨ P = text (_path_bar w) ->
     ∃ x' t,
       r = (Ret true,
            {| _path_nav := P; _path_bar := _path_bar w;
               _path_bar_label := _path_bar_label w; rest := x' |}, t)
       ∧ called t)
    ∧ (is_changing (_path_bar w) = false ->
       P ≠ text (_path_bar w) ->
       text_is_valid (_path_bar w) P = Ret true ->
       is_state (state (_text_widget (_path_bar w))) = true ->
       ∀ (b : bool) (x2 : X),
         key_check api P x1 b x2 ->
         ∃ bar' x' t,
           r = (Ret true,
                {| _path_nav := P; _path_bar := bar';
                   _path_bar_label := if b then NORMAL else DISABLED;
                   rest := x' |}, t)
           ∧ called t
           ∧ text bar' = P
           ∧ value (_text_widget bar') = P
           ∧ state (_text_widget bar') = state (_text_widget (_path_bar w))
           ∧ is_changing bar' = false).
Proof.
  intros X PyHKEY H Heq api run_other showwarning child_keys fields depth P w
    x1 Hkeep Hex nav_handlers r called.
  split.
  - intros Hcase.
    destruct (wired_goto api run_other showwarning child_keys fields depth P w
                (set_path_nav P (set_rest x1 w)) x1 Hkeep Hex)
      as (x' & t & Hgo & Ht); [|reflexivity|].
    + apply on_nav_path_change_idle. exact Hcase.
    + exists x', t. split; [exact Hgo | exact Ht].
  - intros Hch Hne Hvalid Hst b x2 Hex2.
    destruct (wired_goto api run_other showwarning child_keys fields depth P w
                _ x1 Hkeep Hex
                (on_nav_path_change_writes api _ bar_handlers_bound
                   (set_path_nav P (set_rest x1 w)) b x2 Hch Hne Hvalid Hst
                   Hex2) eq_refl)
      as (x' & t & Hgo & Ht).
    eexists _, x', t. split; [exact Hgo|]. split; [exact Ht|]. repeat split.
Qed.

Lemma navigation_updates_path_bar_witness :
  let w := {| _path_nav := ""; _path_bar := Samples.plain_entry "normal";
              _path_bar_label := "normal"; rest := tt |} in
  ∃ bar' x' t,
    _path_nav_goto (Samples.one_key_in unit)
      (run_bound (Samples.one_key_in unit) Samples.run_idle Samples.no_dialog
         bar_handlers_bound (nav_handlers_bound 1%nat 2%nat) 1)
      Samples.no_dialog (nav_handlers_bound 1%nat 2%nat)
      "HKEY_CURRENT_USER\Software" w
    = (Ret true,
       {| _path_nav := "HKEY_CURRENT_USER\Software"; _path_bar := bar';
          _path_bar_label := "normal"; rest := x' |}, t)
    ∧ text bar' = "HKEY_CURRENT_USER\Software"%string.
Proof.
  intros w.
  assert (Hkeep : keep_editor (X:=unit) (Samples.run_idle (W:=Editor unit))).
  { intros h a w0. exists (rest w0). now destruct w0. }
  destruct (navigation_updates_path_bar unit nat nat _ (Samples.one_key_in unit)
              Samples.run_idle Samples.no_dialog 1%nat 2%nat 0%nat
              "HKEY_CURRENT_USER\Software" w tt Hkeep
              ltac:(intros T; reflexivity)) as (_ & Hw).
  destruct (Hw eq_refl ltac:(discriminate) eq_refl eq_refl true tt
              ltac:(intros T; reflexivity))
    as (bar' & x' & t & E & _ & Ht & _).
  exists bar', x', t. split; [exact E | exact Ht].
Defined.

(** X25. A key stroke in the path bar of the editor as [_widget_bind]
    wires it, giving a text [P] that the bar's validator accepts, on a
    bar that is not changing: the validator wrapper answers [True], the
    bar holds [P] with the changing flag off again, and the bar's one
    handler has been called once, for [TEXT_CHANGE_DONE], with [P] in the
    bar and the changing flag on. If the key [P] is not found, the label
    is [DISABLED] and the navigator is not moved. If it is found, the
    label is [NORMAL] and the navigator is sent to [P]: when its own
    check finds the key (the handlers of the two listboxes keeping the
    navigator, the bar and the label), [P] is the active path, and the
    notification of the navigator, which finds the bar changing, does not
    come back to the bar; when that check fails, the active path stays
    and a warning is shown. *)
Theorem key_stroke_in_path_bar :
  ∀ (X PyHKEY H : Type) (Heq : EqDecision H) (api : Win32 X PyHKEY)
    (run_other : H -> option Eventor.payload -> Editor X
                 -> outcome unit * Editor X)
    (showwarning : string -> string -> X -> X) (child_keys fields : H)
    (depth : nat) (P : string) (w : Editor X) (v : string -> outcome bool)
    (x1 x2 x3 : X),
    is_changing (_path_bar w) = false ->
    _validator (_path_bar w) = Some v ->
    v P = Ret true ->
    let nav_handlers := nav_handlers_bound child_keys fields in
    let r := path_bar_validator_wrapper
               (run_bound api run_other showwarning bar_handlers_bound
                  nav_handlers (S (S depth)))
               bar_handlers_bound P w in
    let called (t : list (Eventor.call (Editor X) (bound H))) :=
      (fun c => (Eventor.call_event c, Eventor.handler (Eventor.call_wrapper c),
                 text (_path_bar (Eventor.call_world c)),
                 is_changing (_path_bar (Eventor.call_world c)))) <$> t
      = [ (Some TEXT_CHANGE_DONE, path_bar_on_text_change, P, true) ] in
    (key_check api P (rest w) false x1 ->
     key_check api P x1 false x2 ->
     ∃ t,
       r = (Ret true,
            {| _path_nav := _path_nav w; _path_bar := set_text P (_path_bar w);
               _path_bar_label := DISABLED; rest := x2 |}, t)
       ∧ called t)
    ∧ (key_check api P (rest w) true x1 ->
       key_check api P x1 true x2 ->
       key_check api P x2 false x3 ->
       ∃ t,
         r = (Ret true,
              {| _path_nav := _path_nav w;
                 _path_bar := set_text P (_path_bar w);
                 _path_bar_label := NORMAL;
                 rest := showwarning "Error"
                           ("Cannot open key: `" +:+ P +:+ "`.") x3 |}, t)
         ∧ called t)
    ∧ (key_check api P (rest w) true x1 ->
       key_check api P x1 true x2 ->
       key_check api P x2 true x3 ->
       keep_editor run_other ->
       ∃ x' t,
         r = (Ret true,
              {| _path_nav := P; _path_bar := set_text P (_path_bar w);
                 _path_bar_label := NORMAL; rest := x' |}, t)
         ∧ called t).
Proof.
  intros X PyHKEY H Heq api run_other showwarning child_keys fields depth P w v
    x1 x2 x3 Hch Hv HvP nav_handlers r called.
  set (RB1 := run_bound api run_other showwarning bar_handlers_bound
                nav_handlers (S depth)).
  set (w_mid := set_path_bar (set_text P (set_is_changing true (_path_bar w)))
                  w).
  pose proof (on_text_change_step api RB1 showwarning nav_handlers w_mid)
    as Hstep.
  split; [|split].
  - intros E1 E2.
    destruct (wired_key_stroke api run_other showwarning child_keys fields
                depth P w _ v _ Hch Hv HvP
                (Hstep false false x1 x2 E1 E2) eq_refl) as (t & Hr & Ht).
    exists t. split; [exact Hr | exact Ht].
  - intros E1 E2 E3.
    assert (Hhandler :
      _path_bar_on_text_change api RB1 showwarning nav_handlers w_mid
      = (Ret tt,
         set_rest (showwarning "Error" ("Cannot open key: `" +:+ P +:+ "`.")
                     x3)
           (set_path_bar_label NORMAL (set_rest x2 w_mid)), [])).
    { rewrite (Hstep true true x1 x2 E1 E2). unfold bind.
      rewrite (path_nav_goto_missing api RB1 showwarning nav_handlers
                 (text (_path_bar w_mid)) _ x3) by apply E3.
      reflexivity. }
    destruct (wired_key_stroke api run_other showwarning child_keys fields
                depth P w _ v _ Hch Hv HvP Hhandler eq_refl)
      as (t & Hr & Ht).
    exists t. split; [exact Hr | exact Ht].
  - intros E1 E2 E3 Hkeep.
    destruct (wired_goto api run_other showwarning child_keys fields depth
                P (set_path_bar_label NORMAL (set_rest x2 w_mid))
                (set_path_nav P
                   (set_rest x3 (set_path_bar_label NORMAL
                                   (set_rest x2 w_mid))))
                x3 Hkeep E3) as (x' & t1 & Hgo & _); [|reflexivity|].
    { apply on_nav_path_change_idle. left. reflexivity. }
    assert (Hhandler :
      _path_bar_on_text_change api RB1 showwarning nav_handlers w_mid
      = (Ret tt,
         set_rest x'
           (set_path_nav P
              (set_rest x3 (set_path_bar_label NORMAL (set_rest x2 w_mid)))),
         t1)).
    { rewrite (Hstep true true x1 x2 E1 E2). unfold bind.
      change (text (_path_bar w_mid)) with P. unfold RB1, nav_handlers.
      rewrite Hgo. cbn [ret]. now rewrite app_nil_r. }
    destruct (wired_key_stroke api run_other showwarning child_keys fields
                depth P w _ v _ Hch Hv HvP Hhandler eq_refl)
      as (t & Hr & Ht).
    exists x', t. split; [exact Hr | exact Ht].
Qed.

Lemma key_stroke_in_path_bar_witness :
  let w := {| _path_nav := ""; _path_bar := Samples.plain_entry "normal";
              _path_bar_label := "normal"; rest := tt |} in
  (∃ x' t,
      path_bar_validator_wrapper
        (run_bound (Samples.one_key_in unit) Samples.run_idle Samples.no_dialog
           bar_handlers_bound (nav_handlers_bound 1%nat 2%nat) 2)
        bar_handlers_bound "HKEY_CURRENT_USER\Software" w
      = (Ret true,
         {| _path_nav := "HKEY_CURRENT_USER\Software";
            _path_bar := set_text "HKEY_CURRENT_USER\Software"
                           (Samples.plain_entry "normal");
            _path_bar_label := "normal"; rest := x' |}, t))
  ∧ (∃ t,
        path_bar_validator_wrapper
          (run_bound (Samples.one_key_in unit) Samples.run_idle
             Samples.no_dialog bar_handlers_bound
             (nav_handlers_bound 1%nat 2%nat) 2)
          bar_handlers_bound "HKEY_CURRENT_USER\Softwar" w
        = (Ret true,
           {| _path_nav := "";
              _path_bar := set_text "HKEY_CURRENT_USER\Softwar"
                             (Samples.plain_entry "normal");
              _path_bar_label := "disabled"; rest := tt |}, t)).
Proof.
  intros w.
  assert (Hkeep : keep_editor (X:=unit) (Samples.run_idle (W:=Editor unit))).
  { intros h a w0. exists (rest w0). now destruct w0. }
  split.
  - destruct (key_stroke_in_path_bar unit nat nat _ (Samples.one_key_in unit)
                Samples.run_idle Samples.no_dialog 1%nat 2%nat 0%nat
                "HKEY_CURRENT_USER\Software" w Entry._DEFAULT_VALIDATOR
                tt tt tt eq_refl eq_refl eq_refl) as (_ & _ & Hfound).
    destruct (Hfound ltac:(intros T; reflexivity) ltac:(intros T; reflexivity)
                ltac:(intros T; reflexivity) Hkeep) as (x' & t & E & _).
    exists x', t. exact E.
  - destruct (key_stroke_in_path_bar unit nat nat _ (Samples.one_key_in unit)
                Samples.run_idle Samples.no_dialog 1%nat 2%nat 0%nat
                "HKEY_CURRENT_USER\Softwar" w Entry._DEFAULT_VALIDATOR
                tt tt tt eq_refl eq_refl eq_refl) as (Hmissing & _).
    destruct (Hmissing ltac:(intros T; reflexivity)
                ltac:(intros T; reflexivity)) as (t & E & _).
    exists t. exact E.
Defined.

End EditorPathBarFacts.
